(** * Solar panel rooftop analyzer: a shallow embedding of [analyze_rooftop.py]

    The development follows the layout of the Python sources:
    - [Py]: the fragment of Python's numeric behaviour the code relies on
      (floats idealised as rationals, [int], [round], [range], slices,
      exceptions);
    - [Config]: the configuration dictionary and [DEFAULT_CONFIG];
    - [Energy], [Suitability]: [_calculate_energy] and [_rate_suitability];
    - [Placement]: the grid scan of [_place_panels_with_orientation] over a
      store of arrays, and [_place_panels_optimized];
    - [Detector]: [_non_max_suppression];
    - [Obstacles]: [_detect_obstacles];
    - [Pipeline]: the per-rooftop loops of [analyze_image] and of
      [batch_analyze_buildings];
    - [Exc], [RoofForSolar], [Img], [Layout], [Json]: the numeric functions,
      the usable zones, the panel grid and the JSON conversion of
      [SolarPanelOptimizer.py];
    - [RooftopDetector], [Analysis], [AnalyzeImage]: [detect_rooftops],
      [analyze_rooftop] and [analyze_image] of [analyze_rooftop.py];
    - [Main]: the annotation loop of [main.py]. *)

From Stdlib Require Import ZArith QArith Qabs Qround Qminmax Lia Lqa List Permutation.
From stdpp Require Import gmap strings list.
From Equations Require Import Equations.

Open Scope Z_scope.

(** ** Python values and exceptions *)

Module Py.

(** Exceptions the modelled code can raise. *)
Inductive exn : Type :=
| ZeroDivisionError
| ValueError
| CvError.

Inductive result (A : Type) : Type :=
| Ok (a : A)
| Raise (e : exn).
Arguments Ok {A} a.
Arguments Raise {A} e.

#[global] Instance result_ret : MRet result := fun A a => Ok a.

#[global] Instance result_bind : MBind result := fun A B k r =>
  match r with
  | Ok a => k a
  | Raise e => Raise e
  end.

(** A Python [float] is read as the rational it denotes, a value of [Q];
    rounding error of the binary representation is not modelled. *)

(** [a / b] on floats. *)
Definition truediv (a b : Q) : result Q :=
  if Qeq_bool b 0 then Raise ZeroDivisionError else Ok (a / b)%Q.

Definition Qlt_bool (a b : Q) : bool := negb (Qle_bool b a).

(** [int(x)]: truncation toward zero. *)
Definition int (x : Q) : Z := Z.quot (Qnum x) (Zpos (Qden x)).

(** Rounding to the nearest integer, ties to the even neighbour. *)
Definition round_half_even (x : Q) : Z :=
  let f := Qfloor x in
  match ((x - inject_Z f) ?= 1 # 2)%Q with
  | Lt => f
  | Gt => f + 1
  | Eq => if Z.even f then f else f + 1
  end.

(** [round(x, ndigits)]. *)
Definition round (x : Q) (ndigits : nat) : Q :=
  let scale := inject_Z (10 ^ Z.of_nat ndigits) in
  (inject_Z (round_half_even (x * scale)) / scale)%Q.

(** [range(start, stop, step)] as the list of its elements; a zero step
    raises [ValueError]. *)
Fixpoint range_up (n : nat) (start step : Z) : list Z :=
  match n with
  | O => []
  | S n' => start :: range_up n' (start + step) step
  end.

Definition range_len (start stop step : Z) : Z :=
  if 0 <? step then
    if start <? stop then (stop - start - 1) / step + 1 else 0
  else
    if stop <? start then (start - stop - 1) / (- step) + 1 else 0.

Definition range (start stop step : Z) : result (list Z) :=
  if step =? 0 then Raise ValueError
  else Ok (range_up (Z.to_nat (range_len start stop step)) start step).

(** Bounds of the slice [a[lo:hi]] of a sequence of length [len]: negative
    indices count from the end and both ends are clamped. *)
Definition slice_index (i len : Z) : Z :=
  if i <? 0 then Z.max 0 (i + len) else Z.min i len.

Definition slice_bounds (lo hi len : Z) : Z * Z :=
  (slice_index lo len, slice_index hi len).

End Py.

(** ** Configuration *)

Module Config.

(** The configuration is a dictionary from option names to numbers. *)
Abbreviation t := (gmap string Q).

Definition DEFAULT_CONFIG : t :=
  list_to_map
    [ ("latitude"%string, (286139 # 10000)%Q);
      ("longitude"%string, (772090 # 10000)%Q);
      ("pixel_to_meter"%string, (15 # 100)%Q);
      ("panel_width_m"%string, 1%Q);
      ("panel_height_m"%string, (17 # 10)%Q);
      ("panel_efficiency"%string, (20 # 100)%Q);
      ("panel_power_w"%string, 300%Q);
      ("min_building_area"%string, 500%Q);
      ("max_building_area"%string, 50000%Q);
      ("edge_margin_percent"%string, (10 # 100)%Q);
      ("panel_spacing_m"%string, (1 # 10)%Q) ].

(** [{**DEFAULT_CONFIG, **(config or {})}]: the supplied entries win. *)
Definition merge (config : option t) : t :=
  match config with
  | Some c => c ∪ DEFAULT_CONFIG
  | None => DEFAULT_CONFIG
  end.

(** [config[key]].  Every key the code reads is a key of [DEFAULT_CONFIG],
    hence present in every merged configuration (see
    [merge_has_defaults]); the fall-back value is never used on those. *)
Definition get (c : t) (key : string) : Q := default 0%Q (c !! key).

End Config.

(** ** The optimizer object *)

Record SolarPanelOptimizer : Type := {
  config : Config.t;
  panel_width_px : Z;
  panel_height_px : Z
}.

(** [SolarPanelOptimizer.__init__]. *)
Definition SolarPanelOptimizer_init (cfg : option Config.t)
  : Py.result SolarPanelOptimizer :=
  let c := Config.merge cfg in
  w ← Py.truediv (Config.get c "panel_width_m") (Config.get c "pixel_to_meter");
  h ← Py.truediv (Config.get c "panel_height_m") (Config.get c "pixel_to_meter");
  mret {| config := c; panel_width_px := Py.int w; panel_height_px := Py.int h |}.

(** ** Energy model *)

Module Energy.

Record info : Type := {
  system_capacity_kw : Q;
  total_panel_area_m2 : Q;
  estimated_annual_kwh : Q;
  estimated_monthly_kwh : Q;
  estimated_daily_kwh : Q;
  co2_offset_kg_year : Q
}.

Section WithSelf.
Variable self : SolarPanelOptimizer.
Let cfg := Config.get (config self).

Definition panel_area_m2 : Q := (cfg "panel_width_m" * cfg "panel_height_m")%Q.

Definition total_area_m2 (num_panels : Z) : Q :=
  (inject_Z num_panels * panel_area_m2)%Q.

Definition capacity_kw (num_panels : Z) : Q :=
  ((inject_Z num_panels * cfg "panel_power_w") / 1000)%Q.

Definition base_irradiance : Q := (2200 - Qabs (cfg "latitude") * 8)%Q.

(** The local [annual_kwh], before any rounding. *)
Definition annual_kwh (num_panels : Z) : Q :=
  (total_area_m2 num_panels * base_irradiance * cfg "panel_efficiency" * (86 # 100))%Q.

Definition _calculate_energy (num_panels : Z) : info :=
  let annual := annual_kwh num_panels in
  {| system_capacity_kw := Py.round (capacity_kw num_panels) 2;
     total_panel_area_m2 := Py.round (total_area_m2 num_panels) 2;
     estimated_annual_kwh := Py.round annual 0;
     estimated_monthly_kwh := Py.round (annual / 12) 0;
     estimated_daily_kwh := Py.round (annual / 365) 1;
     co2_offset_kg_year := Py.round (annual * (82 # 100)) 0 |}.

End WithSelf.
End Energy.

(** ** Rooftops *)

(** A contour is the array of its integer points. *)
Abbreviation Contour := (list (Z * Z)).

Module Rooftop.

Record rect : Type := {
  rect_center : Q * Q;
  width : Q;
  height : Q;
  angle : Q
}.

(** The dictionary built by [RooftopDetector._analyze_rooftop]. *)
Record t : Type := {
  id : Z;
  contour : Contour;
  area_pixels : Q;
  area_m2 : Q;
  center : Z * Z;
  bounding_rect : rect;
  box_points : list (Z * Z)
}.

End Rooftop.

(** ** Suitability score *)

Module Suitability.

Inductive rating : Type := Excellent | Good | Fair | Poor.

Record t : Type := {
  score : Z;
  rating_of : rating;
  max_score : Z;
  obstacles_found : Z
}.

(** [rect['width'] / rect['height'] if rect['height'] > 0 else 1]. *)
Definition aspect_ratio (rect : Rooftop.rect) : Py.result Q :=
  if Py.Qlt_bool 0 (Rooftop.height rect)
  then Py.truediv (Rooftop.width rect) (Rooftop.height rect)
  else mret 1%Q.

Definition _rate_suitability (rooftop : Rooftop.t) (num_panels obstacle_count : Z)
  : Py.result t :=
  let score := 0 in
  (* Area score (0-35 points) *)
  let area := Rooftop.area_m2 rooftop in
  let score :=
    if Qle_bool 50 area then score + 35
    else if Qle_bool 30 area then score + 25
    else if Qle_bool 20 area then score + 15
    else score in
  (* Panel count score (0-35 points) *)
  let score :=
    if 10 <=? num_panels then score + 35
    else if 5 <=? num_panels then score + 25
    else if 2 <=? num_panels then score + 15
    else score in
  (* Shape score (0-15 points) *)
  let rect := Rooftop.bounding_rect rooftop in
  aspect_ratio ← aspect_ratio rect;
  let score :=
    if Qle_bool (8 # 10) aspect_ratio && Qle_bool aspect_ratio (15 # 10) then score + 15
    else if Qle_bool (5 # 10) aspect_ratio && Qle_bool aspect_ratio 2 then score + 10
    else score in
  (* Obstacle penalty (0-15 points) *)
  let score :=
    if obstacle_count =? 0 then score + 15
    else if obstacle_count <=? 2 then score + 10
    else if obstacle_count <=? 5 then score + 5
    else score in
  let rating :=
    if 80 <=? score then Excellent
    else if 60 <=? score then Good
    else if 40 <=? score then Fair
    else Poor in
  mret {| score := score; rating_of := rating; max_score := 100;
          obstacles_found := obstacle_count |}.

End Suitability.

(** ** Arrays *)

Module Np.

(** A two-dimensional [uint8] array: its shape (rows, columns) and the value
    at each (row, column). *)
Record ndarray : Type := {
  shape : Z * Z;
  pix : Z -> Z -> Z
}.

Definition zeros (shp : Z * Z) : ndarray := {| shape := shp; pix := fun _ _ => 0 |}.

(** A rectangular view [a[r0:r1, c0:c1]], bounds already resolved. *)
Record view : Type := { r0 : Z; r1 : Z; c0 : Z; c1 : Z }.

(** [a[y0:y1, x0:x1]]. *)
Definition slice (a : ndarray) (y0 y1 x0 x1 : Z) : view :=
  let '(rows, cols) := shape a in
  let '(ra, rb) := Py.slice_bounds y0 y1 rows in
  let '(ca, cb) := Py.slice_bounds x0 x1 cols in
  {| r0 := ra; r1 := rb; c0 := ca; c1 := cb |}.

(** [region.size]. *)
Definition size (v : view) : Z := Z.max 0 (r1 v - r0 v) * Z.max 0 (c1 v - c0 v).

Definition cells (v : view) : list (Z * Z) :=
  i ← seqZ (r0 v) (r1 v - r0 v); j ← seqZ (c0 v) (c1 v - c0 v); [(i, j)].

Definition in_view (v : view) (i j : Z) : bool :=
  (r0 v <=? i) && (i <? r1 v) && (c0 v <=? j) && (j <? c1 v).

(** [np.sum(region > 0)]. *)
Definition count_positive (a : ndarray) (v : view) : Z :=
  Z.of_nat (length (filter (fun c => 0 < pix a c.1 c.2) (cells v))).

(** The array after [a[view] = value]. *)
Definition fill (a : ndarray) (v : view) (value : Z) : ndarray :=
  {| shape := shape a;
     pix := fun i j => if in_view v i j then value else pix a i j |}.

(** Arrays are objects: a variable holds a reference into the store, and an
    assignment through one reference is seen through every alias. *)
Abbreviation loc := positive.
Abbreviation heap := (gmap positive ndarray).

(** Computations that read and write the store and may raise.  The store
    survives an exception. *)
Definition M (A : Type) : Type := heap -> Py.result A * heap.

#[global] Instance M_ret : MRet M := fun A a h => (Py.Ok a, h).

#[global] Instance M_bind : MBind M := fun A B k m h =>
  match m h with
  | (Py.Ok a, h') => k a h'
  | (Py.Raise e, h') => (Py.Raise e, h')
  end.

Definition lift {A} (r : Py.result A) : M A := fun h => (r, h).

Definition alloc (a : ndarray) : M loc := fun h =>
  let l := fresh (dom h) in (Py.Ok l, <[l := a]> h).

(** References are only ever obtained from [alloc], so the fall-back value
    of [load] is not observed by the code. *)
Definition load (l : loc) : M ndarray := fun h =>
  (Py.Ok (default (zeros (0, 0)) (h !! l)), h).

Definition store (l : loc) (a : ndarray) : M unit := fun h =>
  (Py.Ok tt, <[l := a]> h).

(** [a.copy()]. *)
Definition copy (l : loc) : M loc := a ← load l; alloc a.

(** [a[y0:y1, x0:x1] = value]. *)
Definition setitem (l : loc) (v : view) (value : Z) : M unit :=
  a ← load l; store l (fill a v value).

(** [for x in xs: s = body(x, s)]. *)
Fixpoint for_each {S : Type} (xs : list Z) (body : Z -> S -> M S) (s : S) : M S :=
  match xs with
  | [] => mret s
  | x :: xs' => s' ← body x s; for_each xs' body s'
  end.

End Np.

(** ** Panels *)

Module Panel.

Record xy : Type := { x : Q; y : Q }.
Record dims_px : Type := { width_px : Z; height_px : Z }.
Record dims_m : Type := { width_m : Q; height_m : Q }.

Record t : Type := {
  panel_id : Z;
  center : xy;
  corners : list xy;
  rotation_degrees : Q;
  dimensions_pixels : dims_px;
  dimensions_meters : dims_m
}.

End Panel.

(** ** Panel placement *)

Module Placement.
Import Np.

Section WithLibraries.

(** [math.radians], [math.cos], [math.sin] and [cv2.pointPolygonTest] are
    library functions; their results are not constrained here. *)
Context (radians cos sin : Q -> Q).
Context (pointPolygonTest : Contour -> Q * Q -> bool -> Q).

Variable self : SolarPanelOptimizer.
Let cfg := Config.get (config self).

Definition _check_corners_in_contour (x y w h : Z) (contour : Contour) : bool :=
  let corners :=
    [ (x + w / 4, y + h / 4);
      (x + 3 * w / 4, y + h / 4);
      (x + w / 4, y + 3 * h / 4);
      (x + 3 * w / 4, y + 3 * h / 4) ] in
  let valid_count :=
    fold_left
      (fun valid_count '(cx, cy) =>
         let result := pointPolygonTest contour (inject_Z cx, inject_Z cy) false in
         if Qle_bool 0 result then valid_count + 1 else valid_count)
      corners 0 in
  3 <=? valid_count.

Definition _create_panel_geometry (panel_id x y width height : Z) (angle : Q)
  : Panel.t :=
  let center_x := (inject_Z x + inject_Z width / 2)%Q in
  let center_y := (inject_Z y + inject_Z height / 2)%Q in
  let corners_local :=
    [ (x, y); (x + width, y); (x + width, y + height); (x, y + height) ] in
  let angle_rad := radians angle in
  let corners_rotated :=
    map (fun '(cx, cy) =>
           let dx := (inject_Z cx - center_x)%Q in
           let dy := (inject_Z cy - center_y)%Q in
           let rx := (dx * cos angle_rad - dy * sin angle_rad)%Q in
           let ry := (dx * sin angle_rad + dy * cos angle_rad)%Q in
           {| Panel.x := Py.round (center_x + rx) 2;
              Panel.y := Py.round (center_y + ry) 2 |})
        corners_local in
  {| Panel.panel_id := panel_id;
     Panel.center := {| Panel.x := Py.round center_x 2; Panel.y := Py.round center_y 2 |};
     Panel.corners := corners_rotated;
     Panel.rotation_degrees := Py.round angle 2;
     Panel.dimensions_pixels := {| Panel.width_px := width; Panel.height_px := height |};
     Panel.dimensions_meters :=
       {| Panel.width_m := Py.round (inject_Z width * cfg "pixel_to_meter") 2;
          Panel.height_m := Py.round (inject_Z height * cfg "pixel_to_meter") 2 |} |}.

(** The body of the inner loop at grid position [(x, y)]; the loop state is
    the pair of [panels] and [panel_id].  The locals [center_x] and
    [center_y] of the source are never read and are left out. *)
Definition place_at (available : loc) (panel_w panel_h : Z) (roof_angle : Q)
    (roof_contour : Contour) (y x : Z) (st : list Panel.t * Z)
  : M (list Panel.t * Z) :=
  let '(panels, panel_id) := st in
  a ← load available;
  let panel_region := slice a y (y + panel_h) x (x + panel_w) in
  if size panel_region =? 0 then mret (panels, panel_id)
  else
    coverage ← lift (Py.truediv (inject_Z (count_positive a panel_region))
                                (inject_Z (size panel_region)));
    let corners_valid := _check_corners_in_contour x y panel_w panel_h roof_contour in
    if Py.Qlt_bool (90 # 100) coverage && corners_valid then
      let panel := _create_panel_geometry panel_id x y panel_w panel_h roof_angle in
      _ ← setitem available panel_region 0;
      mret (panels ++ [panel], panel_id + 1)
    else mret (panels, panel_id).

Definition _place_panels_with_orientation (usable_mask : loc) (panel_w panel_h : Z)
    (roof_angle : Q) (roof_contour : Contour) : M (list Panel.t) :=
  um ← load usable_mask;
  let '(h, w) := shape um in
  sp ← lift (Py.truediv (cfg "panel_spacing_m") (cfg "pixel_to_meter"));
  let spacing := Z.max 1 (Py.int sp) in
  let step_x := panel_w + spacing in
  let step_y := panel_h + spacing in
  let panel_id := 1 in
  available ← copy usable_mask;
  ys ← lift (Py.range 0 (h - panel_h) step_y);
  st ← for_each ys
         (fun y st =>
            xs ← lift (Py.range 0 (w - panel_w) step_x);
            for_each xs (place_at available panel_w panel_h roof_angle roof_contour y) st)
         ([], panel_id);
  mret st.1.

Definition _place_panels_optimized (usable_mask : loc) (roof_angle : Q)
    (roof_contour : Contour) : M (list Panel.t) :=
  panels_landscape ←
    _place_panels_with_orientation usable_mask
      (panel_width_px self) (panel_height_px self) roof_angle roof_contour;
  panels_portrait ←
    _place_panels_with_orientation usable_mask
      (panel_height_px self) (panel_width_px self) roof_angle roof_contour;
  if (length panels_portrait <=? length panels_landscape)%nat
  then mret panels_landscape
  else mret panels_portrait.

End WithLibraries.
End Placement.

(** ** Rooftop detector: duplicate suppression *)

Module Detector.

(** NumPy floats that an integer division can produce: [x / 0] is an
    infinity or NaN, with a warning and no exception. *)
Inductive npfloat : Type :=
| Finite (q : Q)
| PosInf
| NegInf
| NaN.

Definition true_divide (a b : Z) : npfloat :=
  if b =? 0 then
    if a =? 0 then NaN else if 0 <? a then PosInf else NegInf
  else Finite (inject_Z a / inject_Z b).

(** [x <= t] for a finite [t]; comparisons with NaN are false. *)
Definition le_float (x : npfloat) (t : Q) : bool :=
  match x with
  | Finite q => Qle_bool q t
  | NegInf => true
  | PosInf | NaN => false
  end.

(** [np.argsort] returns the indices that sort its argument in ascending
    order.  The order it gives to equal keys depends on the sorting
    algorithm, so only this much is assumed of it. *)
Class ArgSort : Type := {
  argsort : list Z -> list nat;
  argsort_perm : forall keys, Permutation (argsort keys) (seq 0 (length keys));
  argsort_sorted : forall keys,
    ForallOrdPairs (fun i j => nth i keys 0 <= nth j keys 0) (argsort keys)
}.

(** A box is [(x, y, w, h)], a row of [boxes]. *)
Abbreviation box := (Z * Z * Z * Z)%type.

Definition box_area (b : box) : Z := let '(_, _, w, h) := b in w * h.

(** The entry of [overlap] for candidate [j] against the kept box [i]. *)
Definition overlap (boxes : list box) (areas : list Z) (i j : nat) : npfloat :=
  let '(xi, yi, wi, hi) := nth i boxes (0, 0, 0, 0) in
  let '(xj, yj, wj, hj) := nth j boxes (0, 0, 0, 0) in
  let xx1 := Z.max xi xj in
  let yy1 := Z.max yi yj in
  let xx2 := Z.min (xi + wi) (xj + wj) in
  let yy2 := Z.min (yi + hi) (yj + hj) in
  let w := Z.max 0 (xx2 - xx1) in
  let h := Z.max 0 (yy2 - yy1) in
  true_divide (w * h) (nth j areas 0).

(** The [while len(idxs) > 0] loop; the result is [keep]. *)
Equations? suppress (boxes : list box) (areas : list Z) (overlap_thresh : Q)
    (idxs : list nat) : list nat by wf (length idxs) lt :=
  suppress boxes areas overlap_thresh [] := [];
  suppress boxes areas overlap_thresh [i] := [i];
  suppress boxes areas overlap_thresh (i :: rest) :=
    i :: suppress boxes areas overlap_thresh
           (List.filter (fun j => le_float (overlap boxes areas i j) overlap_thresh) rest).
Proof.
  pose proof (List.filter_length_le
    (fun j => le_float (overlap boxes areas i j) overlap_thresh) l).
  destruct (le_float _ _); simpl; lia.
Qed.

Section NMS.

(** [cv2.boundingRect] is a library function. *)
Context (boundingRect : Contour -> box).
Context `{ArgSort}.

Definition _non_max_suppression (contours : list Contour) (overlap_thresh : Q)
  : list Contour :=
  if (length contours =? 0)%nat then []
  else
    let boxes := map boundingRect contours in
    let areas := map box_area boxes in
    let idxs := rev (argsort areas) in
    let keep := suppress boxes areas overlap_thresh idxs in
    map (fun i => nth i contours []) keep.

End NMS.
End Detector.

(** ** Image operations *)

Module Cv.
Import Np.

Definition in_image (a : ndarray) (i j : Z) : bool :=
  (0 <=? i) && (i <? (shape a).1) && (0 <=? j) && (j <? (shape a).2).

(** [cv2.bitwise_and(a, b)] *)
Definition bitwise_and (a b : ndarray) : ndarray :=
  {| shape := shape a; pix := fun i j => Z.land (pix a i j) (pix b i j) |}.

(** [cv2.bitwise_and(a, b, mask=mask)]: zero where the mask is zero. *)
Definition bitwise_and_masked (a b mask : ndarray) : ndarray :=
  {| shape := shape a;
     pix := fun i j =>
       if pix mask i j =? 0 then 0 else Z.land (pix a i j) (pix b i j) |}.

Definition bitwise_or (a b : ndarray) : ndarray :=
  {| shape := shape a; pix := fun i j => Z.lor (pix a i j) (pix b i j) |}.

Inductive threshold_type : Type := THRESH_BINARY | THRESH_BINARY_INV.

(** [cv2.threshold(src, thresh, maxval, type)[1]] on an 8-bit image: a pixel
    is above the threshold when it is strictly greater ([src > thresh];
    OpenCV compares with the floor of [thresh], which is the same for an
    integer pixel). *)
Definition threshold (src : ndarray) (thresh : Q) (maxval : Z) (type : threshold_type)
  : ndarray :=
  {| shape := shape src;
     pix := fun i j =>
       let above := Py.Qlt_bool thresh (inject_Z (pix src i j)) in
       match type with
       | THRESH_BINARY => if above then maxval else 0
       | THRESH_BINARY_INV => if above then 0 else maxval
       end |}.

(** A structuring element, as the offsets of its non-zero entries from its
    centre. *)
Abbreviation kernel := (list (Z * Z)).

(** [cv2.getStructuringElement(cv2.MORPH_ELLIPSE, (3, 3))]:
    [[0,1,0],[1,1,1],[0,1,0]]. *)
Definition ellipse_3x3 : kernel :=
  [ (-1, 0); (0, -1); (0, 0); (0, 1); (1, 0) ].

(** [cv2.getStructuringElement(cv2.MORPH_ELLIPSE, (5, 5))]:
    [[0,0,1,0,0],[1,1,1,1,1],[1,1,1,1,1],[1,1,1,1,1],[0,0,1,0,0]]. *)
Definition ellipse_5x5 : kernel :=
  [ (-2, 0);
    (-1, -2); (-1, -1); (-1, 0); (-1, 1); (-1, 2);
    (0, -2); (0, -1); (0, 0); (0, 1); (0, 2);
    (1, -2); (1, -1); (1, 0); (1, 1); (1, 2);
    (2, 0) ].

(** [cv2.erode]: the minimum over the element; pixels outside the image do
    not take part. *)
Definition erode (src : ndarray) (k : kernel) : ndarray :=
  {| shape := shape src;
     pix := fun i j =>
       fold_right
         (fun '(di, dj) acc =>
            if in_image src (i + di) (j + dj)
            then Z.min (pix src (i + di) (j + dj)) acc else acc)
         255 k |}.

(** [cv2.dilate]: the maximum over the element. *)
Definition dilate (src : ndarray) (k : kernel) : ndarray :=
  {| shape := shape src;
     pix := fun i j =>
       fold_right
         (fun '(di, dj) acc =>
            if in_image src (i + di) (j + dj)
            then Z.max (pix src (i + di) (j + dj)) acc else acc)
         0 k |}.

(** [cv2.morphologyEx(src, cv2.MORPH_OPEN, k)]. *)
Definition morphologyEx_OPEN (src : ndarray) (k : kernel) : ndarray :=
  dilate (erode src k) k.

(** [cv2.countNonZero]. *)
Definition countNonZero (a : ndarray) : Z :=
  Z.of_nat (length (filter (fun c => pix a c.1 c.2 <> 0)
                      (cells {| r0 := 0; r1 := (shape a).1; c0 := 0; c1 := (shape a).2 |}))).

End Cv.

(** ** Obstacle detection *)

Module Obstacles.
Import Np Cv.

(** [np.sqrt] on floats.  It is exact at zero. *)
Class Sqrt : Type := {
  sqrt : Q -> Q;
  sqrt_0 : forall q, q == 0 -> sqrt q == 0
}.

(** An image is a grey-level array or an array of three colour channels. *)
Record ndarray3 : Type := { shape3 : Z * Z; pix3 : Z -> Z -> Z * Z * Z }.

Inductive image : Type :=
| Gray (a : ndarray)
| Color (a : ndarray3).

Definition Qsum (xs : list Q) : Q := fold_right Qplus 0%Q xs.

(** [np.mean]. *)
Definition mean (xs : list Q) : Q := (Qsum xs / inject_Z (Z.of_nat (length xs)))%Q.

Section Detect.

(** [cv2.cvtColor(., cv2.COLOR_BGR2GRAY)] is a library function.  So are
    [cv2.findContours], [cv2.contourArea] and [cv2.drawContours];
    [internal_feature mask i j] tells whether pixel [(i, j)] is covered by
    a contour of [mask] that has a parent and an area strictly between 10
    and 500, the pixels method 3 paints with 255. *)
Context (cvtColor_BGR2GRAY : ndarray3 -> ndarray).
Context (internal_feature : ndarray -> Z -> Z -> bool).
Context `{Sqrt}.

(** [np.std]. *)
Definition std (xs : list Q) : Q :=
  let m := mean xs in
  sqrt (mean (map (fun x => Qabs (x - m) * Qabs (x - m))%Q xs)).

(** [gray[roof_mask > 0]]. *)
Definition select (gray roof_mask : ndarray) : list Q :=
  map (fun c => inject_Z (pix gray c.1 c.2))
    (filter (fun c => 0 < pix roof_mask c.1 c.2)
       (cells {| r0 := 0; r1 := (shape gray).1; c0 := 0; c1 := (shape gray).2 |})).

Definition _detect_obstacles (image : image) (roof_mask : ndarray) : ndarray :=
  let gray := match image with Color c => cvtColor_BGR2GRAY c | Gray g => g end in
  let obstacle_mask := zeros (shape gray) in
  (* Only analyze within roof region *)
  let roof_region := bitwise_and_masked gray gray roof_mask in
  (* Get intensity statistics within roof *)
  let roof_pixels := select gray roof_mask in
  if (length roof_pixels =? 0)%nat then obstacle_mask
  else
    let mean_intensity := mean roof_pixels in
    let std_intensity := std roof_pixels in
    (* Method 1: very dark spots *)
    let dark_threshold := Qmax 20 (mean_intensity - 2 * std_intensity) in
    let dark_spots := threshold roof_region dark_threshold 255 THRESH_BINARY_INV in
    let dark_spots := bitwise_and dark_spots roof_mask in
    (* Method 2: very bright spots *)
    let bright_threshold := Qmin 235 (mean_intensity + 2 * std_intensity) in
    let bright_spots := threshold roof_region bright_threshold 255 THRESH_BINARY in
    let bright_spots := bitwise_and bright_spots roof_mask in
    (* Method 3: internal contours *)
    let internal_mask :=
      {| shape := shape gray;
         pix := fun i j => if internal_feature roof_mask i j then 255 else 0 |} in
    (* Combine all obstacle detections *)
    let obstacle_mask := bitwise_or dark_spots bright_spots in
    let obstacle_mask := bitwise_or obstacle_mask internal_mask in
    (* Clean up, then expand *)
    let kernel_small := ellipse_3x3 in
    let obstacle_mask := morphologyEx_OPEN obstacle_mask kernel_small in
    let kernel_expand := ellipse_5x5 in
    dilate obstacle_mask kernel_expand.

End Detect.
End Obstacles.

(** ** Per-rooftop loops *)

Module Pipeline.

Section AnalyzeImage.

(** [SolarPanelOptimizer.analyze_rooftop], as far as the loop of
    [analyze_image] can tell: it returns an analysis or raises. *)
Context {Image Analysis : Type}.
Context (analyze_rooftop : Image -> Rooftop.t -> Py.result Analysis).

(** Step 2 of [analyze_image]:
    [for rooftop in rooftops: analyses.append(optimizer.analyze_rooftop(image, rooftop))]. *)
Fixpoint analyze_image_loop (image : Image) (rooftops : list Rooftop.t)
    (analyses : list Analysis) : Py.result (list Analysis) :=
  match rooftops with
  | [] => mret analyses
  | rooftop :: rest =>
      analysis ← analyze_rooftop image rooftop;
      analyze_image_loop image rest (analyses ++ [analysis])
  end.

End AnalyzeImage.

Section Batch.

(** [analyze_roof_for_solar] of the older [SolarPanelOptimizer] module, seen
    the same way; [annual_energy] reads ["estimated_annual_energy_kwh"]. *)
Context {Image Analysis : Type}.
Context (analyze_roof_for_solar : Image -> Contour -> Py.result Analysis).
Context (annual_energy : Analysis -> Q).

(** An analysis after [analysis["building_id"] = i + 1]. *)
Record entry : Type := { building_id : Z; analysis : Analysis }.

(** The [for i, contour in enumerate(contours)] loop with its [try]. *)
Fixpoint batch_loop (image : Image) (i : Z) (contours : list Contour)
    (results : list entry) : list entry :=
  match contours with
  | [] => results
  | contour :: rest =>
      match analyze_roof_for_solar image contour with
      | Py.Ok a =>
          batch_loop image (i + 1) rest
            (results ++ [{| building_id := i + 1; analysis := a |}])
      | Py.Raise _ => batch_loop image (i + 1) rest results
      end
  end.

(** [results.sort(key=..., reverse=True)]: a stable sort, largest key first. *)
Fixpoint insert_desc (e : entry) (sorted : list entry) : list entry :=
  match sorted with
  | [] => [e]
  | e' :: rest =>
      if Py.Qlt_bool (annual_energy (analysis e)) (annual_energy (analysis e'))
      then e' :: insert_desc e rest
      else e :: sorted
  end.

Definition sort_desc (results : list entry) : list entry :=
  fold_right insert_desc [] results.

Definition batch_analyze_buildings (image : Image) (contours : list Contour)
  : list entry :=
  sort_desc (batch_loop image 0 contours []).

End Batch.
End Pipeline.

(** * [SolarPanelOptimizer.py]: the analyser of the batch pipeline *)

(** ** Exceptions of the batch pipeline *)

Module Exc.

(** The exceptions of [Py] and four more. *)
Inductive exn : Type :=
| KeyError (key : string)
| IndexError
| OverflowError
| FileNotFoundError (path : string)
| Builtin (e : Py.exn).

Inductive result (A : Type) : Type :=
| Ok (a : A)
| Raise (e : exn).
Arguments Ok {A} a.
Arguments Raise {A} e.

#[global] Instance result_ret : MRet result := fun A a => Ok a.

#[global] Instance result_bind : MBind result := fun A B k r =>
  match r with
  | Ok a => k a
  | Raise e => Raise e
  end.

Definition of_py {A} (r : Py.result A) : result A :=
  match r with
  | Py.Ok a => Ok a
  | Py.Raise e => Raise (Builtin e)
  end.

(** [d[key]] on a dictionary of numbers. *)
Definition getitem (d : gmap string Q) (key : string) : result Q :=
  match d !! key with
  | Some v => Ok v
  | None => Raise (KeyError key)
  end.

(** [int(a / b)] where [a] is a NumPy float: the division by zero gives an
    infinity or NaN and a warning, and it is [int] that raises. *)
Definition int_of_np_div (a b : Q) : result Z :=
  if Qeq_bool b 0 then
    if Qeq_bool a 0 then Raise (Builtin Py.ValueError) else Raise OverflowError
  else Ok (Py.int (a / b)).

End Exc.

Module RoofForSolar.
Import Exc Np Cv.

Abbreviation settings := (gmap string Q).

Definition DEFAULTS : settings :=
  list_to_map
    [ ("latitude"%string, (286139 # 10000)%Q);
      ("longitude"%string, (772090 # 10000)%Q);
      ("panel_width"%string, 1%Q);
      ("panel_height"%string, (17 # 10)%Q);
      ("panel_efficiency"%string, (20 # 100)%Q);
      ("system_losses"%string, (14 # 100)%Q);
      ("min_roof_area"%string, 20%Q);
      ("pixel_to_meter"%string, (15 # 100)%Q) ].

(** [SolarPanelOptimizer.__init__]: [self.config = config or {...}].  An
    empty dictionary is false, like [None]. *)
Definition init (cfg : option settings) : settings :=
  match cfg with
  | Some c => if decide (dom c = ∅) then DEFAULTS else c
  | None => DEFAULTS
  end.

Section WithSelf.
Variable self : settings.

(** The slope read off a brightness range. *)
Definition slope_of_range (brightness_range : Z) : Q :=
  if brightness_range <? 30 then inject_Z brightness_range / 3
  else if brightness_range <? 60 then 10 + (inject_Z brightness_range - 30) / (15 # 10)
  else Qmin 45 (30 + (inject_Z brightness_range - 60) / 4).

(** [a[mask > 0]]. *)
Definition roi (a mask : ndarray) : list Z :=
  map (fun c => pix a c.1 c.2)
    (filter (fun c => 0 < pix mask c.1 c.2)
       (cells {| r0 := 0; r1 := (shape a).1; c0 := 0; c1 := (shape a).2 |})).

Definition np_max (xs : list Z) : Z := fold_right Z.max (hd 0 xs) xs.
Definition np_min (xs : list Z) : Z := fold_right Z.min (hd 0 xs) xs.

Definition _estimate_roof_slope (cvtColor_BGR2GRAY : Obstacles.ndarray3 -> ndarray)
    (roof_image : Obstacles.image) (mask : ndarray) : Q :=
  let gray :=
    match roof_image with
    | Obstacles.Color c => cvtColor_BGR2GRAY c
    | Obstacles.Gray g => g
    end in
  let masked := bitwise_and_masked gray gray mask in
  let roi := roi masked mask in
  if (length roi =? 0)%nat then 0%Q
  else
    let brightness_range := np_max roi - np_min roi in
    slope_of_range brightness_range.

Definition _calculate_solar_irradiance (orientation slope shading_score : Q)
  : result Q :=
  latitude ← getitem self "latitude";
  let base_irradiance := (2200 - Qabs latitude * 8)%Q in
  let optimal_azimuth := if Py.Qlt_bool 0 latitude then 180%Q else 0%Q in
  let azimuth_deviation := Qabs (orientation - optimal_azimuth) in
  let azimuth_deviation := Qmin azimuth_deviation (360 - azimuth_deviation) in
  let orientation_factor := (1 - (azimuth_deviation / 180) * (25 # 100))%Q in
  let optimal_slope := Qabs latitude in
  let slope_deviation := Qabs (slope - optimal_slope) in
  let slope_factor := (1 - (slope_deviation / 90) * (15 # 100))%Q in
  let adjusted_irradiance :=
    (base_irradiance * orientation_factor * slope_factor * shading_score)%Q in
  mret adjusted_irradiance.

Definition _estimate_annual_energy (num_panels : Z) (solar_irradiance : Q)
  : result Q :=
  panel_width ← getitem self "panel_width";
  panel_height ← getitem self "panel_height";
  let panel_area := (panel_width * panel_height)%Q in
  let total_area := (inject_Z num_panels * panel_area)%Q in
  efficiency ← getitem self "panel_efficiency";
  system_losses ← getitem self "system_losses";
  let annual_energy :=
    (total_area * solar_irradiance * efficiency * (1 - system_losses))%Q in
  mret annual_energy.

(** The local [score] of [_calculate_suitability_rating]. *)
Definition suitability_score (roof_area shading_score orientation slope : Q)
  : result Q :=
  let score := 0%Q in
  let score :=
    if Qle_bool 50 roof_area then (score + 30)%Q
    else if Qle_bool 30 roof_area then (score + 20)%Q
    else if Qle_bool 20 roof_area then (score + 10)%Q
    else score in
  let score := (score + shading_score * 30)%Q in
  latitude ← getitem self "latitude";
  let optimal_azimuth := if Py.Qlt_bool 0 latitude then 180%Q else 0%Q in
  let azimuth_deviation := Qabs (orientation - optimal_azimuth) in
  let azimuth_deviation := Qmin azimuth_deviation (360 - azimuth_deviation) in
  let orientation_score := ((1 - azimuth_deviation / 180) * 25)%Q in
  let score := (score + orientation_score)%Q in
  let optimal_slope := Qabs latitude in
  let slope_deviation := Qabs (slope - optimal_slope) in
  let slope_score := ((1 - slope_deviation / 90) * 15)%Q in
  let score := (score + slope_score)%Q in
  mret score.

Definition _calculate_suitability_rating (roof_area shading_score orientation slope : Q)
  : result Suitability.rating :=
  score ← suitability_score roof_area shading_score orientation slope;
  if Qle_bool 80 score then mret Suitability.Excellent
  else if Qle_bool 60 score then mret Suitability.Good
  else if Qle_bool 40 score then mret Suitability.Fair
  else mret Suitability.Poor.

End WithSelf.
End RoofForSolar.

(** ** More array and image operations *)

Module Img.
Import Np.

(** [np.sum(region)]: the sum of the pixel values. *)
Definition sum_view (a : ndarray) (v : view) : Z :=
  fold_right Z.add 0 (map (fun c => pix a c.1 c.2) (cells v)).

(** [np.sum(a > 0)] over the whole array. *)
Definition count_all_positive (a : ndarray) : Z :=
  count_positive a {| r0 := 0; r1 := (shape a).1; c0 := 0; c1 := (shape a).2 |}.

(** [cv2.bitwise_not] on an 8-bit image. *)
Definition bitwise_not (a : ndarray) : ndarray :=
  {| shape := shape a; pix := fun i j => Z.lxor (pix a i j) 255 |}.

End Img.

(** ** The batch analyser: usable zones and panel layout *)

Module Layout.
Import Exc Np Cv Img.

(** A loop body either goes on with the next iteration or leaves the
    function with its [return] value. *)
Inductive flow (S : Type) : Type :=
| Continue (s : S)
| Return (s : S).
Arguments Continue {S} s.
Arguments Return {S} s.

(** [for x in xs: ...] with a [return] inside. *)
Fixpoint for_until {S : Type} (xs : list Z) (body : Z -> S -> result (flow S)) (s : S)
  : result (flow S) :=
  match xs with
  | [] => mret (Continue s)
  | x :: xs' =>
      r ← body x s;
      match r with
      | Continue s' => for_until xs' body s'
      | Return v => mret (Return v)
      end
  end.

(** The body of the inner loop of [_generate_panel_grid] at [(x, y)]. *)
Definition grid_visit (mask : ndarray) (panel_w panel_h max_panels : Z) (y x : Z)
    (positions : list (Z * Z)) : flow (list (Z * Z)) :=
  let panel_region := slice mask y (y + panel_h) x (x + panel_w) in
  if (0 <? size panel_region)
     && Py.Qlt_bool ((8 # 10) * inject_Z (size panel_region) * 255)
                    (inject_Z (sum_view mask panel_region))
  then
    let positions := positions ++ [(x, y)] in
    if max_panels <=? Z.of_nat (length positions) then Return positions
    else Continue positions
  else Continue positions.

Definition _generate_panel_grid (mask : ndarray) (panel_w panel_h max_panels : Z)
  : result (list (Z * Z)) :=
  let positions := [] in
  let '(h, w) := shape mask in
  let spacing := 5 in
  ys ← of_py (Py.range 0 (h - panel_h) (panel_h + spacing));
  r ← for_until ys
        (fun y positions =>
           xs ← of_py (Py.range 0 (w - panel_w) (panel_w + spacing));
           for_until xs
             (fun x positions =>
                mret (grid_visit mask panel_w panel_h max_panels y x positions))
             positions)
        positions;
  match r with
  | Continue positions => mret positions
  | Return positions => mret positions
  end.

(** The dictionary [_identify_optimal_zones] returns. *)
Record zones : Type := {
  usable_mask : ndarray;
  usable_area : Q;
  quality_map : ndarray;
  obstruction_mask : ndarray
}.

(** The dictionary [_calculate_panel_layout] returns. *)
Record layout : Type := {
  num_panels : Z;
  panel_positions : list (Z * Z);
  total_capacity_kw : Q;
  coverage_ratio : Q;
  panel_area_m2 : Q
}.

Section WithSelf.
Variable self : RoofForSolar.settings.

Section Zones.

(** [cv2.cvtColor] and [cv2.getStructuringElement(cv2.MORPH_ELLIPSE, (k, k))]
    are library functions; [np.sqrt] is the class [Obstacles.Sqrt]. *)
Context (cvtColor_BGR2GRAY : Obstacles.ndarray3 -> ndarray).
Context (getStructuringElement_ELLIPSE : Z -> kernel).
Context `{Obstacles.Sqrt}.

Definition _identify_optimal_zones (roof_image : Obstacles.image) (mask : ndarray)
    (shading_score : Q) : result zones :=
  let kernel_size :=
    Z.max 3 (Py.int (Obstacles.sqrt (inject_Z (count_all_positive mask)) * (5 # 100))) in
  let kernel := getStructuringElement_ELLIPSE kernel_size in
  let usable_mask := erode (erode mask kernel) kernel in
  let gray :=
    match roof_image with
    | Obstacles.Color c => cvtColor_BGR2GRAY c
    | Obstacles.Gray g => g
    end in
  let bright := threshold gray 200 255 THRESH_BINARY in
  let dark := threshold gray 50 255 THRESH_BINARY_INV in
  let obstructions := bitwise_or bright dark in
  let usable_mask := bitwise_and usable_mask (bitwise_not obstructions) in
  let usable_pixels := count_all_positive usable_mask in
  pixel_to_meter ← getitem self "pixel_to_meter";
  let usable_area_m2 := (inject_Z usable_pixels * (pixel_to_meter * pixel_to_meter))%Q in
  let quality_map := usable_mask in
  mret {| usable_mask := usable_mask;
          usable_area := usable_area_m2;
          quality_map := quality_map;
          obstruction_mask := obstructions |}.

End Zones.

Definition _calculate_panel_layout (solar_zones : zones) (roof_area : Q)
  : result layout :=
  panel_width ← getitem self "panel_width";
  panel_height ← getitem self "panel_height";
  let panel_area := (panel_width * panel_height)%Q in
  let usable_area := usable_area solar_zones in
  let effective_area := (usable_area * (90 # 100))%Q in
  num_panels ← int_of_np_div effective_area panel_area;
  pixel_to_meter ← getitem self "pixel_to_meter";
  meter_to_pixel ← of_py (Py.truediv 1 pixel_to_meter);
  panel_width ← getitem self "panel_width";
  let panel_width_px := Py.int (panel_width * meter_to_pixel) in
  panel_height ← getitem self "panel_height";
  let panel_height_px := Py.int (panel_height * meter_to_pixel) in
  let mask := usable_mask solar_zones in
  panel_positions ← _generate_panel_grid mask panel_width_px panel_height_px num_panels;
  let panel_capacity_kw := (3 # 10)%Q in
  let total_capacity_kw := (inject_Z num_panels * panel_capacity_kw)%Q in
  mret {| num_panels := num_panels;
          panel_positions := panel_positions;
          total_capacity_kw := total_capacity_kw;
          coverage_ratio :=
            if Py.Qlt_bool 0 roof_area
            then (inject_Z num_panels * panel_area / roof_area)%Q
            else 0%Q;
          panel_area_m2 := (inject_Z num_panels * panel_area)%Q |}.

End WithSelf.
End Layout.

(** ** The batch analyser: values for the JSON report *)

Module Json.

#[local] Unset Elimination Schemes.

(** The contents of a NumPy array: numbers, nested along the axes. *)
Inductive nd : Type :=
| NdInt (z : Z)
| NdFloat (q : Q)
| NdAxis (items : list nd).

(** The Python values an analysis holds.  Dictionaries have string keys and
    keep the order of their entries. *)
Inductive value : Type :=
| PyNone
| PyBool (b : bool)
| PyInt (z : Z)
| PyFloat (q : Q)
| PyStr (s : string)
| NpInteger (z : Z)
| NpFloating (q : Q)
| NpArray (a : nd)
| PyList (items : list value)
| PyTuple (items : list value)
| PyDict (entries : list (string * value)).

(** [ndarray.tolist()]. *)
Fixpoint tolist (a : nd) : value :=
  match a with
  | NdInt z => PyInt z
  | NdFloat q => PyFloat q
  | NdAxis items => PyList (map tolist items)
  end.

Fixpoint _make_json_serializable (obj : value) : value :=
  match obj with
  | NpArray a => tolist a
  | NpInteger z => PyInt z
  | NpFloating q => PyFloat q
  | PyDict entries =>
      PyDict (map (fun kv => (kv.1, _make_json_serializable kv.2)) entries)
  | PyList items => PyList (map _make_json_serializable items)
  | _ => obj
  end.

End Json.

(** * [analyze_rooftop.py]: detection and the analysis of one rooftop *)

(** ** Rooftop detector: building the rooftop records *)

Module RooftopDetector.
Import Np Cv Detector.

(** The entries of [cv2.moments] the code reads. *)
Record moments : Type := { m00 : Q; m10 : Q; m01 : Q }.

(** [cv2.minAreaRect]: [(center, (width, height), angle)]. *)
Abbreviation rotated_rect := ((Q * Q) * (Q * Q) * Q)%type.

(** [x > t] and [x < t] for a NumPy float: false on NaN. *)
Definition gt_float (x : npfloat) (t : Q) : bool :=
  match x with
  | Finite q => Py.Qlt_bool t q
  | PosInf => true
  | NegInf | NaN => false
  end.

Definition lt_float (x : npfloat) (t : Q) : bool :=
  match x with
  | Finite q => Py.Qlt_bool q t
  | NegInf => true
  | PosInf | NaN => false
  end.

(** [np.sum(a > t)] and [a.size]. *)
Definition count_above (a : ndarray) (t : Z) : Z :=
  Z.of_nat (length (filter (fun c => t < pix a c.1 c.2)
              (cells {| r0 := 0; r1 := (shape a).1; c0 := 0; c1 := (shape a).2 |}))).

Definition array_size (a : ndarray) : Z := (shape a).1 * (shape a).2.

(** [RooftopDetector.__init__]: the detector object is its configuration. *)
Definition init (config : option Config.t) : Config.t := Config.merge config.

Section WithLibraries.

(** Library functions of OpenCV: [cv2.cvtColor(., COLOR_BGR2GRAY)],
    [cv2.contourArea], [cv2.minAreaRect], [cv2.boxPoints], [cv2.moments],
    [cv2.findContours(., RETR_EXTERNAL, CHAIN_APPROX_SIMPLE)[0]],
    [cv2.bilateralFilter(., 9, 75, 75)], [cv2.resize], [cv2.Canny(., 50, 150)]
    and [cv2.boundingRect]. *)
Context (cvtColor_BGR2GRAY : Obstacles.ndarray3 -> ndarray).
Context (contourArea : Contour -> Q).
Context (minAreaRect : Contour -> rotated_rect).
Context (boxPoints : rotated_rect -> list (Q * Q)).
Context (moments_of : Contour -> moments).
Context (findContours_EXTERNAL : ndarray -> list Contour).
Context (bilateralFilter : ndarray -> ndarray).
Context (resize : ndarray -> Z * Z -> ndarray).
Context (Canny : ndarray -> ndarray).
Context (boundingRect : Contour -> box).
Context `{ArgSort}.

(** [self.config] of the detector. *)
Variable config : Config.t.
Let cfg := Config.get config.

(** [_analyze_rooftop]; its parameter [image] is not read. *)
Definition _analyze_rooftop (roof_id : Z) (contour : Contour) (image : Obstacles.image)
  : Py.result Rooftop.t :=
  let area_pixels := contourArea contour in
  let area_m2 := (area_pixels * (cfg "pixel_to_meter" * cfg "pixel_to_meter"))%Q in
  let rect := minAreaRect contour in
  let '(center, (width, height), angle) := rect in
  let box_points := map (fun p : Q * Q => (Py.int p.1, Py.int p.2)) (boxPoints rect) in
  let M := moments_of contour in
  c ← (if negb (Qeq_bool (m00 M) 0) then
         a ← Py.truediv (m10 M) (m00 M);
         b ← Py.truediv (m01 M) (m00 M);
         mret (Py.int a, Py.int b)
       else mret (Py.int center.1, Py.int center.2));
  mret {| Rooftop.id := roof_id;
          Rooftop.contour := contour;
          Rooftop.area_pixels := area_pixels;
          Rooftop.area_m2 := area_m2;
          Rooftop.center := c;
          Rooftop.bounding_rect :=
            {| Rooftop.rect_center := center;
               Rooftop.width := Qmax width height;
               Rooftop.height := Qmin width height;
               Rooftop.angle := angle |};
          Rooftop.box_points := box_points |}.

(** The inner loop of the raw-image branch at one [scale]: the contours of
    the edges, scaled back, are appended when their area is in range. *)
Definition scan_scale (blur : ndarray) (all_contours : list Contour) (scale : Q)
  : list Contour :=
  let '(h, w) := shape blur in
  let resized := resize blur (Py.int (inject_Z w * scale), Py.int (inject_Z h * scale)) in
  let edges := Canny resized in
  let contours := findContours_EXTERNAL edges in
  fold_left
    (fun all_contours cnt =>
       let scaled_cnt :=
         map (fun p : Z * Z => (Py.int (inject_Z p.1 / scale), Py.int (inject_Z p.2 / scale)))
             cnt in
       let area := contourArea scaled_cnt in
       if Py.Qlt_bool (cfg "min_building_area") area
          && Py.Qlt_bool area (cfg "max_building_area")
       then all_contours ++ [scaled_cnt] else all_contours)
    contours all_contours.

(** [for i, contour in enumerate(valid_contours): rooftops.append(...)]. *)
Fixpoint build_rooftops (image : Obstacles.image) (i : Z) (valid_contours : list Contour)
    (rooftops : list Rooftop.t) : Py.result (list Rooftop.t) :=
  match valid_contours with
  | [] => mret rooftops
  | contour :: rest =>
      r ← _analyze_rooftop (i + 1) contour image;
      build_rooftops image (i + 1) rest (rooftops ++ [r])
  end.

(** The test that takes the image for a pre-segmented mask. *)
Definition presegmented (gray : ndarray) : bool :=
  let white_ratio := true_divide (count_above gray 200) (array_size gray) in
  gt_float white_ratio (5 # 100) && lt_float white_ratio (8 # 10).

(** The contours the rooftops are built from.  The local [mean_intensity]
    of the source is never read and is left out. *)
Definition valid_contours (image : Obstacles.image) : list Contour :=
  let gray :=
    match image with
    | Obstacles.Color c => cvtColor_BGR2GRAY c
    | Obstacles.Gray g => g
    end in
  if presegmented gray then
    let binary := threshold gray 127 255 THRESH_BINARY in
    let contours := findContours_EXTERNAL binary in
    List.filter (fun cnt => Py.Qlt_bool 100 (contourArea cnt)) contours
  else
    let blur := bilateralFilter gray in
    let all_contours := fold_left (scan_scale blur) [ (3 # 4)%Q; 1%Q; (5 # 4)%Q ] [] in
    _non_max_suppression boundingRect all_contours (3 # 10).

Definition detect_rooftops (image : Obstacles.image) : Py.result (list Rooftop.t) :=
  build_rooftops image 0 (valid_contours image) [].

End WithLibraries.
End RooftopDetector.

(** ** The analysis of one rooftop *)

Module Analysis.
Import Np Cv Img.

(** The dictionary [analyze_rooftop] returns. *)
Record t : Type := {
  rooftop_id : Z;
  roof_area_m2 : Q;
  usable_area_m2 : Q;
  roof_orientation_degrees : Q;
  obstacles_detected : Z;
  panel_count : Z;
  panels : list Panel.t;
  energy : Energy.info;
  suitability : Suitability.t
}.

Section WithLibraries.

Context (radians cos sin : Q -> Q).
Context (pointPolygonTest : Contour -> Q * Q -> bool -> Q).
Context (cvtColor_BGR2GRAY : Obstacles.ndarray3 -> ndarray).
Context (internal_feature : ndarray -> Z -> Z -> bool).
Context `{Obstacles.Sqrt}.

(** [mask = np.zeros(shape); cv2.drawContours(mask, [contour], -1, 255, -1)]:
    the filled contour; [cv2.getStructuringElement(cv2.MORPH_ELLIPSE, (k, k))];
    [cv2.findContours(., RETR_EXTERNAL, .)[0]] and [cv2.contourArea]. *)
Context (drawContours_filled : Z * Z -> Contour -> ndarray).
Context (getStructuringElement_ELLIPSE : Z -> kernel).
Context (findContours_EXTERNAL : ndarray -> list Contour).
Context (contourArea : Contour -> Q).

Variable self : SolarPanelOptimizer.
Let cfg := Config.get (config self).

(** [image.shape[:2]]. *)
Definition image_shape (image : Obstacles.image) : Z * Z :=
  match image with
  | Obstacles.Gray g => shape g
  | Obstacles.Color c => Obstacles.shape3 c
  end.

Definition _count_obstacles (obstacle_mask : ndarray) : Z :=
  let contours := findContours_EXTERNAL obstacle_mask in
  Z.of_nat (length (List.filter (fun c => Py.Qlt_bool 10 (contourArea c)) contours)).

(** The masks [analyze_rooftop] computes before it places panels. *)
Definition roof_mask (image : Obstacles.image) (rooftop : Rooftop.t) : ndarray :=
  drawContours_filled (image_shape image) (Rooftop.contour rooftop).

Definition usable_mask_of (mask obstacle_mask : ndarray) : ndarray :=
  let margin_px :=
    Z.max 2 (Py.int (inject_Z (Z.max (panel_width_px self) (panel_height_px self))
                     * cfg "edge_margin_percent")) in
  let kernel := getStructuringElement_ELLIPSE margin_px in
  let usable_mask := erode mask kernel in
  bitwise_and usable_mask (bitwise_not obstacle_mask).

(** The usable mask of a rooftop: [usable_mask] as [analyze_rooftop] hands
    it to the placement. *)
Definition usable_mask_for (image : Obstacles.image) (rooftop : Rooftop.t) : ndarray :=
  let mask := roof_mask image rooftop in
  usable_mask_of mask
    (Obstacles._detect_obstacles cvtColor_BGR2GRAY internal_feature image mask).

Definition analyze_rooftop (image : Obstacles.image) (rooftop : Rooftop.t) : M t :=
  let contour := Rooftop.contour rooftop in
  let mask := roof_mask image rooftop in
  let obstacle_mask :=
    Obstacles._detect_obstacles cvtColor_BGR2GRAY internal_feature image mask in
  usable_mask ← alloc (usable_mask_of mask obstacle_mask);
  let roof_angle := Rooftop.angle (Rooftop.bounding_rect rooftop) in
  panels ← Placement._place_panels_optimized radians cos sin pointPolygonTest self
             usable_mask roof_angle contour;
  let energy_info := Energy._calculate_energy self (Z.of_nat (length panels)) in
  let obstacle_count := _count_obstacles obstacle_mask in
  um ← load usable_mask;
  suitability ← lift (Suitability._rate_suitability rooftop (Z.of_nat (length panels))
                        obstacle_count);
  mret {| rooftop_id := Rooftop.id rooftop;
          roof_area_m2 := Rooftop.area_m2 rooftop;
          usable_area_m2 :=
            (inject_Z (count_all_positive um)
             * (cfg "pixel_to_meter" * cfg "pixel_to_meter"))%Q;
          roof_orientation_degrees := roof_angle;
          obstacles_detected := obstacle_count;
          panel_count := Z.of_nat (length panels);
          panels := panels;
          energy := energy_info;
          suitability := suitability |}.

End WithLibraries.
End Analysis.

(** * [main.py]: the annotated image of the batch pipeline *)

Module Main.
Import Exc Pipeline RooftopDetector.

(** What step 4 of [run_complete_analysis] draws on [output_image]:
    [cv2.drawContours(output_image, [cnt], -1, color, 3)] and
    [cv2.putText(output_image, f"#{building_id}", org, ...)]. *)
Inductive drawing : Type :=
| DrawContours (cnt : Contour) (color : Z * Z * Z)
| PutText (building_id : Z) (org : Z * Z).

Definition color_map (rating : Suitability.rating) : Z * Z * Z :=
  match rating with
  | Suitability.Excellent => (0, 255, 0)
  | Suitability.Good => (0, 255, 255)
  | Suitability.Fair => (0, 165, 255)
  | Suitability.Poor => (0, 0, 255)
  end.

Section Annotate.

(** An analysis is the dictionary [analyze_roof_for_solar] returns;
    [suitability_rating] reads its key of that name.  [cv2.moments] is a
    library function. *)
Context {Analysis : Type}.
Context (suitability_rating : Analysis -> Suitability.rating).
Context (moments_of : Contour -> moments).

(** The body of the loop, after [result = solar_results[i]]. *)
Definition annotate_one (cnt : Contour) (result : @entry Analysis)
    (output_image : list drawing) : Exc.result (list drawing) :=
  let color := color_map (suitability_rating (analysis result)) in
  let output_image := output_image ++ [DrawContours cnt color] in
  let M := moments_of cnt in
  if negb (Qeq_bool (m00 M) 0) then
    cx ← of_py (Py.truediv (m10 M) (m00 M));
    cy ← of_py (Py.truediv (m01 M) (m00 M));
    mret (output_image ++ [PutText (building_id result) (Py.int cx - 20, Py.int cy)])
  else mret output_image.

(** [for i, cnt in enumerate(regularized): result = solar_results[i]; ...]
    from index [i] on. *)
Fixpoint annotate (i : nat) (regularized : list Contour)
    (solar_results : list (@entry Analysis)) (output_image : list drawing)
  : Exc.result (list drawing) :=
  match regularized with
  | [] => mret output_image
  | cnt :: rest =>
      match solar_results !! i with
      | None => Raise IndexError
      | Some result =>
          output_image ← annotate_one cnt result output_image;
          annotate (S i) rest solar_results output_image
      end
  end.

End Annotate.
End Main.

(** ** The analysis of an image file *)

Module AnalyzeImage.
Import Exc Np Cv Detector.

(** The [summary] and the whole of [json_output]. *)
Record summary : Type := {
  rooftop_count : Z;
  total_panels : Z;
  total_capacity_kw : Q;
  total_annual_kwh : Q
}.

Record report : Type := {
  timestamp : string;
  input_image : string;
  image_size : Z * Z;          (* width, height *)
  report_config : Config.t;
  report_summary : summary;
  rooftops : list Analysis.t
}.

(** What a run writes to the file system, in order: [os.makedirs],
    [cv2.imwrite] and [json.dump] into the opened file.  What it prints is
    left out. *)
Inductive effect : Type :=
| Makedirs (path : string)
| Imwrite (path : string) (img : Obstacles.ndarray3)
| JsonDump (path : string) (json_output : report).

(** The two dictionaries [analyze_image] returns. *)
Inductive outcome : Type :=
| NoRooftops
| Success (output_image output_json : string) (analyses : list Analysis.t).

(** [sum(... for a in analyses)]. *)
Definition sum_Z (xs : list Z) : Z := fold_left Z.add xs 0.
Definition sum_Q (xs : list Q) : Q := fold_left Qplus xs 0%Q.

Section WithLibraries.

(** The library functions of the detector and of the optimizer. *)
Context (radians cos sin : Q -> Q).
Context (pointPolygonTest : Contour -> Q * Q -> bool -> Q).
Context (cvtColor_BGR2GRAY : Obstacles.ndarray3 -> ndarray).
Context (internal_feature : ndarray -> Z -> Z -> bool).
Context `{Obstacles.Sqrt}.
Context (drawContours_filled : Z * Z -> Contour -> ndarray).
Context (getStructuringElement_ELLIPSE : Z -> kernel).
Context (findContours_EXTERNAL : ndarray -> list Contour).
Context (contourArea : Contour -> Q).
Context (minAreaRect : Contour -> RooftopDetector.rotated_rect).
Context (boxPoints : RooftopDetector.rotated_rect -> list (Q * Q)).
Context (moments_of : Contour -> RooftopDetector.moments).
Context (bilateralFilter : ndarray -> ndarray).
Context (resize : ndarray -> Z * Z -> ndarray).
Context (Canny : ndarray -> ndarray).
Context (boundingRect : Contour -> box).
Context `{ArgSort}.

(** The outside world: [os.path.exists], [cv2.imread] (which returns
    [None] for a file it cannot read and a colour image otherwise),
    [datetime.now().isoformat()], [Path(.).stem] and [os.path.join]. *)
Context (path_exists : string -> bool).
Context (imread : string -> option Obstacles.ndarray3).
Context (now : string).
Context (stem : string -> string).
Context (path_join : string -> string -> string).

(** [ResultVisualizer(config).create_summary_image]: it draws on a copy of
    the image; the picture is not modelled. *)
Context (create_summary_image :
           Config.t -> Obstacles.image -> list Analysis.t -> Obstacles.ndarray3).

(** [for rooftop in rooftops: analyses.append(optimizer.analyze_rooftop(image, rooftop))],
    on the store of arrays. *)
Fixpoint analyze_all (optimizer : SolarPanelOptimizer) (image : Obstacles.image)
    (rooftops : list Rooftop.t) (analyses : list Analysis.t) : M (list Analysis.t) :=
  match rooftops with
  | [] => mret analyses
  | rooftop :: rest =>
      analysis ← Analysis.analyze_rooftop radians cos sin pointPolygonTest
                   cvtColor_BGR2GRAY internal_feature drawContours_filled
                   getStructuringElement_ELLIPSE findContours_EXTERNAL contourArea
                   optimizer image rooftop;
      analyze_all optimizer image rest (analyses ++ [analysis])
  end.

(** [analyze_image], with the store of arrays the run starts from; it
    returns its result or exception and what it wrote. *)
Definition analyze_image (image_path : string) (config : option Config.t)
    (output_dir : string) (store : heap) : Exc.result outcome * list effect :=
  let config := Config.merge config in
  if negb (path_exists image_path) then (Raise (FileNotFoundError image_path), [])
  else
    match imread image_path with
    | None => (Raise (Builtin Py.ValueError), [])
    | Some img =>
        let image := Obstacles.Color img in
        let '(h, w) := Obstacles.shape3 img in
        let detector := RooftopDetector.init (Some config) in
        match RooftopDetector.detect_rooftops cvtColor_BGR2GRAY contourArea minAreaRect
                boxPoints moments_of findContours_EXTERNAL bilateralFilter resize Canny
                boundingRect detector image with
        | Py.Raise e => (Raise (Builtin e), [])
        | Py.Ok rooftops =>
            if (length rooftops =? 0)%nat then (Ok NoRooftops, [])
            else
              match SolarPanelOptimizer_init (Some config) with
              | Py.Raise e => (Raise (Builtin e), [])
              | Py.Ok optimizer =>
                  match analyze_all optimizer image rooftops [] store with
                  | (Py.Raise e, _) => (Raise (Builtin e), [])
                  | (Py.Ok analyses, _) =>
                      let result_image := create_summary_image config image analyses in
                      let base_name := stem image_path in
                      let output_image_path :=
                        path_join output_dir (base_name +:+ "_analysis.png") in
                      let output_json_path :=
                        path_join output_dir (base_name +:+ "_panels.json") in
                      let json_output :=
                        {| timestamp := now;
                           input_image := image_path;
                           image_size := (w, h);
                           report_config := config;
                           report_summary :=
                             {| rooftop_count := Z.of_nat (length analyses);
                                total_panels := sum_Z (map Analysis.panel_count analyses);
                                total_capacity_kw :=
                                  sum_Q (map (fun a => Energy.system_capacity_kw
                                                         (Analysis.energy a)) analyses);
                                total_annual_kwh :=
                                  sum_Q (map (fun a => Energy.estimated_annual_kwh
                                                         (Analysis.energy a)) analyses) |};
                           rooftops := analyses |} in
                      (Ok (Success output_image_path output_json_path analyses),
                       [ Makedirs output_dir;
                         Imwrite output_image_path result_image;
                         JsonDump output_json_path json_output ])
                  end
              end
        end
    end.

End WithLibraries.
End AnalyzeImage.

(** * Vocabulary of the properties

    The predicates and the concrete inputs the statements below are
    written with. *)

(** ** Energy *)

(** The optimizer [self] with one more entry in its configuration. *)
Definition with_option (self : SolarPanelOptimizer) (key : string) (v : Q)
  : SolarPanelOptimizer :=
  {| config := <[key := v]> (config self);
     panel_width_px := panel_width_px self;
     panel_height_px := panel_height_px self |}.

(** A configuration at the equator that carries a loss fraction of one half. *)
Definition lossy_optimizer : SolarPanelOptimizer :=
  {| config := Config.merge (Some (list_to_map
       [ ("latitude"%string, 0%Q); ("system_loss_fraction"%string, (1 # 2)%Q) ]));
     panel_width_px := 6;
     panel_height_px := 11 |}.

(** ** Suitability *)

(** The points awarded for the panel count. *)
Definition panel_points (num_panels : Z) : Z :=
  if 10 <=? num_panels then 35
  else if 5 <=? num_panels then 25
  else if 2 <=? num_panels then 15
  else 0.

(** A rooftop of 22.5 square metres whose bounding rectangle has height 0. *)
Definition degenerate_roof : Rooftop.t :=
  {| Rooftop.id := 1;
     Rooftop.contour := [];
     Rooftop.area_pixels := 1000;
     Rooftop.area_m2 := 45 # 2;
     Rooftop.center := (0, 0);
     Rooftop.bounding_rect :=
       {| Rooftop.rect_center := (0%Q, 0%Q); Rooftop.width := 10;
          Rooftop.height := 0; Rooftop.angle := 0 |};
     Rooftop.box_points := [] |}.

(** A rooftop with a bounding rectangle of 10 by 5. *)
Definition sound_roof (n : Z) : Rooftop.t :=
  {| Rooftop.id := n;
     Rooftop.contour := [];
     Rooftop.area_pixels := 1000;
     Rooftop.area_m2 := 45 # 2;
     Rooftop.center := (0, 0);
     Rooftop.bounding_rect :=
       {| Rooftop.rect_center := (0%Q, 0%Q); Rooftop.width := 10;
          Rooftop.height := 5; Rooftop.angle := 0 |};
     Rooftop.box_points := [] |}.

(** ** The store *)

(** [preserves l m]: running [m] changes no array other than the one at [l]. *)
Definition preserves {A} (l : Np.loc) (m : Np.M A) : Prop :=
  forall (h : Np.heap) (l0 : Np.loc), l0 <> l -> (m h).2 !! l0 = h !! l0.

(** [frame m]: running [m] changes no array that exists when it starts. *)
Definition frame {A} (m : Np.M A) : Prop :=
  forall (h : Np.heap) (l0 : Np.loc), is_Some (h !! l0) -> (m h).2 !! l0 = h !! l0.

(** Two runs are in step when they return the same result and end with the
    same working array, each at its own location. *)
Definition in_step {A} (l1 l2 : Np.loc) (r1 r2 : Py.result A * Np.heap) : Prop :=
  r1.1 = r2.1 /\ r1.2 !! l1 = r2.2 !! l2.

(** ** Panels on the grid *)

(** Two grid positions are separated when the panels anchored there cannot
    share a point: one of the dimensions is not positive, or the panels are
    side by side, or one is above the other. *)
Definition separated (panel_w panel_h : Z) (p q : Z * Z) : Prop :=
  panel_w <= 0 \/ panel_h <= 0 \/
  p.1 + panel_w <= q.1 \/ q.1 + panel_w <= p.1 \/
  p.2 + panel_h <= q.2 \/ q.2 + panel_h <= p.2.

(** The positions visited by the two nested loops, in the order of the scan. *)
Definition grid (xs ys : list Z) : list (Z * Z) :=
  flat_map (fun y => map (fun x => (x, y)) xs) ys.

(** The un-rotated footprint of a panel is the rectangle of its pixel
    dimensions around its centre; [in_footprint p px py] says that the
    point [(px, py)] lies inside it.  A panel whose width or height is not
    positive covers no point. *)
Definition in_footprint (p : Panel.t) (px py : Q) : Prop :=
  let w := inject_Z (Panel.width_px (Panel.dimensions_pixels p)) in
  let h := inject_Z (Panel.height_px (Panel.dimensions_pixels p)) in
  let x0 := (Panel.x (Panel.center p) - w / 2)%Q in
  let y0 := (Panel.y (Panel.center p) - h / 2)%Q in
  (x0 < px /\ px < x0 + w /\ y0 < py /\ py < y0 + h)%Q.

(** Two footprints overlap when some point lies inside both. *)
Definition footprints_overlap (p q : Panel.t) : Prop :=
  exists px py, in_footprint p px py /\ in_footprint q px py.

Section PlacementVocabulary.

Context (radians cos sin : Q -> Q).
Variable self : SolarPanelOptimizer.
Variables (panel_w panel_h : Z) (roof_angle : Q).

(** [placed new sub]: the panels [new] were built, in order, for the grid
    positions [sub]. *)
Definition placed (new : list Panel.t) (sub : list (Z * Z)) : Prop :=
  Forall2 (fun p pos => exists panel_id,
             p = Placement._create_panel_geometry radians cos sin self
                   panel_id pos.1 pos.2 panel_w panel_h roof_angle)
          new sub.

(** [extends positions st st']: going from loop state [st] to [st'] appended
    panels built for some of the [positions], in their order. *)
Definition extends (positions : list (Z * Z)) (st st' : list Panel.t * Z) : Prop :=
  exists sub new,
    sublist sub positions /\ st'.1 = st.1 ++ new /\ placed new sub.

End PlacementVocabulary.

(** Stand-ins for the library functions at the roof angle 0, with a contour
    that contains every probe point. *)
Definition radians_deg (a : Q) : Q := a * (355 # 113) / 180.
Definition cos_at_0 (_ : Q) : Q := 1.
Definition sin_at_0 (_ : Q) : Q := 0.
Definition inside_everywhere (_ : Contour) (_ : Q * Q) (_ : bool) : Q := 1.

(** The optimizer built from the default configuration: panels of 6 x 11
    pixels. *)
Definition default_optimizer : SolarPanelOptimizer :=
  {| config := Config.merge None; panel_width_px := 6; panel_height_px := 11 |}.

(** A store whose only array is a 30 x 30 usable mask that is usable
    everywhere. *)
Definition example_store : Np.heap :=
  {[ 1%positive := {| Np.shape := (30, 30); Np.pix := fun _ _ => 255 |} ]}.

Definition example_pass (panel_w panel_h : Z) : Np.M (list Panel.t) :=
  Placement._place_panels_with_orientation radians_deg cos_at_0 sin_at_0
    inside_everywhere default_optimizer 1%positive panel_w panel_h 0 [].

Definition example_landscape : list Panel.t :=
  Eval vm_compute in
    match (example_pass 6 11 example_store).1 with
    | Py.Ok panels => panels
    | Py.Raise _ => []
    end.

Definition example_portrait : list Panel.t :=
  Eval vm_compute in
    match (example_pass 11 6 example_store).1 with
    | Py.Ok panels => panels
    | Py.Raise _ => []
    end.

(** ** Duplicate suppression *)

(** The test that keeps candidate [j] when box [i] has been kept. *)
Definition survives (boxes : list Detector.box) (areas : list Z) (overlap_thresh : Q)
    (i j : nat) : Prop :=
  Detector.le_float (Detector.overlap boxes areas i j) overlap_thresh = true.

(** A stable [argsort]: insertion sort of the indices by key. *)
Fixpoint insert_key (keys : list Z) (i : nat) (sorted : list nat) : list nat :=
  match sorted with
  | [] => [i]
  | j :: rest =>
      if nth i keys 0 <=? nth j keys 0 then i :: sorted
      else j :: insert_key keys i rest
  end.

Definition insertion_argsort (keys : list Z) : list nat :=
  fold_right (insert_key keys) [] (seq 0 (length keys)).

(** The bounding box of a contour, as [cv2.boundingRect] gives it for a
    set of integer points. *)
Definition bounding_box (c : Contour) : Detector.box :=
  match c with
  | [] => (0, 0, 0, 0)
  | (x, y) :: rest =>
      let x0 := fold_right Z.min x (map fst rest) in
      let x1 := fold_right Z.max x (map fst rest) in
      let y0 := fold_right Z.min y (map snd rest) in
      let y1 := fold_right Z.max y (map snd rest) in
      (x0, y0, x1 - x0 + 1, y1 - y0 + 1)
  end.

Definition outer_square : Contour := [ (0, 0); (9, 0); (9, 9); (0, 9) ].
Definition nested_square : Contour := [ (2, 2); (4, 2); (4, 4); (2, 4) ].
Definition far_square : Contour := [ (20, 20); (25, 20); (25, 25); (20, 25) ].
Definition shifted_square : Contour := [ (30, 0); (39, 0); (39, 9); (30, 9) ].

(** ** Obstacle detection *)

(** The grey-level array [_detect_obstacles] works on. *)
Definition gray_of (cvtColor_BGR2GRAY : Obstacles.ndarray3 -> Np.ndarray)
    (image : Obstacles.image) : Np.ndarray :=
  match image with
  | Obstacles.Color c => cvtColor_BGR2GRAY c
  | Obstacles.Gray g => g
  end.

(** [uniform gray roof_mask v]: every pixel under the mask has intensity [v]. *)
Definition uniform (gray roof_mask : Np.ndarray) (v : Z) : Prop :=
  forall i j, Cv.in_image gray i j = true -> 0 < Np.pix roof_mask i j ->
              Np.pix gray i j = v.

(** A grey image of constant intensity 100 and a roof mask that covers it. *)
Definition flat_roof : Np.ndarray := {| Np.shape := (5, 5); Np.pix := fun _ _ => 100 |}.
Definition whole_mask : Np.ndarray := {| Np.shape := (5, 5); Np.pix := fun _ _ => 255 |}.

(** A square root, to six decimals. *)
Definition sqrt_6 (q : Q) : Q :=
  inject_Z (Z.sqrt (Qnum q * Zpos (Qden q) * 10 ^ 12))
  / inject_Z (Zpos (Qden q) * 10 ^ 6).

(** ** Per-rooftop loops *)

Section PipelineVocabulary.

Context {Image Analysis : Type}.
Context (analyze_roof_for_solar : Image -> Contour -> Py.result Analysis).

(** The entries of the buildings whose analysis returns, numbered from
    [i + 1]. *)
Fixpoint successes (image : Image) (i : Z) (contours : list Contour)
  : list (@Pipeline.entry Analysis) :=
  match contours with
  | [] => []
  | contour :: rest =>
      match analyze_roof_for_solar image contour with
      | Py.Ok a =>
          {| Pipeline.building_id := i + 1; Pipeline.analysis := a |}
          :: successes image (i + 1) rest
      | Py.Raise _ => successes image (i + 1) rest
      end
  end.

End PipelineVocabulary.

(** An analysis that fails on rooftops whose bounding rectangle has no
    height and returns the rooftop's id otherwise. *)
Definition fragile_analysis (_ : unit) (rooftop : Rooftop.t) : Py.result Z :=
  if Qeq_bool (Rooftop.height (Rooftop.bounding_rect rooftop)) 0
  then Py.Raise Py.CvError
  else Py.Ok (Rooftop.id rooftop).

(** ** Placement: what a pass returns *)

(** [numbered st]: the panels of the loop state carry the ids 1, 2, ... in
    order and the next id to hand out follows the last one. *)
Definition numbered (st : list Panel.t * Z) : Prop :=
  map Panel.panel_id st.1 = seqZ 1 (Z.of_nat (length st.1)) /\
  st.2 = 1 + Z.of_nat (length st.1).

(** [below a um]: every usable pixel of [a] is a usable pixel of [um]. *)
Definition below (a um : Np.ndarray) : Prop :=
  Np.shape a = Np.shape um /\ forall i j, 0 < Np.pix a i j -> 0 < Np.pix um i j.

(** [no_usable_pixel um]: no pixel of the array [um] is usable. *)
Definition no_usable_pixel (um : Np.ndarray) : Prop :=
  forall i j, Cv.in_image um i j = true -> Np.pix um i j <= 0.

(** [covered um panel_w panel_h x y]: more than nine tenths of the pixels of
    [um[y:y + panel_h, x:x + panel_w]] are usable. *)
Definition covered (um : Np.ndarray) (panel_w panel_h x y : Z) : Prop :=
  let region := Np.slice um y (y + panel_h) x (x + panel_w) in
  9 * Np.size region < 10 * Np.count_positive um region.

(** The area of the intersection of two boxes, the [w * h] of the
    suppression loop. *)
Definition intersection_area (a b : Detector.box) : Z :=
  let '(xa, ya, wa, ha) := a in
  let '(xb, yb, wb, hb) := b in
  let xx1 := Z.max xa xb in
  let yy1 := Z.max ya yb in
  let xx2 := Z.min (xa + wa) (xb + wb) in
  let yy2 := Z.min (ya + ha) (yb + hb) in
  Z.max 0 (xx2 - xx1) * Z.max 0 (yy2 - yy1).

(** The ratings in order, from [Poor] up. *)
Definition rating_rank (r : Suitability.rating) : Z :=
  match r with
  | Suitability.Poor => 0
  | Suitability.Fair => 1
  | Suitability.Good => 2
  | Suitability.Excellent => 3
  end.

(** A store in which nothing is usable, and two small masks. *)
Definition blank_store : Np.heap :=
  {[ 1%positive := Np.zeros (30, 30) ]}.

Definition full_mask (rows cols : Z) : Np.ndarray :=
  {| Np.shape := (rows, cols); Np.pix := fun _ _ => 255 |}.

(** [converted v]: no NumPy value is left in [v], except inside tuples,
    which [_make_json_serializable] does not enter. *)
Fixpoint converted (v : Json.value) : Prop :=
  match v with
  | Json.NpInteger _ | Json.NpFloating _ | Json.NpArray _ => False
  | Json.PyList items => fold_right (fun x acc => converted x /\ acc) True items
  | Json.PyDict entries => fold_right (fun kv acc => converted kv.2 /\ acc) True entries
  | _ => True
  end.

(** The keys of a dictionary, in order. *)
Definition dict_keys (v : Json.value) : list string :=
  match v with
  | Json.PyDict entries => map fst entries
  | _ => []
  end.

(** ** The annotated image *)

(** The contours drawn on an image with their colours, and the building
    numbers written on it, in the order of drawing. *)
Definition outlines (output_image : list Main.drawing) : list (Contour * (Z * Z * Z)) :=
  omap (fun d => match d with
                 | Main.DrawContours cnt color => Some (cnt, color)
                 | Main.PutText _ _ => None
                 end) output_image.

Definition labels (output_image : list Main.drawing) : list Z :=
  omap (fun d => match d with
                 | Main.DrawContours _ _ => None
                 | Main.PutText building_id _ => Some building_id
                 end) output_image.

(** ** Stand-ins for the worked examples *)

(** Library functions on small inputs: the first channel for the grey
    levels, no internal contour, a structuring element of one pixel, a
    contour that is empty (nothing is drawn, nothing is found) or the
    outline of a 30 x 30 image, the area and the upright rectangle of the
    bounding box. *)
Definition first_channel (c : Obstacles.ndarray3) : Np.ndarray :=
  {| Np.shape := Obstacles.shape3 c; Np.pix := fun i j => (Obstacles.pix3 c i j).1.1 |}.
Definition no_internal_feature (_ : Np.ndarray) (_ _ : Z) : bool := false.
Definition single_pixel (_ : Z) : Cv.kernel := [ (0, 0) ].
Definition draw_nothing (shp : Z * Z) (_ : Contour) : Np.ndarray := Np.zeros shp.
Definition no_contours (_ : Np.ndarray) : list Contour := [].
Definition roof_outline (_ : Np.ndarray) : list Contour :=
  [ [ (0, 0); (29, 0); (29, 29); (0, 29) ] ].
Definition box_contour_area (c : Contour) : Q :=
  inject_Z (Detector.box_area (bounding_box c)).
Definition upright_rect (c : Contour) : RooftopDetector.rotated_rect :=
  let '(x, y, w, h) := bounding_box c in
  ((inject_Z x, inject_Z y), (inject_Z w, inject_Z h), 0%Q).
Definition no_box_points (_ : RooftopDetector.rotated_rect) : list (Q * Q) := [].
Definition box_moments (c : Contour) : RooftopDetector.moments :=
  {| RooftopDetector.m00 := box_contour_area c;
     RooftopDetector.m10 := 0; RooftopDetector.m01 := 0 |}.
Definition same_array (a : Np.ndarray) : Np.ndarray := a.
Definition same_size (a : Np.ndarray) (_ : Z * Z) : Np.ndarray := a.

(** A black colour image of 30 x 30 pixels, and a file system in which
    every path names that image. *)
Definition black_image : Obstacles.ndarray3 :=
  {| Obstacles.shape3 := (30, 30); Obstacles.pix3 := fun _ _ => (0, 0, 0) |}.
Definition every_path_exists (_ : string) : bool := true.
Definition reads_black_image (_ : string) : option Obstacles.ndarray3 := Some black_image.
Definition file_stem (path : string) : string := path.
Definition join_with_slash (dir name : string) : string := dir +:+ "/" +:+ name.
Definition picture_unchanged (_ : Config.t) (_ : Obstacles.image) (_ : list Analysis.t)
  : Obstacles.ndarray3 := black_image.

(** A configuration with only a latitude, for the batch analyser, and one
    with a scale of 0. *)
Definition latitude_only : RoofForSolar.settings := {[ "latitude"%string := 40%Q ]}.
Definition zero_scale : Config.t := {[ "pixel_to_meter"%string := 0%Q ]}.

(** Usable zones of 20 square metres on a 30 x 30 mask. *)
Definition example_zones : Layout.zones :=
  {| Layout.usable_mask := full_mask 30 30;
     Layout.usable_area := 20;
     Layout.quality_map := full_mask 30 30;
     Layout.obstruction_mask := Np.zeros (30, 30) |}.

(** * Properties *)

(** ** Python numbers *)

Lemma Qlt_bool_iff (a b : Q) : Py.Qlt_bool a b = true <-> (a < b)%Q.
Proof.
  unfold Py.Qlt_bool. rewrite negb_true_iff, <- not_true_iff_false, Qle_bool_iff.
  split; [apply Qnot_le_lt | apply Qlt_not_le].
Qed.

Lemma truediv_ok (a b : Q) : ~ b == 0 -> Py.truediv a b = Py.Ok (a / b)%Q.
Proof.
  intros Hb. unfold Py.truediv.
  destruct (Qeq_bool b 0) eqn:E; [|reflexivity].
  apply Qeq_bool_iff in E. contradiction.
Qed.

Lemma round_half_even_inject (x : Q) (z : Z) :
  x == inject_Z z -> Py.round_half_even x = z.
Proof.
  intros Hx. unfold Py.round_half_even.
  assert (Hf : Qfloor x = z) by (rewrite Hx; apply Qfloor_Z).
  rewrite Hf.
  assert (Hc : ((x - inject_Z z) ?= 1 # 2)%Q = Lt).
  { apply Qlt_alt.
    assert (H0 : x - inject_Z z == 0) by (rewrite Hx; ring).
    rewrite H0. reflexivity. }
  rewrite Hc. reflexivity.
Qed.

#[global] Instance round_half_even_proper : Proper (Qeq ==> eq) Py.round_half_even.
Proof.
  intros x y Hxy. unfold Py.round_half_even.
  rewrite (Qfloor_comp _ _ Hxy).
  assert (Hc : ((x - inject_Z (Qfloor y)) ?= 1 # 2)%Q
             = ((y - inject_Z (Qfloor y)) ?= 1 # 2)%Q) by (rewrite Hxy; reflexivity).
  rewrite Hc. reflexivity.
Qed.

Lemma round_proper (x y : Q) (nd : nat) : x == y -> Py.round x nd = Py.round y nd.
Proof.
  intros Hxy. unfold Py.round.
  assert (E : Py.round_half_even (x * inject_Z (10 ^ Z.of_nat nd))
            = Py.round_half_even (y * inject_Z (10 ^ Z.of_nat nd)))
    by (rewrite Hxy; reflexivity).
  rewrite E. reflexivity.
Qed.

Lemma scale_nonzero (nd : nat) : ~ inject_Z (10 ^ Z.of_nat nd) == 0.
Proof.
  intros E. unfold Qeq in E. simpl in E.
  assert (0 < 10 ^ Z.of_nat nd) by (apply Z.pow_pos_nonneg; lia). lia.
Qed.

(** [round] leaves a number with an exact decimal expansion unchanged. *)
Lemma round_exact (x : Q) (nd : nat) (z : Z) :
  x * inject_Z (10 ^ Z.of_nat nd) == inject_Z z -> Py.round x nd == x.
Proof.
  intros Hz. unfold Py.round.
  rewrite (round_half_even_inject _ _ Hz), <- Hz.
  field. apply scale_nonzero.
Qed.

Lemma round_zero (x : Q) (nd : nat) : x == 0 -> Py.round x nd == 0.
Proof.
  intros Hx. rewrite (round_proper _ _ nd Hx).
  apply (round_exact 0 nd 0). ring.
Qed.

(** ** Configuration *)

(** Every default key is present after the merge, so [config[key]] cannot
    raise [KeyError] on the keys the code reads. *)
Lemma merge_has_defaults (user : option Config.t) (key : string) :
  is_Some (Config.DEFAULT_CONFIG !! key) -> is_Some (Config.merge user !! key).
Proof.
  intros [v Hv]. destruct user as [c|]; simpl; [|eauto].
  destruct (c !! key) as [u|] eqn:Hc.
  - exists u. apply lookup_union_Some_l. exact Hc.
  - exists v. rewrite lookup_union_r; assumption.
Qed.

(** The supplied entries override the defaults. *)
Lemma merge_supplied (c : Config.t) (key : string) (v : Q) :
  c !! key = Some v -> Config.get (Config.merge (Some c)) key = v.
Proof.
  intros Hv. unfold Config.get, Config.merge.
  rewrite (lookup_union_Some_l _ _ _ _ Hv). reflexivity.
Qed.

Lemma get_insert_ne (c : Config.t) (k k' : string) (v : Q) :
  k <> k' -> Config.get (<[k := v]> c) k' = Config.get c k'.
Proof. intros Hne. unfold Config.get. rewrite lookup_insert_ne; auto. Qed.

(** ** Energy model *)

Section EnergyFacts.
Import Energy.

Lemma annual_kwh_zero (self : SolarPanelOptimizer) : annual_kwh self 0 == 0.
Proof. unfold annual_kwh, total_area_m2. ring. Qed.

(** C8. With no panels every field of the energy estimate is zero: the
    capacity, the total panel area, the annual, monthly and daily yield and
    the CO2 offset, for every configuration. *)
Theorem calculate_energy_zero_panels (self : SolarPanelOptimizer) :
  let e := _calculate_energy self 0 in
  system_capacity_kw e == 0 /\
  total_panel_area_m2 e == 0 /\
  estimated_annual_kwh e == 0 /\
  estimated_monthly_kwh e == 0 /\
  estimated_daily_kwh e == 0 /\
  co2_offset_kg_year e == 0.
Proof.
  pose proof (annual_kwh_zero self) as Ha.
  simpl. repeat apply conj; apply round_zero.
  - unfold capacity_kw. field.
  - unfold total_area_m2. ring.
  - exact Ha.
  - rewrite Ha. field.
  - rewrite Ha. field.
  - rewrite Ha. ring.
Qed.

(** [_calculate_energy] reads five entries of the configuration and no
    other. *)
Lemma calculate_energy_reads (self : SolarPanelOptimizer) (key : string) (v : Q)
    (num_panels : Z) :
  ~ In key ["panel_width_m"; "panel_height_m"; "panel_power_w"; "latitude";
            "panel_efficiency"]%string ->
  _calculate_energy (with_option self key v) num_panels
  = _calculate_energy self num_panels.
Proof.
  intros Hkey.
  unfold _calculate_energy, annual_kwh, capacity_kw, total_area_m2, panel_area_m2,
    base_irradiance, with_option. simpl.
  rewrite !get_insert_ne; [reflexivity|..]; intros ->; apply Hkey; simpl; auto 10.
Qed.

(** C2, as the code has it.  The annual yield is the product of the panel
    count, the panel area, the irradiance [2200 - 8|latitude|], the
    efficiency and the constant [0.86 = 1 - 0.14], rounded to a whole
    number; a system-loss fraction carried by the configuration is not
    read. *)
Theorem calculate_energy_annual_fixed_loss
    (self : SolarPanelOptimizer) (num_panels : Z) (loss : Q) :
  let self' := with_option self "system_loss_fraction" loss in
  let cfg := Config.get (config self') in
  estimated_annual_kwh (_calculate_energy self' num_panels)
  == Py.round (inject_Z num_panels * cfg "panel_width_m" * cfg "panel_height_m"
               * (2200 - 8 * Qabs (cfg "latitude")) * cfg "panel_efficiency"
               * (1 - (14 # 100))) 0
  /\ _calculate_energy self' num_panels = _calculate_energy self num_panels.
Proof.
  split.
  - simpl. rewrite (round_proper _
      (inject_Z num_panels
       * Config.get (config (with_option self "system_loss_fraction" loss)) "panel_width_m"
       * Config.get (config (with_option self "system_loss_fraction" loss)) "panel_height_m"
       * (2200 - 8 * Qabs (Config.get (config (with_option self "system_loss_fraction" loss)) "latitude"))
       * Config.get (config (with_option self "system_loss_fraction" loss)) "panel_efficiency"
       * (1 - (14 # 100))) 0); [reflexivity|].
    unfold annual_kwh, total_area_m2, panel_area_m2, base_irradiance. ring.
  - apply calculate_energy_reads. simpl. intros H.
    repeat (destruct H as [H|H]; [discriminate H|]). exact H.
Qed.

(** C2 as stated fails: ten panels of 1.0 m x 1.7 m at latitude 0 with a
    configured loss of one half would yield 3740 kWh by the stated formula;
    the code returns 6433, the value for a loss of 0.14. *)
Lemma calculate_energy_ignores_configured_loss :
  let cfg := Config.get (config lossy_optimizer) in
  cfg "system_loss_fraction" = (1 # 2)%Q /\
  estimated_annual_kwh (_calculate_energy lossy_optimizer 10) == 6433 /\
  ~ estimated_annual_kwh (_calculate_energy lossy_optimizer 10)
    == inject_Z 10 * cfg "panel_width_m" * cfg "panel_height_m"
       * (2200 - 8 * Qabs (cfg "latitude")) * cfg "panel_efficiency"
       * (1 - cfg "system_loss_fraction").
Proof.
  vm_compute. repeat split; discriminate.
Qed.

End EnergyFacts.

(** ** Suitability score *)

Section SuitabilityFacts.
Import Suitability.

(** The guard [rect['height'] > 0] keeps the division away from zero. *)
Lemma aspect_ratio_total (rect : Rooftop.rect) :
  exists r, aspect_ratio rect = Py.Ok r.
Proof.
  unfold aspect_ratio.
  destruct (Py.Qlt_bool 0 (Rooftop.height rect)) eqn:E.
  - apply Qlt_bool_iff in E. rewrite truediv_ok; [eauto|].
    intros E0. rewrite E0 in E. revert E. apply Qlt_irrefl.
  - eexists. reflexivity.
Qed.

(** Case analysis on the test of a conditional in the goal. *)
Ltac case_points :=
  match goal with
  | |- context [if ?c then _ else _] => destruct c
  end.

Lemma panel_points_mono (n1 n2 : Z) : n1 <= n2 -> panel_points n1 <= panel_points n2.
Proof.
  intros Hle. unfold panel_points.
  repeat match goal with |- context [?a <=? ?b] => destruct (Z.leb_spec a b) end; lia.
Qed.

(** The score is the panel-count points plus a part that does not depend on
    the panel count. *)
Lemma rate_suitability_score (rooftop : Rooftop.t) (obstacle_count : Z) :
  exists base, forall num_panels,
    exists s, _rate_suitability rooftop num_panels obstacle_count = Py.Ok s
              /\ score s = base + panel_points num_panels.
Proof.
  unfold _rate_suitability.
  destruct (aspect_ratio_total (Rooftop.bounding_rect rooftop)) as [r Hr].
  rewrite Hr. simpl.
  exists
    ((if Qle_bool 50 (Rooftop.area_m2 rooftop) then 35
      else if Qle_bool 30 (Rooftop.area_m2 rooftop) then 25
      else if Qle_bool 20 (Rooftop.area_m2 rooftop) then 15 else 0)
     + (if Qle_bool (8 # 10) r && Qle_bool r (15 # 10) then 15
        else if Qle_bool (5 # 10) r && Qle_bool r 2 then 10 else 0)
     + (if obstacle_count =? 0 then 15
        else if obstacle_count <=? 2 then 10
        else if obstacle_count <=? 5 then 5 else 0)).
  intros n. eexists. split; [reflexivity|]. simpl. unfold panel_points.
  repeat case_points; lia.
Qed.

(** C7. For a fixed rooftop and obstacle count the score does not decrease
    when the panel count increases. *)
Theorem rate_suitability_monotone
    (rooftop : Rooftop.t) (obstacle_count n1 n2 : Z) :
  n1 <= n2 ->
  exists s1 s2,
    _rate_suitability rooftop n1 obstacle_count = Py.Ok s1 /\
    _rate_suitability rooftop n2 obstacle_count = Py.Ok s2 /\
    score s1 <= score s2.
Proof.
  intros Hle.
  destruct (rate_suitability_score rooftop obstacle_count) as [base Hb].
  destruct (Hb n1) as [s1 [E1 S1]]. destruct (Hb n2) as [s2 [E2 S2]].
  exists s1, s2. repeat split; [assumption..|].
  pose proof (panel_points_mono n1 n2 Hle). lia.
Qed.

(** C10. The scorer returns a score and a rating for every rooftop, panel
    count and obstacle count; when the bounding rectangle has height 0 the
    aspect ratio is taken to be 1 and nothing is divided. *)
Theorem rate_suitability_total
    (rooftop : Rooftop.t) (num_panels obstacle_count : Z) :
  (exists s, _rate_suitability rooftop num_panels obstacle_count = Py.Ok s
             /\ 0 <= score s <= 100
             /\ rating_of s = (if 80 <=? score s then Excellent
                              else if 60 <=? score s then Good
                              else if 40 <=? score s then Fair else Poor))
  /\ (Rooftop.height (Rooftop.bounding_rect rooftop) == 0 ->
      aspect_ratio (Rooftop.bounding_rect rooftop) = Py.Ok 1%Q).
Proof.
  split.
  - unfold _rate_suitability.
    destruct (aspect_ratio_total (Rooftop.bounding_rect rooftop)) as [r Hr].
    rewrite Hr. simpl. eexists. split; [reflexivity|]. simpl.
    split; [|reflexivity].
    repeat case_points; lia.
  - intros Hz. unfold aspect_ratio.
    destruct (Py.Qlt_bool 0 _) eqn:E; [|reflexivity].
    apply Qlt_bool_iff in E. rewrite Hz in E. exfalso. revert E. apply Qlt_irrefl.
Qed.

End SuitabilityFacts.

(** ** The store of arrays *)

Section StoreFacts.
Import Np.

Lemma run_bind {A B} (m : M A) (k : A -> M B) (h : heap) :
  (m ≫= k) h = match m h with
               | (Py.Ok a, h') => k a h'
               | (Py.Raise e, h') => (Py.Raise e, h')
               end.
Proof. reflexivity. Qed.

Lemma preserves_ret {A} (l : loc) (a : A) : preserves l (mret a).
Proof. intros h l0 _. reflexivity. Qed.

Lemma preserves_lift {A} (l : loc) (r : Py.result A) : preserves l (lift r).
Proof. intros h l0 _. reflexivity. Qed.

Lemma preserves_load (l l' : loc) : preserves l (load l').
Proof. intros h l0 _. reflexivity. Qed.

Lemma preserves_store (l : loc) (a : ndarray) : preserves l (store l a).
Proof. intros h l0 Hne. simpl. apply lookup_insert_ne. auto. Qed.

Lemma preserves_bind {A B} (l : loc) (m : M A) (k : A -> M B) :
  preserves l m -> (forall a, preserves l (k a)) -> preserves l (m ≫= k).
Proof.
  intros Hm Hk h l0 Hne. rewrite run_bind.
  specialize (Hm h l0 Hne). destruct (m h) as [[a|e] h1]; simpl in *.
  - rewrite (Hk a h1 l0 Hne). exact Hm.
  - exact Hm.
Qed.

Lemma preserves_setitem (l : loc) (v : view) (value : Z) :
  preserves l (setitem l v value).
Proof.
  apply preserves_bind; [apply preserves_load|]. intros a. apply preserves_store.
Qed.

Lemma preserves_for_each {S} (l : loc) (body : Z -> S -> M S) :
  (forall x s, preserves l (body x s)) ->
  forall xs s, preserves l (for_each xs body s).
Proof.
  intros Hb xs. induction xs as [|x xs IH]; intros s; simpl.
  - apply preserves_ret.
  - apply preserves_bind; [apply Hb | apply IH].
Qed.

Lemma frame_ret {A} (a : A) : frame (mret a).
Proof. intros h l0 _. reflexivity. Qed.

Lemma frame_bind {A B} (m : M A) (k : A -> M B) :
  frame m -> (forall a, frame (k a)) -> frame (m ≫= k).
Proof.
  intros Hm Hk h l0 Hl. rewrite run_bind.
  specialize (Hm h l0 Hl). destruct (m h) as [[a|e] h1]; simpl in *.
  - rewrite (Hk a h1 l0); [exact Hm | rewrite Hm; exact Hl].
  - exact Hm.
Qed.

Lemma frame_load (l : loc) : frame (load l).
Proof. intros h l0 _. reflexivity. Qed.

Lemma frame_lift {A} (r : Py.result A) : frame (lift r).
Proof. intros h l0 _. reflexivity. Qed.

Lemma fresh_not_allocated (h : heap) (l0 : loc) :
  is_Some (h !! l0) -> l0 <> fresh (dom h).
Proof.
  intros Hl E. apply elem_of_dom in Hl. rewrite E in Hl.
  exact (is_fresh (dom h) Hl).
Qed.

(** A computation that copies an array and then only writes to the copy
    leaves the existing arrays alone. *)
Lemma frame_copy_bind {B} (l : loc) (k : loc -> M B) :
  (forall l', preserves l' (k l')) -> frame (copy l ≫= k).
Proof.
  intros Hk h l0 Hl.
  change ((copy l ≫= k) h)
    with (k (fresh (dom h)) (<[fresh (dom h) := default (zeros (0, 0)) (h !! l)]> h)).
  pose proof (fresh_not_allocated h l0 Hl) as Hne.
  rewrite (Hk _ _ l0 Hne). apply lookup_insert_ne. auto.
Qed.

End StoreFacts.

Create HintDb store discriminated.
#[global] Hint Resolve preserves_ret preserves_lift preserves_load preserves_store
  preserves_setitem : store.

(** ** Panel placement: effects on the store *)

Section PlacementStore.
Import Np Placement.

Context (radians cos sin : Q -> Q).
Context (pointPolygonTest : Contour -> Q * Q -> bool -> Q).
Variable self : SolarPanelOptimizer.

Local Abbreviation place_at := (place_at radians cos sin pointPolygonTest self).
Local Abbreviation pass := (_place_panels_with_orientation radians cos sin pointPolygonTest self).
Local Abbreviation optimized := (_place_panels_optimized radians cos sin pointPolygonTest self).

Lemma place_at_preserves (available : loc) (panel_w panel_h : Z) (roof_angle : Q)
    (roof_contour : Contour) (y x : Z) (st : list Panel.t * Z) :
  preserves available (place_at available panel_w panel_h roof_angle roof_contour y x st).
Proof.
  unfold Placement.place_at. destruct st as [panels panel_id].
  apply preserves_bind; [auto with store|]. intros a.
  destruct (size _ =? 0); [auto with store|].
  apply preserves_bind; [auto with store|]. intros coverage.
  destruct (_ && _); [|auto with store].
  apply preserves_bind; auto with store.
Qed.

Lemma pass_frame (usable_mask : loc) (panel_w panel_h : Z) (roof_angle : Q)
    (roof_contour : Contour) :
  frame (pass usable_mask panel_w panel_h roof_angle roof_contour).
Proof.
  unfold _place_panels_with_orientation.
  apply frame_bind; [apply frame_load|]. intros um.
  destruct (shape um) as [h w].
  apply frame_bind; [apply frame_lift|]. intros sp.
  apply frame_copy_bind. intros available.
  apply preserves_bind; [apply preserves_lift|]. intros ys.
  apply preserves_bind; [|intros st; apply preserves_ret].
  apply preserves_for_each. intros y st.
  apply preserves_bind; [apply preserves_lift|]. intros xs.
  apply preserves_for_each. intros x st'. apply place_at_preserves.
Qed.

Lemma optimized_frame (usable_mask : loc) (roof_angle : Q) (roof_contour : Contour) :
  frame (optimized usable_mask roof_angle roof_contour).
Proof.
  unfold _place_panels_optimized.
  apply frame_bind; [apply pass_frame|]. intros pl.
  apply frame_bind; [apply pass_frame|]. intros pp.
  destruct (_ <=? _)%nat; apply frame_ret.
Qed.

(** C9. A placement pass leaves its input mask, and every other array
    that exists when it starts, as it found them: it writes only to the
    copy it makes.  So the portrait pass, which starts from the store the
    landscape pass ends with, finds the usable mask the landscape pass
    started from, and the caller's mask is unchanged when
    [_place_panels_optimized] returns. *)
Theorem placement_never_mutates_usable_mask
    (usable_mask : loc) (roof_angle : Q) (roof_contour : Contour) (h : heap) :
  is_Some (h !! usable_mask) ->
  (forall panel_w panel_h l, is_Some (h !! l) ->
     (_place_panels_with_orientation radians cos sin pointPolygonTest self
        usable_mask panel_w panel_h roof_angle roof_contour h).2 !! l = h !! l)
  /\ (_place_panels_with_orientation radians cos sin pointPolygonTest self
        usable_mask (panel_width_px self) (panel_height_px self)
        roof_angle roof_contour h).2 !! usable_mask = h !! usable_mask
  /\ (_place_panels_optimized radians cos sin pointPolygonTest self
        usable_mask roof_angle roof_contour h).2 !! usable_mask = h !! usable_mask
  /\ (forall l, is_Some (h !! l) ->
        (_place_panels_optimized radians cos sin pointPolygonTest self
           usable_mask roof_angle roof_contour h).2 !! l = h !! l).
Proof.
  intros Hum. repeat apply conj.
  - intros pw ph l Hl. apply pass_frame. exact Hl.
  - apply pass_frame. exact Hum.
  - apply optimized_frame. exact Hum.
  - intros l Hl. apply optimized_frame. exact Hl.
Qed.

End PlacementStore.

(** ** Pairwise properties of lists *)

Section Pairwise.
Context {A : Type} (R : A -> A -> Prop).

Lemma pairwise_trivial (l : list A) : (forall a b, R a b) -> ForallOrdPairs R l.
Proof.
  intros HR. induction l as [|a l IH]; constructor; [|exact IH].
  apply List.Forall_forall. intros b _. apply HR.
Qed.

Lemma pairwise_app (l1 l2 : list A) :
  ForallOrdPairs R l1 -> ForallOrdPairs R l2 ->
  (forall a b, In a l1 -> In b l2 -> R a b) ->
  ForallOrdPairs R (l1 ++ l2).
Proof.
  intros H1 H2 H12. induction H1 as [|a l1 Ha H1 IH]; simpl; [exact H2|].
  constructor.
  - apply List.Forall_app. split; [exact Ha|].
    apply List.Forall_forall. intros b Hb. apply H12; [left; reflexivity | exact Hb].
  - apply IH. intros a' b Ha' Hb. apply H12; [right; exact Ha' | exact Hb].
Qed.

Lemma pairwise_sublist (l1 l2 : list A) :
  sublist l1 l2 -> ForallOrdPairs R l2 -> ForallOrdPairs R l1.
Proof.
  induction 1 as [|x l1 l2 Hs IH|x l1 l2 Hs IH]; intros H2.
  - constructor.
  - inversion H2 as [|? ? Hx Hrest]; subst. constructor; [|apply IH; exact Hrest].
    rewrite List.Forall_forall in *. intros b Hb. apply Hx.
    apply list_elem_of_In. eapply elem_of_sublist; [|exact Hs].
    apply list_elem_of_In. exact Hb.
  - inversion H2; subst. apply IH. assumption.
Qed.

Lemma pairwise_lookup (l : list A) (i j : nat) (a b : A) :
  ForallOrdPairs R l -> (i < j)%nat -> l !! i = Some a -> l !! j = Some b -> R a b.
Proof.
  intros H. revert i j. induction H as [|x l Hx H IH]; intros i j Hij Hi Hj.
  - discriminate.
  - destruct j as [|j]; [lia|]. destruct i as [|i]; simpl in *.
    + injection Hi as <-. rewrite List.Forall_forall in Hx. apply Hx.
      apply list_elem_of_In. eapply list_elem_of_lookup_2. exact Hj.
    + apply (IH i j); [lia | assumption..].
Qed.

End Pairwise.

Lemma pairwise_rev {A} (R : A -> A -> Prop) (l : list A) :
  ForallOrdPairs R l -> ForallOrdPairs (fun a b => R b a) (rev l).
Proof.
  induction 1 as [|x l Hx H IH]; simpl; [constructor|].
  apply pairwise_app.
  - exact IH.
  - constructor; [constructor | constructor].
  - intros a b Ha [<-|[]]. rewrite List.Forall_forall in Hx. apply Hx.
    apply List.in_rev. exact Ha.
Qed.


(** ** The scanning grid *)

Lemma range_up_lower (n : nat) (start step : Z) :
  0 <= step -> Forall (fun b => start <= b) (Py.range_up n start step).
Proof.
  intros Hs. revert start. induction n as [|n IH]; intros start; simpl; constructor.
  - lia.
  - eapply List.Forall_impl; [|apply (IH (start + step))]. simpl. intros b Hb. lia.
Qed.

Lemma range_up_spaced (n : nat) (start step : Z) :
  0 < step -> ForallOrdPairs (fun a b => a + step <= b) (Py.range_up n start step).
Proof.
  intros Hs. revert start. induction n as [|n IH]; intros start; simpl; constructor.
  - apply range_up_lower. lia.
  - apply IH.
Qed.

Lemma range_spaced (start stop step : Z) (xs : list Z) :
  0 < step -> Py.range start stop step = Py.Ok xs ->
  ForallOrdPairs (fun a b => a + step <= b) xs.
Proof.
  intros Hs. unfold Py.range. destruct (step =? 0); [discriminate|].
  intros [= <-]. apply range_up_spaced. exact Hs.
Qed.

Lemma separated_sym (panel_w panel_h : Z) (p q : Z * Z) :
  separated panel_w panel_h p q -> separated panel_w panel_h q p.
Proof. unfold separated. intuition lia. Qed.

Lemma row_separated (panel_w panel_h step_x y : Z) (xs : list Z) :
  panel_w <= step_x ->
  ForallOrdPairs (fun a b => a + step_x <= b) xs ->
  ForallOrdPairs (separated panel_w panel_h) (map (fun x => (x, y)) xs).
Proof.
  intros Hw. induction 1 as [|x xs Hx H IH]; simpl; constructor; [|exact IH].
  rewrite List.Forall_forall in *. intros q Hq.
  apply List.in_map_iff in Hq. destruct Hq as (x' & <- & Hx').
  specialize (Hx x' Hx'). unfold separated. simpl. lia.
Qed.

Lemma grid_separated (panel_w panel_h step_x step_y : Z) (xs ys : list Z) :
  panel_w <= step_x -> panel_h <= step_y ->
  ForallOrdPairs (fun a b => a + step_x <= b) xs ->
  ForallOrdPairs (fun a b => a + step_y <= b) ys ->
  ForallOrdPairs (separated panel_w panel_h) (grid xs ys).
Proof.
  intros Hw Hh Hxs. unfold grid.
  induction 1 as [|y ys Hy H IH]; simpl; [constructor|].
  apply pairwise_app.
  - apply (row_separated panel_w panel_h step_x); assumption.
  - exact IH.
  - intros p q Hp Hq.
    apply List.in_map_iff in Hp. destruct Hp as (x & <- & _).
    apply List.in_flat_map in Hq. destruct Hq as (y' & Hy' & Hq).
    apply List.in_map_iff in Hq. destruct Hq as (x' & <- & _).
    rewrite List.Forall_forall in Hy. specialize (Hy y' Hy').
    unfold separated. simpl. lia.
Qed.

(** ** Panel placement: the panels of one pass *)

Section PlacementPanels.
Import Np Placement.

Context (radians cos sin : Q -> Q).
Context (pointPolygonTest : Contour -> Q * Q -> bool -> Q).
Variable self : SolarPanelOptimizer.

Local Abbreviation geometry := (_create_panel_geometry radians cos sin self).
Local Abbreviation place_at := (place_at radians cos sin pointPolygonTest self).
Local Abbreviation pass := (_place_panels_with_orientation radians cos sin pointPolygonTest self).
Local Abbreviation optimized := (_place_panels_optimized radians cos sin pointPolygonTest self).

Variables (panel_w panel_h : Z) (roof_angle : Q) (roof_contour : Contour).

Local Abbreviation placed := (placed radians cos sin self panel_w panel_h roof_angle).
Local Abbreviation extends := (extends radians cos sin self panel_w panel_h roof_angle).

(** The footprint of the panel built for grid position [(x, y)] is the
    rectangle from [(x, y)] to [(x + panel_w, y + panel_h)]: rounding the
    centre to two decimals loses nothing. *)
Lemma geometry_covers (panel_id x y : Z) (px py : Q) :
  in_footprint (geometry panel_id x y panel_w panel_h roof_angle) px py <->
  (inject_Z x < px /\ px < inject_Z (x + panel_w) /\
   inject_Z y < py /\ py < inject_Z (y + panel_h))%Q.
Proof.
  unfold in_footprint. simpl.
  assert (Hx : (Py.round (inject_Z x + inject_Z panel_w / 2) 2
                == inject_Z x + inject_Z panel_w / 2)%Q).
  { apply (round_exact _ 2 (100 * x + 50 * panel_w)).
    rewrite inject_Z_plus, !inject_Z_mult. change (inject_Z (10 ^ Z.of_nat 2)) with (100%Q).
    change (inject_Z 100) with (100%Q). change (inject_Z 50) with (50%Q). field. }
  assert (Hy : (Py.round (inject_Z y + inject_Z panel_h / 2) 2
                == inject_Z y + inject_Z panel_h / 2)%Q).
  { apply (round_exact _ 2 (100 * y + 50 * panel_h)).
    rewrite inject_Z_plus, !inject_Z_mult. change (inject_Z (10 ^ Z.of_nat 2)) with (100%Q).
    change (inject_Z 100) with (100%Q). change (inject_Z 50) with (50%Q). field. }
  rewrite Hx, Hy, !inject_Z_plus. split; intros (H1 & H2 & H3 & H4); repeat split; lra.
Qed.

Lemma separated_no_overlap (id1 id2 x1 y1 x2 y2 : Z) :
  separated panel_w panel_h (x1, y1) (x2, y2) ->
  ~ footprints_overlap (geometry id1 x1 y1 panel_w panel_h roof_angle)
                       (geometry id2 x2 y2 panel_w panel_h roof_angle).
Proof.
  intros Hsep (px & py & H1 & H2).
  apply geometry_covers in H1. apply geometry_covers in H2.
  destruct H1 as (A1 & A2 & A3 & A4). destruct H2 as (B1 & B2 & B3 & B4).
  assert (Hx1 : (x1 < x1 + panel_w)%Z)
    by (rewrite Zlt_Qlt; eapply Qlt_trans; eassumption).
  assert (Hy1 : (y1 < y1 + panel_h)%Z)
    by (rewrite Zlt_Qlt; eapply Qlt_trans; eassumption).
  assert (C1 : (x1 < x2 + panel_w)%Z)
    by (rewrite Zlt_Qlt; eapply Qlt_trans; eassumption).
  assert (C2 : (x2 < x1 + panel_w)%Z)
    by (rewrite Zlt_Qlt; eapply Qlt_trans; eassumption).
  assert (C3 : (y1 < y2 + panel_h)%Z)
    by (rewrite Zlt_Qlt; eapply Qlt_trans; eassumption).
  assert (C4 : (y2 < y1 + panel_h)%Z)
    by (rewrite Zlt_Qlt; eapply Qlt_trans; eassumption).
  unfold separated in Hsep. simpl in Hsep. lia.
Qed.

Lemma extends_refl (st : list Panel.t * Z) : extends [] st st.
Proof.
  exists [], []. repeat split; [constructor | symmetry; apply app_nil_r | constructor].
Qed.

Lemma extends_skip (pos : Z * Z) (st : list Panel.t * Z) : extends [pos] st st.
Proof.
  exists [], []. repeat split;
    [apply sublist_nil_l | symmetry; apply app_nil_r | constructor].
Qed.

Lemma extends_trans (ps1 ps2 : list (Z * Z)) (st1 st2 st3 : list Panel.t * Z) :
  extends ps1 st1 st2 -> extends ps2 st2 st3 -> extends (ps1 ++ ps2) st1 st3.
Proof.
  intros (sub1 & new1 & S1 & E1 & P1) (sub2 & new2 & S2 & E2 & P2).
  exists (sub1 ++ sub2), (new1 ++ new2). repeat split.
  - apply sublist_app; assumption.
  - rewrite E2, E1, app_assoc. reflexivity.
  - apply Forall2_app; assumption.
Qed.

Lemma place_at_extends (available : loc) (y x : Z) (st st' : list Panel.t * Z)
    (h h' : heap) :
  place_at available panel_w panel_h roof_angle roof_contour y x st h = (Py.Ok st', h') ->
  extends [(x, y)] st st'.
Proof.
  unfold Placement.place_at. destruct st as [panels panel_id].
  rewrite run_bind. simpl.
  destruct (size _ =? 0).
  { intros [= <- _]. apply extends_skip. }
  rewrite run_bind. simpl.
  destruct (Py.truediv _ _) as [coverage|e]; simpl; [|discriminate].
  destruct (_ && _).
  - intros [= <- _]. exists [(x, y)], [geometry panel_id x y panel_w panel_h roof_angle].
    repeat split.
    + reflexivity.
    + repeat constructor. exists panel_id. reflexivity.
  - intros [= <- _]. apply extends_skip.
Qed.

Lemma row_extends (available : loc) (y : Z) (xs : list Z) :
  forall (st st' : list Panel.t * Z) (h h' : heap),
    for_each xs (place_at available panel_w panel_h roof_angle roof_contour y) st h
    = (Py.Ok st', h') ->
    extends (map (fun x => (x, y)) xs) st st'.
Proof.
  induction xs as [|x xs IH]; simpl; intros st st' h h' Hrun.
  - injection Hrun as <- _. apply extends_refl.
  - rewrite run_bind in Hrun.
    destruct (place_at _ _ _ _ _ _ _ _ _) as [[st1|e] h1] eqn:E; [|discriminate].
    apply place_at_extends in E. apply IH in Hrun.
    apply (extends_trans [(x, y)] _ _ _ _ E Hrun).
Qed.

Lemma scan_extends (available : loc) (stop_x step_x : Z) (xs ys : list Z) :
  Py.range 0 stop_x step_x = Py.Ok xs ->
  forall (st st' : list Panel.t * Z) (h h' : heap),
    for_each ys
      (fun y st =>
         xs ← lift (Py.range 0 stop_x step_x);
         for_each xs (place_at available panel_w panel_h roof_angle roof_contour y) st)
      st h = (Py.Ok st', h') ->
    extends (grid xs ys) st st'.
Proof.
  intros Hxs. rewrite Hxs.
  induction ys as [|y ys IH]; simpl; intros st st' h h' Hrun.
  - injection Hrun as <- _. apply extends_refl.
  - rewrite run_bind in Hrun. rewrite run_bind in Hrun. simpl in Hrun.
    destruct (for_each xs _ st h) as [[st1|e] h1] eqn:E; [|discriminate].
    apply row_extends in E. apply IH in Hrun.
    apply (extends_trans _ _ _ _ _ E Hrun).
Qed.

End PlacementPanels.

Section PlacementDisjoint.
Import Np Placement.

Context (radians cos sin : Q -> Q).
Context (pointPolygonTest : Contour -> Q * Q -> bool -> Q).
Variable self : SolarPanelOptimizer.

Local Abbreviation geometry := (_create_panel_geometry radians cos sin self).
Local Abbreviation pass := (_place_panels_with_orientation radians cos sin pointPolygonTest self).
Local Abbreviation optimized := (_place_panels_optimized radians cos sin pointPolygonTest self).

Lemma run_ret {A} (a : A) (h : heap) : (mret a : M A) h = (Py.Ok a, h).
Proof. reflexivity. Qed.

Lemma run_load (l : loc) (h : heap) :
  load l h = (Py.Ok (default (zeros (0, 0)) (h !! l)), h).
Proof. reflexivity. Qed.

Lemma run_lift {A} (r : Py.result A) (h : heap) : lift r h = (r, h).
Proof. reflexivity. Qed.

Lemma run_copy (l : loc) (h : heap) :
  copy l h = (Py.Ok (fresh (dom h)),
              <[fresh (dom h) := default (zeros (0, 0)) (h !! l)]> h).
Proof. reflexivity. Qed.

(** The panels of a pass were built for grid positions that are pairwise
    separated. *)
Lemma pass_placed (usable_mask : loc) (panel_w panel_h : Z) (roof_angle : Q)
    (roof_contour : Contour) (h h' : heap) (panels : list Panel.t) :
  pass usable_mask panel_w panel_h roof_angle roof_contour h = (Py.Ok panels, h') ->
  exists sub,
    placed radians cos sin self panel_w panel_h roof_angle panels sub /\
    ForallOrdPairs (separated panel_w panel_h) sub.
Proof.
  unfold _place_panels_with_orientation.
  rewrite run_bind, run_load.
  destruct (shape _) as [rows cols].
  rewrite run_bind, run_lift.
  destruct (Py.truediv _ _) as [sp|e]; [|discriminate].
  rewrite run_bind, run_copy.
  set (available := fresh (dom h)). set (h0 := <[available := _]> h).
  set (spacing := Z.max 1 (Py.int sp)).
  rewrite run_bind, run_lift.
  destruct (Py.range 0 (rows - panel_h) (panel_h + spacing)) as [ys|e] eqn:Hys;
    [|discriminate].
  rewrite run_bind.
  destruct (for_each ys _ _ h0) as [[st|e] h1] eqn:Hscan; [|discriminate].
  intros [= <- <-].
  destruct (Py.range 0 (cols - panel_w) (panel_w + spacing)) as [xs|e] eqn:Hxs.
  - rewrite <- Hxs in Hscan.
    apply (scan_extends radians cos sin pointPolygonTest self panel_w panel_h
             roof_angle roof_contour available _ _ xs ys Hxs) in Hscan.
    destruct Hscan as (sub & new & Hsub & Hst & Hnew). simpl in Hst.
    exists sub. split; [rewrite Hst; exact Hnew|].
    apply (pairwise_sublist _ _ _ Hsub).
    destruct (Z_le_gt_dec panel_w 0) as [Hw|Hw];
      [apply pairwise_trivial; intros; left; exact Hw|].
    destruct (Z_le_gt_dec panel_h 0) as [Hh|Hh];
      [apply pairwise_trivial; intros; right; left; exact Hh|].
    assert (1 <= spacing) by (unfold spacing; lia).
    apply (grid_separated panel_w panel_h (panel_w + spacing) (panel_h + spacing));
      [lia | lia | |].
    + apply (range_spaced 0 (cols - panel_w) (panel_w + spacing) xs); [lia | exact Hxs].
    + apply (range_spaced 0 (rows - panel_h) (panel_h + spacing) ys); [lia | exact Hys].
  - destruct ys as [|y ys]; simpl in Hscan.
    + injection Hscan as <- _. exists []. split; constructor.
    + rewrite run_bind in Hscan. discriminate.
Qed.

Lemma for_each_returns {S} (body : Z -> S -> M S) :
  (forall x s h, exists s', (body x s h).1 = Py.Ok s') ->
  forall xs s h, exists s', (for_each xs body s h).1 = Py.Ok s'.
Proof.
  intros Hb xs. induction xs as [|x xs IH]; intros s h; simpl.
  - exists s. reflexivity.
  - rewrite run_bind. destruct (Hb x s h) as [s1 Hs1].
    destruct (body x s h) as [[s1'|e] h1]; simpl in Hs1; [|discriminate].
    apply IH.
Qed.

Lemma place_at_returns (available : loc) (panel_w panel_h : Z) (roof_angle : Q)
    (roof_contour : Contour) (y x : Z) (st : list Panel.t * Z) (h : heap) :
  exists st',
    (place_at radians cos sin pointPolygonTest self available panel_w panel_h
       roof_angle roof_contour y x st h).1 = Py.Ok st'.
Proof.
  unfold place_at. destruct st as [panels panel_id].
  rewrite run_bind, run_load.
  destruct (size _ =? 0) eqn:Hsize; [eexists; reflexivity|].
  rewrite run_bind, run_lift, truediv_ok.
  - destruct (_ && _); [|eexists; reflexivity].
    rewrite run_bind. unfold setitem. rewrite run_bind, run_load. simpl.
    eexists. reflexivity.
  - apply Z.eqb_neq in Hsize. intros E. apply Hsize.
    unfold Qeq in E. simpl in E. lia.
Qed.

(** With a non-zero scale and panel dimensions that are not negative, a
    pass returns its panels: no step of the scan is zero and no division
    fails. *)
Lemma pass_returns (usable_mask : loc) (panel_w panel_h : Z) (roof_angle : Q)
    (roof_contour : Contour) (h : heap) :
  ~ Config.get (config self) "pixel_to_meter" == 0 ->
  0 <= panel_w -> 0 <= panel_h ->
  exists panels,
    (pass usable_mask panel_w panel_h roof_angle roof_contour h).1 = Py.Ok panels.
Proof.
  intros Hscale Hw Hh. unfold _place_panels_with_orientation.
  rewrite run_bind, run_load.
  destruct (shape _) as [rows cols].
  rewrite run_bind, run_lift, (truediv_ok _ _ Hscale).
  rewrite run_bind, run_copy.
  set (spacing := Z.max 1 _).
  assert (1 <= spacing) by (unfold spacing; lia).
  rewrite run_bind, run_lift.
  unfold Py.range at 1.
  destruct (Z.eqb_spec (panel_h + spacing) 0) as [E|_]; [lia|].
  rewrite run_bind.
  match goal with
  | |- context [for_each ?ys ?body ?s0 ?g] =>
      assert (Hbody : forall y st h0, exists st', (body y st h0).1 = Py.Ok st');
      [|destruct (for_each_returns body Hbody ys s0 g) as [st Hst]]
  end.
  - intros y st g. rewrite run_bind, run_lift. unfold Py.range.
    destruct (Z.eqb_spec (panel_w + spacing) 0) as [E|_]; [lia|].
    apply for_each_returns. intros x st' g'. apply place_at_returns.
  - destruct (for_each _ _ _ _) as [[st'|e] g']; simpl in Hst; [|discriminate].
    eexists. reflexivity.
Qed.

Lemma pass_panels_disjoint
    (usable_mask : loc) (panel_w panel_h : Z) (roof_angle : Q)
    (roof_contour : Contour) (h h' : heap) (panels : list Panel.t) :
  pass usable_mask panel_w panel_h roof_angle roof_contour h = (Py.Ok panels, h') ->
  forall (i j : nat) (p q : Panel.t),
    i <> j -> panels !! i = Some p -> panels !! j = Some q -> ~ footprints_overlap p q.
Proof.
  intros Hrun i j p q Hij Hi Hj.
  destruct (pass_placed _ _ _ _ _ _ _ _ Hrun) as (sub & Hplaced & Hsep).
  destruct (Forall2_lookup_l _ _ _ _ _ Hplaced Hi) as ([xi yi] & Hsi & idi & ->).
  destruct (Forall2_lookup_l _ _ _ _ _ Hplaced Hj) as ([xj yj] & Hsj & idj & ->).
  apply separated_no_overlap. simpl.
  destruct (Nat.lt_total i j) as [Hlt|[Heq|Hgt]]; [|contradiction|].
  - exact (pairwise_lookup _ _ _ _ _ _ Hsep Hlt Hsi Hsj).
  - apply separated_sym. exact (pairwise_lookup _ _ _ _ _ _ Hsep Hgt Hsj Hsi).
Qed.

(** C4. No two panels emitted by one placement pass have overlapping
    un-rotated footprints; and since [_place_panels_optimized] returns the
    panels of one pass, the panels accepted for a rooftop are pairwise
    disjoint as well. *)
Theorem placement_pass_disjoint
    (usable_mask : loc) (panel_w panel_h : Z) (roof_angle : Q)
    (roof_contour : Contour) (h h' : heap) (panels : list Panel.t) :
  _place_panels_with_orientation radians cos sin pointPolygonTest self
    usable_mask panel_w panel_h roof_angle roof_contour h = (Py.Ok panels, h')
  \/ _place_panels_optimized radians cos sin pointPolygonTest self
       usable_mask roof_angle roof_contour h = (Py.Ok panels, h') ->
  forall (i j : nat) (p q : Panel.t),
    i <> j -> panels !! i = Some p -> panels !! j = Some q -> ~ footprints_overlap p q.
Proof.
  intros [Hpass|Hopt]; [exact (pass_panels_disjoint _ _ _ _ _ _ _ _ Hpass)|].
  revert Hopt. unfold _place_panels_optimized. rewrite run_bind.
  destruct (pass usable_mask (panel_width_px self) _ _ _ h) as [[pl|e] h1] eqn:E1;
    [|discriminate].
  rewrite run_bind.
  destruct (pass usable_mask (panel_height_px self) _ _ _ h1) as [[pp|e] h2] eqn:E2;
    [|discriminate].
  destruct (_ <=? _)%nat; intros [= <- _].
  - exact (pass_panels_disjoint _ _ _ _ _ _ _ _ E1).
  - exact (pass_panels_disjoint _ _ _ _ _ _ _ _ E2).
Qed.

End PlacementDisjoint.

(** ** Panel placement: the two trials *)

Section PlacementTrials.
Import Np Placement.

Context (radians cos sin : Q -> Q).
Context (pointPolygonTest : Contour -> Q * Q -> bool -> Q).
Variable self : SolarPanelOptimizer.

Local Abbreviation place_at := (place_at radians cos sin pointPolygonTest self).
Local Abbreviation pass := (_place_panels_with_orientation radians cos sin pointPolygonTest self).
Local Abbreviation optimized := (_place_panels_optimized radians cos sin pointPolygonTest self).

Lemma place_at_in_step (l1 l2 : loc) (panel_w panel_h : Z) (roof_angle : Q)
    (roof_contour : Contour) (y x : Z) (st : list Panel.t * Z) (g1 g2 : heap) :
  g1 !! l1 = g2 !! l2 ->
  in_step l1 l2 (place_at l1 panel_w panel_h roof_angle roof_contour y x st g1)
                (place_at l2 panel_w panel_h roof_angle roof_contour y x st g2).
Proof.
  intros Hg. unfold Placement.place_at. destruct st as [panels panel_id].
  rewrite !run_bind, !run_load, Hg.
  set (a := default (zeros (0, 0)) (g2 !! l2)).
  destruct (size _ =? 0); [split; [reflexivity | exact Hg]|].
  rewrite !run_bind, !run_lift.
  destruct (Py.truediv _ _) as [coverage|e]; [|split; [reflexivity | exact Hg]].
  destruct (_ && _); [|split; [reflexivity | exact Hg]].
  rewrite !run_bind. unfold setitem. rewrite !run_bind, !run_load, Hg. simpl.
  rewrite !run_ret.
  split; [reflexivity|]. simpl. rewrite !lookup_insert_eq. reflexivity.
Qed.

Lemma for_each_in_step {S} (l1 l2 : loc) (body1 body2 : Z -> S -> M S) :
  (forall x s g1 g2, g1 !! l1 = g2 !! l2 ->
     in_step l1 l2 (body1 x s g1) (body2 x s g2)) ->
  forall xs s g1 g2, g1 !! l1 = g2 !! l2 ->
    in_step l1 l2 (for_each xs body1 s g1) (for_each xs body2 s g2).
Proof.
  intros Hb xs. induction xs as [|x xs IH]; intros s g1 g2 Hg; simpl.
  - split; [reflexivity | exact Hg].
  - rewrite !run_bind. destruct (Hb x s g1 g2 Hg) as [Hr Hh].
    destruct (body1 x s g1) as [[s1|e1] g1'], (body2 x s g2) as [[s2|e2] g2'];
      simpl in *; try discriminate.
    + injection Hr as <-. apply IH. exact Hh.
    + split; [exact Hr | exact Hh].
Qed.

(** The panels of a pass depend on the store only through the array of the
    usable mask. *)
Lemma pass_depends_on_mask (usable_mask : loc) (panel_w panel_h : Z) (roof_angle : Q)
    (roof_contour : Contour) (h1 h2 : heap) :
  h1 !! usable_mask = h2 !! usable_mask ->
  (pass usable_mask panel_w panel_h roof_angle roof_contour h1).1
  = (pass usable_mask panel_w panel_h roof_angle roof_contour h2).1.
Proof.
  intros Hum. unfold _place_panels_with_orientation.
  rewrite !run_bind, !run_load, Hum.
  destruct (shape _) as [rows cols].
  rewrite !run_bind, !run_lift.
  destruct (Py.truediv _ _) as [sp|e]; [|reflexivity].
  rewrite !run_bind, !run_copy, Hum.
  set (a := default (zeros (0, 0)) (h2 !! usable_mask)).
  set (l1 := fresh (dom h1)). set (l2 := fresh (dom h2)).
  rewrite !run_bind, !run_lift.
  destruct (Py.range 0 (rows - panel_h) _) as [ys|e]; [|reflexivity].
  rewrite !run_bind.
  match goal with
  | |- (match for_each ys ?b1 ?s ?g1 with _ => _ end).1
       = (match for_each ys ?b2 ?s ?g2 with _ => _ end).1 =>
      assert (Hstep : in_step l1 l2 (for_each ys b1 s g1) (for_each ys b2 s g2))
  end.
  { apply for_each_in_step; [|rewrite !lookup_insert_eq; reflexivity].
    intros y st g1 g2 Hg. rewrite !run_bind, !run_lift.
    destruct (Py.range 0 (cols - panel_w) _) as [xs|e]; [|split; [reflexivity | exact Hg]].
    apply for_each_in_step; [|exact Hg].
    intros x st' g1' g2' Hg'. apply place_at_in_step. exact Hg'. }
  destruct Hstep as [Hr _].
  destruct (for_each ys _ _ (<[l1 := a]> h1)) as [[s1|e1] g1'],
           (for_each ys _ _ (<[l2 := a]> h2)) as [[s2|e2] g2'];
    simpl in *; congruence.
Qed.

(** C6. The engine runs the landscape pass (configured width and height)
    and the portrait pass (dimensions swapped) on the same usable mask and
    returns the panels of the pass that placed more; when both placed the
    same number it returns the landscape panels. *)
Theorem optimized_picks_larger_pass
    (usable_mask : loc) (roof_angle : Q) (roof_contour : Contour) (h : heap)
    (landscape portrait : list Panel.t) :
  is_Some (h !! usable_mask) ->
  (_place_panels_with_orientation radians cos sin pointPolygonTest self
     usable_mask (panel_width_px self) (panel_height_px self)
     roof_angle roof_contour h).1 = Py.Ok landscape ->
  (_place_panels_with_orientation radians cos sin pointPolygonTest self
     usable_mask (panel_height_px self) (panel_width_px self)
     roof_angle roof_contour h).1 = Py.Ok portrait ->
  exists panels,
    (_place_panels_optimized radians cos sin pointPolygonTest self
       usable_mask roof_angle roof_contour h).1 = Py.Ok panels /\
    ((length portrait <= length landscape)%nat -> panels = landscape) /\
    ((length landscape < length portrait)%nat -> panels = portrait) /\
    length panels = Nat.max (length landscape) (length portrait).
Proof.
  intros Hum Hl Hp. unfold _place_panels_optimized. rewrite run_bind.
  pose proof (pass_frame radians cos sin pointPolygonTest self usable_mask
                (panel_width_px self) (panel_height_px self) roof_angle roof_contour
                h usable_mask Hum) as Hframe.
  destruct (pass usable_mask (panel_width_px self) _ _ _ h) as [[pl|e] h1];
    simpl in Hl, Hframe; [|discriminate].
  injection Hl as ->.
  rewrite run_bind.
  rewrite <- (pass_depends_on_mask usable_mask _ _ roof_angle roof_contour h1 h Hframe)
    in Hp.
  destruct (pass usable_mask (panel_height_px self) _ _ _ h1) as [[pp|e] h2];
    simpl in Hp; [|discriminate].
  injection Hp as ->.
  destruct (Nat.leb_spec (length portrait) (length landscape)) as [Hle|Hlt].
  - exists landscape.
    split; [reflexivity|]. split; [reflexivity|]. split; [intros; lia | lia].
  - exists portrait.
    split; [reflexivity|]. split; [intros; lia|]. split; [reflexivity | lia].
Qed.

End PlacementTrials.

(** ** Duplicate suppression *)

Section SuppressFacts.
Import Detector.

Variables (boxes : list box) (areas : list Z) (overlap_thresh : Q).

Local Abbreviation survives := (survives boxes areas overlap_thresh).

Lemma filter_sublist {A} (f : A -> bool) (l : list A) : sublist (List.filter f l) l.
Proof.
  induction l as [|a l IH]; simpl; [constructor|].
  destruct (f a); [apply sublist_skip | apply sublist_cons]; exact IH.
Qed.

Lemma filter_all {A} (f : A -> bool) (l : list A) :
  Forall (fun a => f a = true) l -> List.filter f l = l.
Proof.
  induction 1 as [|a l Ha H IH]; simpl; [reflexivity|]. rewrite Ha, IH. reflexivity.
Qed.

Lemma suppress_sublist (idxs : list nat) :
  sublist (suppress boxes areas overlap_thresh idxs) idxs.
Proof.
  funelim (suppress boxes areas overlap_thresh idxs); simp suppress.
  - constructor.
  - reflexivity.
  - apply sublist_skip.
    match goal with IH : sublist _ _ |- _ => etransitivity; [exact IH|] end.
    apply filter_sublist.
Qed.

(** Every kept index passed the test against every index kept before it. *)
Lemma suppress_pairwise (idxs : list nat) :
  ForallOrdPairs survives (suppress boxes areas overlap_thresh idxs).
Proof.
  funelim (suppress boxes areas overlap_thresh idxs); simp suppress.
  - constructor.
  - repeat constructor.
  - constructor; [|assumption].
    apply List.Forall_forall. intros j Hj.
    apply list_elem_of_In in Hj.
    eapply elem_of_sublist in Hj; [|apply suppress_sublist].
    apply list_elem_of_In, List.filter_In in Hj. exact (proj2 Hj).
Qed.

(** A list in which every index passes the test against the ones before it
    is returned unchanged. *)
Lemma suppress_fixed (idxs : list nat) :
  ForallOrdPairs survives idxs -> suppress boxes areas overlap_thresh idxs = idxs.
Proof.
  induction 1 as [|i rest Hi H IH]; simp suppress; [reflexivity|].
  destruct rest as [|j rest]; simp suppress; [reflexivity|].
  rewrite (filter_all _ _ Hi), IH. reflexivity.
Qed.

Lemma suppress_nonempty (idxs : list nat) :
  idxs <> [] -> suppress boxes areas overlap_thresh idxs <> [].
Proof.
  destruct idxs as [|i [|j rest]]; simp suppress; congruence.
Qed.

End SuppressFacts.

Lemma map_nth_seq {A} (l : list A) (d : A) :
  map (fun i => nth i l d) (seq 0 (length l)) = l.
Proof.
  induction l as [|a l IH]; simpl; [reflexivity|].
  rewrite <- List.seq_shift, List.map_map. simpl. rewrite IH. reflexivity.
Qed.

Lemma nth_map_in_range {A B} (f : A -> B) (l : list A) (i : nat) (d : A) (d' : B) :
  (i < length l)%nat -> nth i (map f l) d' = f (nth i l d).
Proof.
  intros Hi. rewrite (List.nth_indep _ d' (f d)); [|rewrite List.length_map; exact Hi].
  apply List.map_nth.
Qed.

Lemma lookup_nth {A} (l : list A) (i : nat) (d : A) :
  (i < length l)%nat -> l !! i = Some (nth i l d).
Proof.
  intros Hi. destruct (lookup_lt_is_Some_2 l i Hi) as [x Hx].
  rewrite (nth_lookup_Some _ _ d _ Hx). exact Hx.
Qed.

Lemma pairwise_refine {A} (S R : A -> A -> Prop) (l : list A) :
  NoDup l ->
  (forall a b, In a l -> In b l -> a <> b -> S a b -> R a b) ->
  ForallOrdPairs S l -> ForallOrdPairs R l.
Proof.
  intros Hnd HSR H. induction H as [|x l Hx H IH]; [constructor|].
  apply NoDup_cons in Hnd. destruct Hnd as [Hnx Hnd].
  constructor.
  - rewrite List.Forall_forall in *. intros b Hb. apply HSR.
    + left; reflexivity.
    + right; exact Hb.
    + intros ->. apply Hnx. apply list_elem_of_In. exact Hb.
    + apply Hx. exact Hb.
  - apply IH; [exact Hnd|]. intros a b Ha Hb. apply HSR; right; assumption.
Qed.

Section NMSFacts.
Import Detector.

Context (boundingRect : Contour -> box).
Context `{ArgSort}.

(** The intersection of two boxes does not depend on their order, so for
    two boxes of the same area the test gives the same answer both ways. *)
Lemma survives_sym (boxes : list box) (areas : list Z) (t : Q) (i j : nat) :
  nth i areas 0 = nth j areas 0 ->
  survives boxes areas t i j -> survives boxes areas t j i.
Proof.
  unfold survives, overlap. intros Ha.
  destruct (nth i boxes (0, 0, 0, 0)) as [[[xi yi] wi] hi].
  destruct (nth j boxes (0, 0, 0, 0)) as [[[xj yj] wj] hj].
  rewrite Ha, (Z.max_comm xi xj), (Z.max_comm yi yj),
    (Z.min_comm (xi + wi) (xj + wj)), (Z.min_comm (yi + hi) (yj + hj)).
  auto.
Qed.

Lemma argsort_in_range (keys : list Z) (i : nat) :
  In i (argsort keys) -> (i < length keys)%nat.
Proof.
  intros Hi. apply (Permutation_in _ (argsort_perm keys)) in Hi.
  apply List.in_seq in Hi. lia.
Qed.

Lemma argsort_NoDup (keys : list Z) : NoDup (argsort keys).
Proof.
  apply NoDup_ListNoDup.
  apply (Permutation_NoDup (Permutation_sym (argsort_perm keys))), List.seq_NoDup.
Qed.

(** [idxs = np.argsort(areas)[::-1]] lists the indices by decreasing area. *)
Lemma idxs_decreasing (keys : list Z) :
  ForallOrdPairs (fun i j => nth j keys 0 <= nth i keys 0) (rev (argsort keys)).
Proof. apply (pairwise_rev _ _ (argsort_sorted keys)). Qed.

(** C5. Non-max suppression is idempotent: running it on its own output
    returns the same contours, each as often as the first run returned
    it. *)
Theorem non_max_suppression_idempotent (contours : list Contour) (overlap_thresh : Q) :
  Permutation
    (_non_max_suppression boundingRect
       (_non_max_suppression boundingRect contours overlap_thresh) overlap_thresh)
    (_non_max_suppression boundingRect contours overlap_thresh).
Proof.
  unfold _non_max_suppression at 2 3.
  destruct (Nat.eqb_spec (length contours) 0) as [Hn|Hn]; [reflexivity|].
  set (boxes := map boundingRect contours).
  set (areas := map box_area boxes).
  set (K := suppress boxes areas overlap_thresh (rev (argsort areas))).
  set (contours2 := map (fun i => nth i contours []) K).
  assert (Hlen : length areas = length contours)
    by (unfold areas, boxes; rewrite !List.length_map; reflexivity).
  (* the kept indices *)
  assert (HKsub : sublist K (rev (argsort areas))) by apply suppress_sublist.
  assert (HKrange : forall i, In i K -> (i < length contours)%nat).
  { intros i Hi. rewrite <- Hlen. apply argsort_in_range, List.in_rev.
    apply list_elem_of_In. eapply elem_of_sublist; [|exact HKsub].
    apply list_elem_of_In. exact Hi. }
  assert (HKdec : ForallOrdPairs (fun i j => nth j areas 0 <= nth i areas 0) K)
    by (apply (pairwise_sublist _ _ _ HKsub), idxs_decreasing).
  assert (HKok : ForallOrdPairs (survives boxes areas overlap_thresh) K)
    by apply suppress_pairwise.
  assert (HKne : K <> []).
  { apply suppress_nonempty. intros E.
    pose proof (Permutation_length (argsort_perm areas)) as Hl.
    rewrite List.length_seq, Hlen in Hl. apply (f_equal (@length nat)) in E.
    rewrite List.length_rev in E. simpl in E. lia. }
  (* the second run *)
  unfold _non_max_suppression.
  assert (Hm : length contours2 = length K) by (unfold contours2; apply List.length_map).
  destruct (Nat.eqb_spec (length contours2) 0) as [Hz|_].
  { exfalso. apply HKne, List.length_zero_iff_nil. lia. }
  set (boxes2 := map boundingRect contours2).
  set (areas2 := map box_area boxes2).
  assert (Hbox2 : forall p, (p < length K)%nat ->
            nth p boxes2 (0, 0, 0, 0) = nth (nth p K O) boxes (0, 0, 0, 0)).
  { intros p Hp. unfold boxes2, contours2, boxes. rewrite List.map_map.
    rewrite (nth_map_in_range _ K p O) by exact Hp.
    symmetry. apply nth_map_in_range. apply HKrange, List.nth_In. exact Hp. }
  assert (Harea2 : forall p, (p < length K)%nat ->
            nth p areas2 0 = nth (nth p K O) areas 0).
  { intros p Hp. unfold areas2, areas.
    change 0 with (box_area (0, 0, 0, 0)). rewrite !List.map_nth.
    rewrite (Hbox2 p Hp). reflexivity. }
  assert (Hlen2 : length areas2 = length K)
    by (unfold areas2, boxes2; rewrite !List.length_map; exact Hm).
  assert (Hfix : suppress boxes2 areas2 overlap_thresh (rev (argsort areas2))
                 = rev (argsort areas2)).
  { apply suppress_fixed.
    apply (pairwise_refine (fun p q => nth q areas2 0 <= nth p areas2 0)).
    - apply NoDup_ListNoDup, List.NoDup_rev, NoDup_ListNoDup, argsort_NoDup.
    - intros p q Hp Hq Hpq Hdec.
      apply List.in_rev, argsort_in_range in Hp. apply List.in_rev, argsort_in_range in Hq.
      rewrite Hlen2 in Hp, Hq.
      assert (HKp : K !! p = Some (nth p K O)) by (apply lookup_nth; exact Hp).
      assert (HKq : K !! q = Some (nth q K O)) by (apply lookup_nth; exact Hq).
      rewrite (Harea2 p Hp), (Harea2 q Hq) in Hdec.
      assert (Hgoal : survives boxes areas overlap_thresh (nth p K O) (nth q K O)).
      { destruct (Nat.lt_total p q) as [Hlt|[Heq|Hgt]]; [|contradiction|].
        - exact (pairwise_lookup _ _ _ _ _ _ HKok Hlt HKp HKq).
        - apply survives_sym.
          + pose proof (pairwise_lookup _ _ _ _ _ _ HKdec Hgt HKq HKp). simpl in *. lia.
          + exact (pairwise_lookup _ _ _ _ _ _ HKok Hgt HKq HKp). }
      unfold survives, overlap in *.
      rewrite (Hbox2 p Hp), (Hbox2 q Hq), (Harea2 q Hq). exact Hgoal.
    - apply idxs_decreasing. }
  rewrite Hfix.
  transitivity (map (fun i => nth i contours2 []) (seq 0 (length contours2))).
  - apply Permutation_map. rewrite <- List.rev_alt || idtac.
    etransitivity; [symmetry; apply Permutation_rev|].
    rewrite Hm, <- Hlen2. apply argsort_perm.
  - rewrite map_nth_seq. reflexivity.
Qed.

End NMSFacts.

(** ** Obstacle detection *)

Section MorphologyFacts.
Import Np Cv.

Lemma elem_of_cells (v : view) (i j : Z) :
  (i, j) ∈ cells v <-> (r0 v <= i < r1 v) /\ (c0 v <= j < c1 v).
Proof.
  unfold cells. rewrite list_elem_of_bind. split.
  - intros (i' & Hj & Hi). apply list_elem_of_bind in Hj.
    destruct Hj as (j' & Hij & Hj). apply list_elem_of_singleton in Hij.
    injection Hij as -> ->. apply elem_of_seqZ in Hi. apply elem_of_seqZ in Hj. lia.
  - intros [Hi Hj]. exists i. split; [|apply elem_of_seqZ; lia].
    apply list_elem_of_bind. exists j. split; [|apply elem_of_seqZ; lia].
    apply list_elem_of_singleton. reflexivity.
Qed.

Lemma in_image_spec (a : ndarray) (i j : Z) :
  in_image a i j = true <-> (0 <= i < (shape a).1) /\ (0 <= j < (shape a).2).
Proof. unfold in_image. rewrite !andb_true_iff. lia. Qed.

(** A dilation does not lower a pixel when the element contains its centre. *)
Lemma dilate_center (src : ndarray) (k : kernel) (i j : Z) :
  In (0, 0) k -> in_image src i j = true -> pix src i j <= pix (dilate src k) i j.
Proof.
  intros Hk Hin. simpl. induction k as [|[di dj] k IH]; [destruct Hk|].
  simpl. destruct Hk as [[= -> ->]|Hk].
  - rewrite !Z.add_0_r, Hin. lia.
  - specialize (IH Hk). destruct (in_image src (i + di) (j + dj)); lia.
Qed.

(** An erosion keeps a pixel at level [c] when the image is at level [c]
    under the whole element. *)
Lemma erode_level (src : ndarray) (k : kernel) (i j c : Z) :
  c <= 255 ->
  (forall di dj, In (di, dj) k -> in_image src (i + di) (j + dj) = true ->
                 c <= pix src (i + di) (j + dj)) ->
  c <= pix (erode src k) i j.
Proof.
  intros Hc Hk. simpl. induction k as [|[di dj] k IH]; simpl; [exact Hc|].
  assert (IH' := IH (fun di' dj' Hin => Hk di' dj' (or_intror Hin))).
  destruct (in_image src (i + di) (j + dj)) eqn:E; [|exact IH'].
  specialize (Hk di dj (or_introl eq_refl) E). lia.
Qed.

End MorphologyFacts.

Section StatisticsFacts.
Import Obstacles.

Lemma Qsum_const (xs : list Q) (c : Q) :
  Forall (fun x => x == c) xs ->
  Qsum xs == inject_Z (Z.of_nat (length xs)) * c.
Proof.
  induction 1 as [|x xs Hx H IH].
  - simpl. ring.
  - change (Qsum (x :: xs)) with (x + Qsum xs)%Q.
    rewrite IH, Hx. cbn [length].
    rewrite Nat2Z.inj_succ. unfold Z.succ. rewrite inject_Z_plus. ring.
Qed.

Lemma mean_const (xs : list Q) (c : Q) :
  xs <> [] -> Forall (fun x => x == c) xs -> mean xs == c.
Proof.
  intros Hne Hxs. unfold mean. rewrite (Qsum_const xs c Hxs).
  field. intros E. apply Hne, List.length_zero_iff_nil.
  unfold Qeq in E. simpl in E. lia.
Qed.

(** The standard deviation of equal values is zero. *)
Lemma std_const `{Sqrt} (xs : list Q) (c : Q) :
  xs <> [] -> Forall (fun x => x == c) xs -> std xs == 0.
Proof.
  intros Hne Hxs. unfold std. apply sqrt_0.
  apply mean_const.
  - intros E. apply Hne. destruct xs; [reflexivity | discriminate].
  - apply List.Forall_map. eapply List.Forall_impl; [|exact Hxs].
    intros x Hx. cbv beta.
    assert (E : x - mean xs == 0) by (rewrite Hx, (mean_const xs c Hne Hxs); ring).
    rewrite E. reflexivity.
Qed.

End StatisticsFacts.

Section ObstacleFacts.
Import Np Cv Obstacles.

Context (cvtColor_BGR2GRAY : ndarray3 -> ndarray).
Context (internal_feature : ndarray -> Z -> Z -> bool).
Context `{Sqrt}.

Local Abbreviation detect := (_detect_obstacles cvtColor_BGR2GRAY internal_feature).
Local Abbreviation gray_of := (gray_of cvtColor_BGR2GRAY).

Lemma select_uniform (gray roof_mask : ndarray) (v : Z) :
  uniform gray roof_mask v ->
  Forall (fun x => x == inject_Z v) (select gray roof_mask).
Proof.
  intros Hu. unfold select. apply List.Forall_map. apply Forall_forall.
  intros [i j] Hc. apply list_elem_of_filter in Hc. destruct Hc as [Hpos Hc].
  apply elem_of_cells in Hc. simpl in *.
  rewrite (Hu i j); [reflexivity | apply in_image_spec; exact Hc | exact Hpos].
Qed.

Lemma select_nonempty (gray roof_mask : ndarray) (i j : Z) :
  in_image gray i j = true -> 0 < pix roof_mask i j -> select gray roof_mask <> [].
Proof.
  intros Hin Hpos E. unfold select in E. apply fmap_nil_inv in E.
  assert (Hc : (i, j) ∈ filter (fun c => 0 < pix roof_mask c.1 c.2)
                 (cells {| r0 := 0; r1 := (shape gray).1; c0 := 0; c1 := (shape gray).2 |})).
  { apply list_elem_of_filter. split; [exact Hpos|].
    apply elem_of_cells. apply in_image_spec in Hin. exact Hin. }
  rewrite E in Hc. apply not_elem_of_nil in Hc. exact Hc.
Qed.

(** On a roof of uniform intensity [v] the dark threshold is [max(20, v)],
    which no roof pixel exceeds: method 1 marks every roof pixel. *)
Lemma dark_threshold_not_exceeded (xs : list Q) (v : Z) :
  xs <> [] -> Forall (fun x => x == inject_Z v) xs ->
  Py.Qlt_bool (Qmax 20 (mean xs - 2 * std xs)) (inject_Z v) = false.
Proof.
  intros Hne Hxs. apply not_true_iff_false. rewrite Qlt_bool_iff.
  apply Qle_not_lt.
  assert (E : mean xs - 2 * std xs == inject_Z v).
  { rewrite (mean_const xs _ Hne Hxs), (std_const xs _ Hne Hxs). ring. }
  rewrite <- E at 1. apply Q.le_max_r.
Qed.

(** What the detector does on a roof of uniform intensity: every roof pixel
    whose 3x3 cross lies on the roof is marked in the obstacle mask. *)
Lemma uniform_roof_flagged (image : image) (roof_mask : ndarray) (v i j : Z) :
  uniform (gray_of image) roof_mask v ->
  in_image (gray_of image) i j = true ->
  (forall di dj, In (di, dj) ellipse_3x3 ->
     in_image (gray_of image) (i + di) (j + dj) = true ->
     pix roof_mask (i + di) (j + dj) = 255) ->
  255 <= pix (detect image roof_mask) i j.
Proof.
  intros Hu Hin Hcross. unfold _detect_obstacles. fold (gray_of image).
  set (gray := gray_of image) in *.
  assert (Hm : pix roof_mask i j = 255).
  { rewrite <- (Z.add_0_r i), <- (Z.add_0_r j). apply Hcross.
    - simpl. auto.
    - rewrite !Z.add_0_r. exact Hin. }
  assert (Hne : select gray roof_mask <> [])
    by (apply (select_nonempty gray roof_mask i j Hin); lia).
  pose proof (select_uniform gray roof_mask v Hu) as Hxs.
  destruct (Nat.eqb_spec (length (select gray roof_mask)) 0) as [Hz|_].
  { exfalso. apply Hne, List.length_zero_iff_nil. exact Hz. }
  etransitivity; [|apply dilate_center; [simpl; auto 20 | exact Hin]].
  unfold morphologyEx_OPEN.
  etransitivity; [|apply dilate_center; [simpl; auto | exact Hin]].
  apply erode_level; [lia|]. intros di dj Hk Hin'.
  change (in_image gray (i + di) (j + dj) = true) in Hin'.
  pose proof (Hcross di dj Hk Hin') as Hm'.
  assert (Hg : pix gray (i + di) (j + dj) = v) by (apply Hu; [exact Hin' | lia]).
  cbn [pix bitwise_or bitwise_and bitwise_and_masked threshold].
  rewrite Hm', Hg, Z.land_diag. simpl (255 =? 0).
  cbv iota. rewrite (dark_threshold_not_exceeded _ v Hne Hxs).
  destruct (Py.Qlt_bool _ _), (internal_feature _ _ _); vm_compute; discriminate.
Qed.

(** C1 fails on the code.  On the 5x5 image of uniform intensity 100 with
    the roof mask covering it, the detector marks all 25 pixels as
    obstacles. *)
Theorem detect_obstacles_marks_uniform_roof :
  countNonZero
    (_detect_obstacles cvtColor_BGR2GRAY internal_feature (Gray flat_roof) whole_mask)
  = 25.
Proof.
  unfold countNonZero.
  assert (Hs : shape (detect (Gray flat_roof) whole_mask) = (5, 5)).
  { unfold _detect_obstacles. destruct (_ =? _)%nat; reflexivity. }
  rewrite Hs.
  assert (Hall : Forall (fun c => pix (detect (Gray flat_roof) whole_mask) c.1 c.2 <> 0)
                   (cells {| r0 := 0; r1 := (5, 5).1; c0 := 0; c1 := (5, 5).2 |})).
  { apply Forall_forall. intros [i j] Hc. apply elem_of_cells in Hc. simpl in Hc.
    assert (255 <= pix (detect (Gray flat_roof) whole_mask) i j); [|cbn [fst snd]; lia].
    apply (uniform_roof_flagged (Gray flat_roof) whole_mask 100).
    - intros i' j' _ _. reflexivity.
    - apply in_image_spec. simpl. lia.
    - intros di dj _ _. reflexivity. }
  assert (Hfilter : forall (P : Z * Z -> Prop) `{!forall c, Decision (P c)} l,
            Forall P l -> filter P l = l).
  { intros P HP l HF. induction HF as [|c l Hc HF IH]; [reflexivity|].
    rewrite filter_cons_True by exact Hc. rewrite IH. reflexivity. }
  rewrite (Hfilter _ _ _ Hall). reflexivity.
Qed.

End ObstacleFacts.

(** ** Per-rooftop loops *)

Section PipelineFacts.
Import Pipeline.

Context {Image Analysis : Type}.

(** While no rooftop fails, the loop of [analyze_image] collects the
    analyses in order. *)
Lemma analyze_image_loop_ok
    (analyze_rooftop : Image -> Rooftop.t -> Py.result Analysis)
    (image : Image) (rooftops : list Rooftop.t) (results : list Analysis) :
  Forall2 (fun r a => analyze_rooftop image r = Py.Ok a) rooftops results ->
  forall analyses,
    analyze_image_loop analyze_rooftop image rooftops analyses
    = Py.Ok (analyses ++ results).
Proof.
  induction 1 as [|r a rooftops results Hr _ IH]; intros analyses; simpl.
  - rewrite app_nil_r. reflexivity.
  - rewrite Hr. simpl. rewrite IH, <- app_assoc. reflexivity.
Qed.

(** C3 fails on [analyze_image]: its loop has no handler, so the first
    rooftop whose analysis raises ends the loop with that exception; the
    analyses made so far are lost and the rooftops after it are never
    analysed. *)
Theorem analyze_image_loop_aborts_on_failure
    (analyze_rooftop : Image -> Rooftop.t -> Py.result Analysis)
    (image : Image) (before after : list Rooftop.t) (failing : Rooftop.t)
    (results analyses : list Analysis) (e : Py.exn) :
  Forall2 (fun r a => analyze_rooftop image r = Py.Ok a) before results ->
  analyze_rooftop image failing = Py.Raise e ->
  analyze_image_loop analyze_rooftop image (before ++ failing :: after) analyses
  = Py.Raise e.
Proof.
  intros Hbefore Hfail. revert analyses.
  induction Hbefore as [|r a before results Hr _ IH]; intros analyses; simpl.
  - rewrite Hfail. reflexivity.
  - rewrite Hr. simpl. apply IH.
Qed.

Section BatchFacts.

Context (analyze_roof_for_solar : Image -> Contour -> Py.result Analysis).
Context (annual_energy : Analysis -> Q).

Local Abbreviation entry := (@entry Analysis).
Local Abbreviation batch_loop := (batch_loop analyze_roof_for_solar).
Local Abbreviation sort_desc := (sort_desc annual_energy).
Local Abbreviation successes := (successes analyze_roof_for_solar).

Lemma batch_loop_successes (image : Image) (contours : list Contour) :
  forall i results,
    batch_loop image i contours results = results ++ successes image i contours.
Proof.
  induction contours as [|c rest IH]; intros i results; simpl.
  - rewrite app_nil_r. reflexivity.
  - destruct (analyze_roof_for_solar image c); rewrite IH; [|reflexivity].
    rewrite <- app_assoc. reflexivity.
Qed.

Lemma insert_desc_perm (e : entry) (sorted : list entry) :
  Permutation (insert_desc annual_energy e sorted) (e :: sorted).
Proof.
  induction sorted as [|e' rest IH]; simpl; [reflexivity|].
  destruct (Py.Qlt_bool _ _); [|reflexivity].
  rewrite IH. apply perm_swap.
Qed.

Lemma sort_desc_perm (results : list entry) : Permutation (sort_desc results) results.
Proof.
  induction results as [|e rest IH]; simpl; [reflexivity|].
  unfold Pipeline.sort_desc in *. simpl. rewrite insert_desc_perm, IH. reflexivity.
Qed.

(** [batch_analyze_buildings] does what C3 asks: a building whose analysis
    raises is left out, and every other building is in the result. *)
Lemma batch_analyze_buildings_skips_failures (image : Image) (contours : list Contour) :
  Permutation (batch_analyze_buildings analyze_roof_for_solar annual_energy image contours)
              (successes image 0 contours).
Proof.
  unfold batch_analyze_buildings. rewrite batch_loop_successes. apply sort_desc_perm.
Qed.

End BatchFacts.
End PipelineFacts.

Section ForEachFacts.
Import Np.

(** An invariant of the loop body is an invariant of the loop. *)
Lemma for_each_inv {S} (I : S -> heap -> Prop) (body : Z -> S -> M S) (xs : list Z) :
  (forall x s h s' h', In x xs -> I s h -> body x s h = (Py.Ok s', h') -> I s' h') ->
  forall s h s' h', I s h -> for_each xs body s h = (Py.Ok s', h') -> I s' h'.
Proof.
  induction xs as [|x xs IH]; intros Hb s h s' h' Hs Hrun; simpl in Hrun.
  - injection Hrun as <- <-. exact Hs.
  - rewrite run_bind in Hrun.
    destruct (body x s h) as [[s1|e] h1] eqn:E; [|discriminate].
    apply (IH (fun x' s0 h0 s0' h0' Hx => Hb x' s0 h0 s0' h0' (or_intror Hx)) s1 h1);
      [|exact Hrun].
    apply (Hb x s h s1 h1); [left; reflexivity | exact Hs | exact E].
Qed.

End ForEachFacts.

Section RangeFacts.

Lemma range_up_elements (n : nat) (start step x : Z) :
  In x (Py.range_up n start step) ->
  exists k, 0 <= k < Z.of_nat n /\ x = start + k * step.
Proof.
  revert start. induction n as [|n IH]; intros start; simpl; [intros []|].
  intros [<-|Hx].
  - exists 0. lia.
  - destruct (IH _ Hx) as (k & Hk & ->). exists (k + 1). lia.
Qed.

(** With a positive step, [range(0, stop, step)] stays in [[0, stop)]. *)
Lemma range_bounds (stop step : Z) (xs : list Z) (x : Z) :
  0 < step -> Py.range 0 stop step = Py.Ok xs -> In x xs -> 0 <= x < stop.
Proof.
  intros Hs. unfold Py.range. destruct (step =? 0); [discriminate|].
  intros [= <-] Hx. apply range_up_elements in Hx. destruct Hx as (k & Hk & ->).
  unfold Py.range_len in Hk. destruct (Z.ltb_spec 0 step) as [_|]; [|lia].
  destruct (Z.ltb_spec 0 stop) as [Hpos|]; [|simpl in Hk; lia].
  rewrite Z2Nat.id in Hk
    by (pose proof (Z.div_pos (stop - 0 - 1) step); lia).
  split; [nia|].
  assert (k <= (stop - 0 - 1) / step) by lia.
  pose proof (Z.mul_div_le (stop - 0 - 1) step Hs). nia.
Qed.

(** [range(0, stop, step)] is empty when [stop] is not positive. *)
Lemma range_empty (stop step : Z) :
  0 < step -> stop <= 0 -> Py.range 0 stop step = Py.Ok [].
Proof.
  intros Hs Hstop. unfold Py.range, Py.range_len.
  destruct (Z.eqb_spec step 0); [lia|].
  destruct (Z.ltb_spec 0 step); [|lia].
  destruct (Z.ltb_spec 0 stop); [lia|]. reflexivity.
Qed.

End RangeFacts.

Section PlacementScan.
Import Np Placement.

Context (radians cos sin : Q -> Q).
Context (pointPolygonTest : Contour -> Q * Q -> bool -> Q).
Variable self : SolarPanelOptimizer.

Local Abbreviation geometry := (_create_panel_geometry radians cos sin self).
Local Abbreviation place_at := (place_at radians cos sin pointPolygonTest self).
Local Abbreviation pass := (_place_panels_with_orientation radians cos sin pointPolygonTest self).
Local Abbreviation optimized := (_place_panels_optimized radians cos sin pointPolygonTest self).

(** The two nested loops keep what each visit of a grid position keeps. *)
Lemma scan_inv (I : list Panel.t * Z -> heap -> Prop) (available : loc)
    (panel_w panel_h : Z) (roof_angle : Q) (roof_contour : Contour)
    (stop_x step_x : Z) (ys : list Z) :
  (forall xs x y st h st' h',
     Py.range 0 stop_x step_x = Py.Ok xs -> In x xs -> In y ys -> I st h ->
     place_at available panel_w panel_h roof_angle roof_contour y x st h = (Py.Ok st', h') ->
     I st' h') ->
  forall st h st' h', I st h ->
    for_each ys
      (fun y st =>
         xs ← lift (Py.range 0 stop_x step_x);
         for_each xs (place_at available panel_w panel_h roof_angle roof_contour y) st)
      st h = (Py.Ok st', h') ->
    I st' h'.
Proof.
  intros Hvisit. apply for_each_inv. intros y st h st' h' Hy Hst.
  rewrite run_bind, run_lift.
  destruct (Py.range 0 stop_x step_x) as [xs|e] eqn:Hxs; [|discriminate].
  apply for_each_inv; [|exact Hst].
  intros x s g s' g' Hx Hs Hrun. apply (Hvisit xs x y s g s' g' eq_refl); assumption.
Qed.

(** What a pass that returns has done: it copied the mask to a fresh
    location and scanned the grid from the state [([], 1)]. *)
Lemma pass_inv (usable_mask : loc) (panel_w panel_h : Z) (roof_angle : Q)
    (roof_contour : Contour) (h h' : heap) (panels : list Panel.t) :
  pass usable_mask panel_w panel_h roof_angle roof_contour h = (Py.Ok panels, h') ->
  let um := default (zeros (0, 0)) (h !! usable_mask) in
  exists sp ys st,
    Py.truediv (Config.get (config self) "panel_spacing_m")
               (Config.get (config self) "pixel_to_meter") = Py.Ok sp /\
    Py.range 0 ((shape um).1 - panel_h) (panel_h + Z.max 1 (Py.int sp)) = Py.Ok ys /\
    for_each ys
      (fun y st =>
         xs ← lift (Py.range 0 ((shape um).2 - panel_w) (panel_w + Z.max 1 (Py.int sp)));
         for_each xs (place_at (fresh (dom h)) panel_w panel_h roof_angle roof_contour y) st)
      ([], 1) (<[fresh (dom h) := um]> h) = (Py.Ok st, h') /\
    panels = st.1.
Proof.
  unfold _place_panels_with_orientation.
  rewrite run_bind, run_load.
  destruct (shape _) as [rows cols] eqn:Hshape.
  rewrite run_bind, run_lift.
  destruct (Py.truediv _ _) as [sp|e] eqn:Hsp; [|discriminate].
  rewrite run_bind, run_copy.
  rewrite run_bind, run_lift.
  destruct (Py.range 0 (rows - panel_h) _) as [ys|e] eqn:Hys; [|discriminate].
  rewrite run_bind.
  destruct (for_each ys _ _ _) as [[st|e] h1] eqn:Hscan; [|discriminate].
  intros [= <- <-]. simpl. exists sp, ys, st.
  repeat split; assumption.
Qed.

End PlacementScan.

Section PlacementVisits.
Import Np Placement.

Context (radians cos sin : Q -> Q).
Context (pointPolygonTest : Contour -> Q * Q -> bool -> Q).
Variable self : SolarPanelOptimizer.

Local Abbreviation geometry := (_create_panel_geometry radians cos sin self).
Local Abbreviation place_at := (place_at radians cos sin pointPolygonTest self).
Local Abbreviation pass := (_place_panels_with_orientation radians cos sin pointPolygonTest self).
Local Abbreviation optimized := (_place_panels_optimized radians cos sin pointPolygonTest self).

Lemma filter_length_mono {A} (P R : A -> Prop)
    `{!forall a, Decision (P a)} `{!forall a, Decision (R a)} (l : list A) :
  (forall a, P a -> R a) -> (length (filter P l) <= length (filter R l))%nat.
Proof.
  intros HPR. induction l as [|a l IH]; [reflexivity|].
  rewrite !filter_cons.
  destruct (decide (P a)) as [Hp|Hp], (decide (R a)) as [Hr|Hr]; simpl; try lia.
  exfalso. apply Hr, HPR, Hp.
Qed.

Lemma count_positive_below (a um : ndarray) (v : view) :
  below a um -> count_positive a v <= count_positive um v.
Proof.
  intros [_ Hpix]. unfold count_positive. apply inj_le.
  apply filter_length_mono. intros c. apply Hpix.
Qed.

Lemma below_refl (a : ndarray) : below a a.
Proof. split; auto. Qed.

Lemma below_fill (a um : ndarray) (v : view) : below a um -> below (fill a v 0) um.
Proof.
  intros [Hshape Hpix]. split; [exact Hshape|].
  intros i j. simpl. destruct (in_view v i j); [lia | apply Hpix].
Qed.

Lemma slice_below (a um : ndarray) (y0 y1 x0 x1 : Z) :
  below a um -> slice a y0 y1 x0 x1 = slice um y0 y1 x0 x1.
Proof. intros [Hshape _]. unfold slice. rewrite Hshape. reflexivity. Qed.

Lemma size_nonneg (v : view) : 0 <= size v.
Proof. unfold size. nia. Qed.

(** One visit of a grid position: the state is left as it is, or a panel
    with the next id is appended for a region of the input mask that is
    covered; the working array stays below the input mask. *)
Lemma place_at_visit (available : loc) (panel_w panel_h : Z) (roof_angle : Q)
    (roof_contour : Contour) (um a : ndarray) (y x : Z)
    (st st' : list Panel.t * Z) (h h' : heap) :
  h !! available = Some a -> below a um ->
  place_at available panel_w panel_h roof_angle roof_contour y x st h = (Py.Ok st', h') ->
  (exists a', h' !! available = Some a' /\ below a' um) /\
  (st' = st \/
   (st' = (st.1 ++ [geometry st.2 x y panel_w panel_h roof_angle], st.2 + 1) /\
    covered um panel_w panel_h x y)).
Proof.
  intros Ha Hbelow. unfold Placement.place_at. destruct st as [panels panel_id].
  rewrite run_bind, run_load, Ha.
  change (default (zeros (0, 0)) (Some a)) with a.
  rewrite (slice_below a um _ _ _ _ Hbelow).
  set (region := slice um y (y + panel_h) x (x + panel_w)).
  destruct (Z.eqb_spec (size region) 0) as [Hz|Hnz].
  { intros [= <- <-]. split; [eauto | left; reflexivity]. }
  rewrite run_bind, run_lift, truediv_ok
    by (intros E; apply Hnz; unfold Qeq in E; simpl in E; lia).
  destruct (Py.Qlt_bool _ _ && _) eqn:Htest.
  - rewrite run_bind. unfold setitem. rewrite run_bind, run_load, Ha. simpl.
    intros [= <- <-]. split.
    + exists (fill a region 0). split; [apply lookup_insert_eq | apply below_fill, Hbelow].
    + right. split; [reflexivity|].
      apply andb_true_iff in Htest. destruct Htest as [Hcov _].
      apply Qlt_bool_iff in Hcov.
      pose proof (count_positive_below a um region Hbelow) as Hle.
      pose proof (size_nonneg region) as Hsz.
      unfold covered. fold region.
      assert (Hq : (inject_Z 9 * inject_Z (size region)
                    < inject_Z 10 * inject_Z (count_positive a region))%Q).
      { assert (Hpos : (inject_Z 0 < inject_Z (size region))%Q) by (rewrite <- Zlt_Qlt; lia).
        change (inject_Z 0) with 0%Q in Hpos.
        apply (Qmult_lt_compat_r _ _ _ Hpos) in Hcov.
        assert (E : (inject_Z (count_positive a region) / inject_Z (size region)
                     * inject_Z (size region) == inject_Z (count_positive a region))%Q).
        { field. intros E0. rewrite E0 in Hpos. exact (Qlt_irrefl _ Hpos). }
        rewrite E in Hcov.
        change (inject_Z 9) with (9%Q). change (inject_Z 10) with (10%Q).
        lra. }
      rewrite <- !inject_Z_mult, <- Zlt_Qlt in Hq. lia.
  - intros [= <- <-]. split; [eauto | left; reflexivity].
Qed.

(** The panels of a pass: each was built for a position of the scanning
    grid whose region in the input mask is covered. *)
Lemma pass_panels_on_grid (usable_mask : loc) (panel_w panel_h : Z) (roof_angle : Q)
    (roof_contour : Contour) (h h' : heap) (panels : list Panel.t) :
  pass usable_mask panel_w panel_h roof_angle roof_contour h = (Py.Ok panels, h') ->
  let um := default (zeros (0, 0)) (h !! usable_mask) in
  exists sp ys,
    Py.truediv (Config.get (config self) "panel_spacing_m")
               (Config.get (config self) "pixel_to_meter") = Py.Ok sp /\
    Py.range 0 ((shape um).1 - panel_h) (panel_h + Z.max 1 (Py.int sp)) = Py.Ok ys /\
    Forall (fun p => exists panel_id x y xs,
              Py.range 0 ((shape um).2 - panel_w) (panel_w + Z.max 1 (Py.int sp)) = Py.Ok xs /\
              In x xs /\ In y ys /\
              p = geometry panel_id x y panel_w panel_h roof_angle /\
              covered um panel_w panel_h x y)
           panels.
Proof.
  intros Hrun um. destruct (pass_inv _ _ _ _ _ _ _ _ _ _ _ _ _ Hrun)
    as (sp & ys & st & Hsp & Hys & Hscan & ->).
  fold um in Hys, Hscan. exists sp, ys. split; [exact Hsp|]. split; [exact Hys|].
  set (available := fresh (dom h)) in *.
  set (P := fun p : Panel.t => exists panel_id x y xs,
              Py.range 0 ((shape um).2 - panel_w) (panel_w + Z.max 1 (Py.int sp)) = Py.Ok xs /\
              In x xs /\ In y ys /\
              p = geometry panel_id x y panel_w panel_h roof_angle /\
              covered um panel_w panel_h x y).
  pose (I := fun (s : list Panel.t * Z) (g : heap) =>
               (exists a, g !! available = Some a /\ below a um) /\ Forall P s.1).
  assert (HI : I st h').
  { refine (scan_inv radians cos sin pointPolygonTest self I available panel_w panel_h
              roof_angle roof_contour _ _ ys _ _ _ _ _ _ Hscan).
    - intros xs x y s g s' g' Hxs Hx Hy [(a & Ha & Hbelow) HP] Hvisit.
      destruct (place_at_visit _ _ _ _ _ um a _ _ _ _ _ _ Ha Hbelow Hvisit)
        as [Hheap [->|[-> Hcov]]].
      + split; assumption.
      + split; [exact Hheap|]. simpl. apply Forall_app. split; [exact HP|].
        constructor; [|constructor].
        exists s.2, x, y, xs. repeat split; assumption.
    - split; [|constructor].
      exists um. split; [apply lookup_insert_eq | apply below_refl]. }
  exact (proj2 HI).
Qed.

Lemma place_at_numbered (available : loc) (panel_w panel_h : Z) (roof_angle : Q)
    (roof_contour : Contour) (y x : Z) (st st' : list Panel.t * Z) (h h' : heap) :
  numbered st ->
  place_at available panel_w panel_h roof_angle roof_contour y x st h = (Py.Ok st', h') ->
  numbered st'.
Proof.
  intros Hn Hrun.
  revert Hrun. unfold Placement.place_at. destruct st as [panels panel_id].
  rewrite run_bind, run_load.
  destruct (size _ =? 0); [intros [= <- _]; exact Hn|].
  rewrite run_bind, run_lift.
  destruct (Py.truediv _ _) as [coverage|e]; [|discriminate].
  destruct (_ && _); [|intros [= <- _]; exact Hn].
  rewrite run_bind. unfold setitem. rewrite run_bind, run_load. simpl.
  intros [= <- _]. destruct Hn as [Hids Hnext]. simpl in *.
  unfold numbered. simpl. rewrite length_app, map_app, Hids. simpl.
  rewrite Nat2Z.inj_add. simpl (Z.of_nat 1).
  rewrite seqZ_app by lia. split; [|lia].
  f_equal. rewrite Hnext. reflexivity.
Qed.

Lemma pass_numbered (usable_mask : loc) (panel_w panel_h : Z) (roof_angle : Q)
    (roof_contour : Contour) (h h' : heap) (panels : list Panel.t) :
  pass usable_mask panel_w panel_h roof_angle roof_contour h = (Py.Ok panels, h') ->
  map Panel.panel_id panels = seqZ 1 (Z.of_nat (length panels)).
Proof.
  intros Hrun. destruct (pass_inv _ _ _ _ _ _ _ _ _ _ _ _ _ Hrun)
    as (sp & ys & st & Hsp & Hys & Hscan & ->).
  refine (proj1 (scan_inv radians cos sin pointPolygonTest self (fun s _ => numbered s)
              _ panel_w panel_h roof_angle roof_contour _ _ ys _ _ _ _ _ _ Hscan)).
  - intros xs x y s g s' g' _ _ _ Hn Hvisit.
    exact (place_at_numbered _ _ _ _ _ _ _ _ _ _ _ Hn Hvisit).
  - split; reflexivity.
Qed.

End PlacementVisits.

Section PlacementResults.
Import Np Placement.

Context (radians cos sin : Q -> Q).
Context (pointPolygonTest : Contour -> Q * Q -> bool -> Q).
Variable self : SolarPanelOptimizer.

Local Abbreviation geometry := (_create_panel_geometry radians cos sin self).
Local Abbreviation pass := (_place_panels_with_orientation radians cos sin pointPolygonTest self).
Local Abbreviation optimized := (_place_panels_optimized radians cos sin pointPolygonTest self).

Lemma optimized_inv (usable_mask : loc) (roof_angle : Q) (roof_contour : Contour)
    (h h' : heap) (panels : list Panel.t) :
  optimized usable_mask roof_angle roof_contour h = (Py.Ok panels, h') ->
  exists panel_w panel_h g g',
    pass usable_mask panel_w panel_h roof_angle roof_contour g = (Py.Ok panels, g') /\
    ((panel_w = panel_width_px self /\ panel_h = panel_height_px self /\ g = h) \/
     (panel_w = panel_height_px self /\ panel_h = panel_width_px self /\
      exists pl, pass usable_mask (panel_width_px self) (panel_height_px self)
                   roof_angle roof_contour h = (Py.Ok pl, g))).
Proof.
  unfold _place_panels_optimized. rewrite run_bind.
  destruct (pass usable_mask (panel_width_px self) _ _ _ h) as [[pl|e] h1] eqn:E1;
    [|discriminate].
  rewrite run_bind.
  destruct (pass usable_mask (panel_height_px self) _ _ _ h1) as [[pp|e] h2] eqn:E2;
    [|discriminate].
  destruct (_ <=? _)%nat; intros [= <- _].
  - exists (panel_width_px self), (panel_height_px self), h, h1.
    split; [exact E1 | left; repeat split].
  - exists (panel_height_px self), (panel_width_px self), h1, h2.
    split; [exact E2 | right; repeat split]. exists pl. reflexivity.
Qed.

Lemma optimized_numbered (usable_mask : loc) (roof_angle : Q) (roof_contour : Contour)
    (h h' : heap) (panels : list Panel.t) :
  optimized usable_mask roof_angle roof_contour h = (Py.Ok panels, h') ->
  map Panel.panel_id panels = seqZ 1 (Z.of_nat (length panels)).
Proof.
  intros Hopt. destruct (optimized_inv _ _ _ _ _ _ Hopt) as (pw & ph & g & g' & Hpass & _).
  exact (pass_numbered radians cos sin pointPolygonTest self _ _ _ _ _ _ _ _ Hpass).
Qed.

(** X1. The panels a placement returns are numbered 1, 2, 3, ... in the
    order of the list, for one pass and for [_place_panels_optimized]. *)
Theorem placement_ids_consecutive
    (usable_mask : loc) (panel_w panel_h : Z) (roof_angle : Q)
    (roof_contour : Contour) (h h' : heap) (panels : list Panel.t) :
  _place_panels_with_orientation radians cos sin pointPolygonTest self
    usable_mask panel_w panel_h roof_angle roof_contour h = (Py.Ok panels, h')
  \/ _place_panels_optimized radians cos sin pointPolygonTest self
       usable_mask roof_angle roof_contour h = (Py.Ok panels, h') ->
  map Panel.panel_id panels = seqZ 1 (Z.of_nat (length panels)).
Proof.
  intros [Hpass|Hopt].
  - exact (pass_numbered radians cos sin pointPolygonTest self _ _ _ _ _ _ _ _ Hpass).
  - exact (optimized_numbered _ _ _ _ _ _ Hopt).
Qed.

(** The centre recorded for a panel is the centre of its grid cell:
    rounding to two decimals is exact on half-integers. *)
Lemma geometry_centre (panel_id x y panel_w panel_h : Z) (roof_angle : Q) :
  let p := geometry panel_id x y panel_w panel_h roof_angle in
  (Panel.x (Panel.center p) == inject_Z x + inject_Z panel_w / 2 /\
   Panel.y (Panel.center p) == inject_Z y + inject_Z panel_h / 2)%Q.
Proof.
  simpl. split.
  - apply (round_exact _ 2 (100 * x + 50 * panel_w)).
    rewrite inject_Z_plus, !inject_Z_mult. change (inject_Z (10 ^ Z.of_nat 2)) with (100%Q).
    change (inject_Z 100) with (100%Q). change (inject_Z 50) with (50%Q). field.
  - apply (round_exact _ 2 (100 * y + 50 * panel_h)).
    rewrite inject_Z_plus, !inject_Z_mult. change (inject_Z (10 ^ Z.of_nat 2)) with (100%Q).
    change (inject_Z 100) with (100%Q). change (inject_Z 50) with (50%Q). field.
Qed.

(** X2. With panel dimensions that are not negative, every panel of a pass
    has the dimensions of the pass and lies inside the mask, clear of its
    last row and column: the rectangle of its dimensions around its centre
    starts at or after 0 and ends at or before [cols - 1] and [rows - 1]. *)
Theorem placement_pass_within_mask
    (usable_mask : loc) (panel_w panel_h : Z) (roof_angle : Q)
    (roof_contour : Contour) (h h' : heap) (panels : list Panel.t) :
  0 <= panel_w -> 0 <= panel_h ->
  _place_panels_with_orientation radians cos sin pointPolygonTest self
    usable_mask panel_w panel_h roof_angle roof_contour h = (Py.Ok panels, h') ->
  let um := default (zeros (0, 0)) (h !! usable_mask) in
  Forall (fun p =>
            Panel.dimensions_pixels p
            = {| Panel.width_px := panel_w; Panel.height_px := panel_h |} /\
            (0 <= Panel.x (Panel.center p) - inject_Z panel_w / 2 /\
             Panel.x (Panel.center p) + inject_Z panel_w / 2 <= inject_Z ((shape um).2 - 1) /\
             0 <= Panel.y (Panel.center p) - inject_Z panel_h / 2 /\
             Panel.y (Panel.center p) + inject_Z panel_h / 2 <= inject_Z ((shape um).1 - 1))%Q)
         panels.
Proof.
  intros Hw Hh Hrun um.
  destruct (pass_panels_on_grid radians cos sin pointPolygonTest self _ _ _ _ _ _ _ _ Hrun)
    as (sp & ys & Hsp & Hys & Hall).
  fold um in Hys, Hall.
  eapply List.Forall_impl; [|exact Hall]. clear Hall.
  intros p (panel_id & x & y & xs & Hxs & Hx & Hy & -> & _).
  pose proof (fun Hs => range_bounds _ _ _ x Hs Hxs Hx) as Hxb.
  pose proof (fun Hs => range_bounds _ _ _ y Hs Hys Hy) as Hyb.
  specialize (Hxb ltac:(lia)). specialize (Hyb ltac:(lia)).
  split; [reflexivity|].
  destruct (geometry_centre panel_id x y panel_w panel_h roof_angle) as [Ex Ey].
  rewrite Ex, Ey.
  assert (Hx0 : (inject_Z 0 <= inject_Z x)%Q) by (rewrite <- Zle_Qle; lia).
  assert (Hy0 : (inject_Z 0 <= inject_Z y)%Q) by (rewrite <- Zle_Qle; lia).
  assert (Hx1 : (inject_Z (x + panel_w) <= inject_Z ((shape um).2 - 1))%Q)
    by (rewrite <- Zle_Qle; lia).
  assert (Hy1 : (inject_Z (y + panel_h) <= inject_Z ((shape um).1 - 1))%Q)
    by (rewrite <- Zle_Qle; lia).
  rewrite (inject_Z_plus x panel_w) in Hx1. rewrite (inject_Z_plus y panel_h) in Hy1.
  change (inject_Z 0) with 0%Q in *.
  assert (Hhalf : forall a b : Q, (a + b / 2 - b / 2 == a /\ a + b / 2 + b / 2 == a + b)%Q)
    by (intros a b; split; field).
  destruct (Hhalf (inject_Z x) (inject_Z panel_w)) as [-> ->].
  destruct (Hhalf (inject_Z y) (inject_Z panel_h)) as [-> ->].
  repeat split; assumption.
Qed.

(** X3. Every panel of a pass was built for a grid position whose cell,
    read in the input mask, is usable on more than nine tenths of its
    pixels. *)
Theorem placement_pass_covered
    (usable_mask : loc) (panel_w panel_h : Z) (roof_angle : Q)
    (roof_contour : Contour) (h h' : heap) (panels : list Panel.t) :
  _place_panels_with_orientation radians cos sin pointPolygonTest self
    usable_mask panel_w panel_h roof_angle roof_contour h = (Py.Ok panels, h') ->
  let um := default (zeros (0, 0)) (h !! usable_mask) in
  Forall (fun p => exists panel_id x y,
            p = _create_panel_geometry radians cos sin self
                  panel_id x y panel_w panel_h roof_angle /\
            let region := slice um y (y + panel_h) x (x + panel_w) in
            size region <> 0 /\
            9 * size region < 10 * count_positive um region)
         panels.
Proof.
  intros Hrun um.
  destruct (pass_panels_on_grid radians cos sin pointPolygonTest self _ _ _ _ _ _ _ _ Hrun)
    as (sp & ys & Hsp & Hys & Hall).
  fold um in Hall. eapply List.Forall_impl; [|exact Hall]. clear Hall.
  intros p (panel_id & x & y & xs & _ & _ & _ & -> & Hcov).
  exists panel_id, x, y. split; [reflexivity|]. unfold covered in Hcov. simpl.
  split; [|exact Hcov].
  intros Hz. rewrite Hz in Hcov.
  unfold count_positive in Hcov.
  pose proof (length_filter (fun c : Z * Z => 0 < pix um c.1 c.2)
                (cells (slice um y (y + panel_h) x (x + panel_w)))) as Hle.
  assert (Hcells : length (cells (slice um y (y + panel_h) x (x + panel_w))) = 0%nat).
  { unfold size in Hz. unfold cells.
    set (v := slice um y (y + panel_h) x (x + panel_w)) in *.
    destruct (Z_le_gt_dec (r1 v - r0 v) 0) as [Hr|Hr].
    - rewrite (seqZ_nil (r0 v)) by lia. reflexivity.
    - assert (Hc : c1 v - c0 v <= 0) by nia.
      rewrite (seqZ_nil (c0 v)) by lia.
      induction (seqZ (r0 v) (r1 v - r0 v)) as [|i l IH]; [reflexivity|exact IH]. }
  rewrite Hcells in Hle. lia.
Qed.

End PlacementResults.

Section PlacementEdges.
Import Np Placement.

Context (radians cos sin : Q -> Q).
Context (pointPolygonTest : Contour -> Q * Q -> bool -> Q).
Variable self : SolarPanelOptimizer.

Local Abbreviation pass := (_place_panels_with_orientation radians cos sin pointPolygonTest self).
Local Abbreviation optimized := (_place_panels_optimized radians cos sin pointPolygonTest self).

Lemma Forall_absurd {A} (P : A -> Prop) (l : list A) :
  (forall a, ~ P a) -> Forall P l -> l = [].
Proof.
  intros HP Hl. destruct Hl as [|a l Ha _]; [reflexivity|]. destruct (HP a Ha).
Qed.

Lemma count_positive_blank (um : ndarray) (v : view) :
  (forall i j, (i, j) ∈ cells v -> pix um i j <= 0) -> count_positive um v = 0.
Proof.
  intros Hblank. unfold count_positive.
  induction (cells v) as [|c l IH]; [reflexivity|].
  rewrite filter_cons_False.
  - apply IH. intros i j Hc. apply Hblank. right. exact Hc.
  - specialize (Hblank c.1 c.2). rewrite <- surjective_pairing in Hblank.
    specialize (Hblank ltac:(left)). lia.
Qed.

(** A slice that starts and ends inside the array has its pixels there. *)
Lemma slice_inside (a : ndarray) (y0 y1 x0 x1 i j : Z) :
  0 <= y0 <= y1 -> y1 <= (shape a).1 -> 0 <= x0 <= x1 -> x1 <= (shape a).2 ->
  (i, j) ∈ cells (slice a y0 y1 x0 x1) -> Cv.in_image a i j = true.
Proof.
  intros Hy0 Hy1 Hx0 Hx1 Hc. apply elem_of_cells in Hc. apply in_image_spec.
  revert Hc. unfold slice, Py.slice_bounds, Py.slice_index.
  destruct (shape a) as [rows cols]. simpl in *.
  destruct (Z.ltb_spec y0 0), (Z.ltb_spec y1 0), (Z.ltb_spec x0 0), (Z.ltb_spec x1 0);
    simpl; lia.
Qed.

Lemma count_all_positive_blank (um : ndarray) :
  no_usable_pixel um ->
  count_positive um {| r0 := 0; r1 := (shape um).1; c0 := 0; c1 := (shape um).2 |} = 0.
Proof.
  intros Hblank. apply count_positive_blank. intros i j Hc.
  apply elem_of_cells in Hc. simpl in Hc. apply Hblank, in_image_spec. exact Hc.
Qed.

(** A pass that returns on a mask without usable pixels returns no panel. *)
Lemma pass_blank (usable_mask : loc) (panel_w panel_h : Z) (roof_angle : Q)
    (roof_contour : Contour) (h h' : heap) (panels : list Panel.t) :
  no_usable_pixel (default (zeros (0, 0)) (h !! usable_mask)) ->
  0 <= panel_w -> 0 <= panel_h ->
  pass usable_mask panel_w panel_h roof_angle roof_contour h = (Py.Ok panels, h') ->
  panels = [].
Proof.
  intros Hblank Hw Hh Hrun.
  destruct (pass_panels_on_grid radians cos sin pointPolygonTest self _ _ _ _ _ _ _ _ Hrun)
    as (sp & ys & _ & Hys & Hall).
  eapply Forall_absurd; [|exact Hall]. simpl.
  intros p (panel_id & x & y & xs & Hxs & Hx & Hy & _ & Hcov).
  pose proof (fun Hs => range_bounds _ _ _ x Hs Hxs Hx) as Hxb.
  pose proof (fun Hs => range_bounds _ _ _ y Hs Hys Hy) as Hyb.
  specialize (Hxb ltac:(lia)). specialize (Hyb ltac:(lia)).
  unfold covered in Hcov. rewrite count_positive_blank in Hcov.
  - pose proof (size_nonneg
      (slice (default (zeros (0, 0)) (h !! usable_mask)) y (y + panel_h) x (x + panel_w))).
    lia.
  - intros i j Hc. apply Hblank.
    apply (slice_inside _ y (y + panel_h) x (x + panel_w)); [lia..|exact Hc].
Qed.

Lemma pass_blank_returns (usable_mask : loc) (panel_w panel_h : Z) (roof_angle : Q)
    (roof_contour : Contour) (g : heap) :
  ~ Config.get (config self) "pixel_to_meter" == 0 ->
  no_usable_pixel (default (zeros (0, 0)) (g !! usable_mask)) ->
  0 <= panel_w -> 0 <= panel_h ->
  (pass usable_mask panel_w panel_h roof_angle roof_contour g).1 = Py.Ok [].
Proof.
  intros Hscale Hblank Hw Hh.
  destruct (pass_returns radians cos sin pointPolygonTest self usable_mask
              panel_w panel_h roof_angle roof_contour g Hscale Hw Hh) as [panels Hp].
  destruct (pass usable_mask panel_w panel_h roof_angle roof_contour g)
    as [r g'] eqn:Hrun.
  simpl in Hp. subst r. simpl. f_equal.
  exact (pass_blank usable_mask panel_w panel_h roof_angle roof_contour g g' _
           Hblank Hw Hh Hrun).
Qed.

Lemma optimized_blank (usable_mask : loc) (roof_angle : Q) (roof_contour : Contour)
    (h : heap) :
  ~ Config.get (config self) "pixel_to_meter" == 0 ->
  is_Some (h !! usable_mask) ->
  no_usable_pixel (default (zeros (0, 0)) (h !! usable_mask)) ->
  0 <= panel_width_px self -> 0 <= panel_height_px self ->
  (optimized usable_mask roof_angle roof_contour h).1 = Py.Ok [].
Proof.
  intros Hscale Hum Hblank Hw Hh. unfold _place_panels_optimized. rewrite run_bind.
  pose proof (pass_blank_returns usable_mask _ _ roof_angle roof_contour h
                Hscale Hblank Hw Hh) as H1.
  pose proof (pass_frame radians cos sin pointPolygonTest self usable_mask
                (panel_width_px self) (panel_height_px self) roof_angle roof_contour
                h usable_mask Hum) as Hframe.
  destruct (pass usable_mask (panel_width_px self) _ _ _ h) as [[pl|e] h1];
    simpl in H1, Hframe; [|discriminate].
  injection H1 as ->. rewrite run_bind.
  assert (Hblank1 : no_usable_pixel (default (zeros (0, 0)) (h1 !! usable_mask)))
    by (rewrite Hframe; exact Hblank).
  pose proof (pass_blank_returns usable_mask _ _ roof_angle roof_contour h1
                Hscale Hblank1 Hh Hw) as H2.
  destruct (pass usable_mask (panel_height_px self) _ _ _ h1) as [[pp|e] h2];
    simpl in H2; [|discriminate].
  injection H2 as ->. reflexivity.
Qed.

(** X4. On a usable mask without a usable pixel a pass places no panel,
    and neither does [_place_panels_optimized]. *)
Theorem placement_blank_mask_places_nothing
    (usable_mask : loc) (roof_angle : Q) (roof_contour : Contour) (h : heap) :
  ~ Config.get (config self) "pixel_to_meter" == 0 ->
  is_Some (h !! usable_mask) ->
  no_usable_pixel (default (zeros (0, 0)) (h !! usable_mask)) ->
  (forall panel_w panel_h, 0 <= panel_w -> 0 <= panel_h ->
     (_place_panels_with_orientation radians cos sin pointPolygonTest self
        usable_mask panel_w panel_h roof_angle roof_contour h).1 = Py.Ok [])
  /\ (0 <= panel_width_px self -> 0 <= panel_height_px self ->
      (_place_panels_optimized radians cos sin pointPolygonTest self
         usable_mask roof_angle roof_contour h).1 = Py.Ok []).
Proof.
  intros Hscale Hum Hblank. split.
  - intros panel_w panel_h. apply pass_blank_returns; assumption.
  - apply optimized_blank; assumption.
Qed.

(** X5. A mask that is not larger than the panel in one direction takes no
    panel, even when the panel would fit exactly: the scan stops short of
    the position that touches the far edge. *)
Theorem placement_small_mask_places_nothing
    (usable_mask : loc) (panel_w panel_h : Z) (roof_angle : Q)
    (roof_contour : Contour) (h : heap) :
  ~ Config.get (config self) "pixel_to_meter" == 0 ->
  0 <= panel_w -> 0 <= panel_h ->
  (let um := default (zeros (0, 0)) (h !! usable_mask) in
   (shape um).1 <= panel_h \/ (shape um).2 <= panel_w) ->
  (_place_panels_with_orientation radians cos sin pointPolygonTest self
     usable_mask panel_w panel_h roof_angle roof_contour h).1 = Py.Ok [].
Proof.
  intros Hscale Hw Hh Hsmall.
  destruct (pass_returns radians cos sin pointPolygonTest self usable_mask
              panel_w panel_h roof_angle roof_contour h Hscale Hw Hh) as [panels Hp].
  destruct (pass usable_mask panel_w panel_h roof_angle roof_contour h)
    as [r h'] eqn:Hrun.
  simpl in Hp. subst r. simpl. f_equal.
  destruct (pass_panels_on_grid radians cos sin pointPolygonTest self _ _ _ _ _ _ _ _ Hrun)
    as (sp & ys & _ & Hys & Hall).
  eapply Forall_absurd; [|exact Hall]. simpl.
  intros p (panel_id & x & y & xs & Hxs & Hx & Hy & _ & _).
  pose proof (fun Hs => range_bounds _ _ _ x Hs Hxs Hx) as Hxb.
  pose proof (fun Hs => range_bounds _ _ _ y Hs Hys Hy) as Hyb.
  specialize (Hxb ltac:(lia)). specialize (Hyb ltac:(lia)).
  simpl in Hsmall. lia.
Qed.

End PlacementEdges.

Section PlacementBuilt.
Import Np Placement.

Context (radians cos sin : Q -> Q).
Context (pointPolygonTest : Contour -> Q * Q -> bool -> Q).

(** The constructor fails exactly when the merged [pixel_to_meter] is 0, and
    then with [ZeroDivisionError]. *)
Lemma init_inv (cfg : option Config.t) (self : SolarPanelOptimizer) :
  SolarPanelOptimizer_init cfg = Py.Ok self ->
  ~ Config.get (Config.merge cfg) "pixel_to_meter" == 0 /\
  config self = Config.merge cfg /\
  panel_width_px self
  = Py.int (Config.get (Config.merge cfg) "panel_width_m"
            / Config.get (Config.merge cfg) "pixel_to_meter") /\
  panel_height_px self
  = Py.int (Config.get (Config.merge cfg) "panel_height_m"
            / Config.get (Config.merge cfg) "pixel_to_meter").
Proof.
  unfold SolarPanelOptimizer_init, Py.truediv.
  destruct (Qeq_bool (Config.get (Config.merge cfg) "pixel_to_meter") 0) eqn:E;
    simpl; [discriminate|].
  intros [= <-]. split; [|repeat split].
  intros E0. apply Qeq_bool_iff in E0. congruence.
Qed.

(** With a non-zero scale and pixel dimensions that are not negative the
    placement returns. *)
Lemma optimized_returns (self : SolarPanelOptimizer)
    (usable_mask : loc) (roof_angle : Q) (roof_contour : Contour) (h : heap) :
  ~ Config.get (config self) "pixel_to_meter" == 0 ->
  0 <= panel_width_px self -> 0 <= panel_height_px self ->
  exists panels,
    (_place_panels_optimized radians cos sin pointPolygonTest self
       usable_mask roof_angle roof_contour h).1 = Py.Ok panels.
Proof.
  intros Hscale Hw Hh.
  unfold _place_panels_optimized. rewrite run_bind.
  destruct (pass_returns radians cos sin pointPolygonTest self usable_mask
              (panel_width_px self) (panel_height_px self) roof_angle roof_contour
              h Hscale Hw Hh) as [pl Hpl].
  destruct (_place_panels_with_orientation _ _ _ _ self usable_mask (panel_width_px self) _ _ _ h)
    as [[pl'|e] h1]; simpl in Hpl; [|discriminate].
  rewrite run_bind.
  destruct (pass_returns radians cos sin pointPolygonTest self usable_mask
              (panel_height_px self) (panel_width_px self) roof_angle roof_contour
              h1 Hscale Hh Hw) as [pp Hpp].
  destruct (_place_panels_with_orientation _ _ _ _ self usable_mask (panel_height_px self) _ _ _ h1)
    as [[pp'|e] h2]; simpl in Hpp; [|discriminate].
  destruct (_ <=? _)%nat; eexists; reflexivity.
Qed.

End PlacementBuilt.

(** ** Configuration and constructor *)

Lemma int_floor (x : Q) : (0 <= x)%Q -> Py.int x = Qfloor x.
Proof.
  intros Hx. unfold Py.int. destruct x as [n d]. simpl.
  apply Z.quot_div_nonneg; [|lia].
  unfold Qle in Hx. simpl in Hx. lia.
Qed.


(** ** Panel geometry *)

Section GeometryFacts.
Import Placement.

Context (radians cos sin : Q -> Q).
Variable self : SolarPanelOptimizer.

(** X7. When the rotation leaves directions as they are (cosine 1 and sine
    0, as for a roof angle of 0), the corners recorded for a panel are the
    corners of its grid cell, in the order top-left, top-right,
    bottom-right, bottom-left. *)
Theorem panel_geometry_unrotated (panel_id x y width height : Z) (angle : Q) :
  cos (radians angle) == 1 -> sin (radians angle) == 0 ->
  Forall2 (fun c p => Panel.x c == inject_Z p.1 /\ Panel.y c == inject_Z p.2)
    (Panel.corners (_create_panel_geometry radians cos sin self
                      panel_id x y width height angle))
    [ (x, y); (x + width, y); (x + width, y + height); (x, y + height) ].
Proof.
  intros Hcos Hsin. unfold _create_panel_geometry. cbn [Panel.corners map].
  assert (Hcorner : forall cx cy : Z,
    Py.round (inject_Z x + inject_Z width / 2
              + ((inject_Z cx - (inject_Z x + inject_Z width / 2)) * cos (radians angle)
                 - (inject_Z cy - (inject_Z y + inject_Z height / 2)) * sin (radians angle))) 2
    == inject_Z cx /\
    Py.round (inject_Z y + inject_Z height / 2
              + ((inject_Z cx - (inject_Z x + inject_Z width / 2)) * sin (radians angle)
                 + (inject_Z cy - (inject_Z y + inject_Z height / 2)) * cos (radians angle))) 2
    == inject_Z cy).
  { intros cx cy. split.
    - rewrite (round_proper _ (inject_Z cx) 2) by (rewrite Hcos, Hsin; field).
      apply (round_exact _ 2 (cx * 100)). rewrite inject_Z_mult. reflexivity.
    - rewrite (round_proper _ (inject_Z cy) 2) by (rewrite Hcos, Hsin; field).
      apply (round_exact _ 2 (cy * 100)). rewrite inject_Z_mult. reflexivity. }
  repeat (constructor; [cbn [fst snd Panel.x Panel.y]; exact (Hcorner _ _)|]).
  constructor.
Qed.

End GeometryFacts.

(** ** Duplicate suppression: what is kept *)

Lemma pairwise_map_in {A B} (S : A -> A -> Prop) (R : B -> B -> Prop) (f : A -> B)
    (l : list A) :
  (forall a b, In a l -> In b l -> S a b -> R (f a) (f b)) ->
  ForallOrdPairs S l -> ForallOrdPairs R (map f l).
Proof.
  intros HSR H. induction H as [|x l Hx H IH]; simpl; [constructor|].
  constructor.
  - apply List.Forall_map. rewrite List.Forall_forall in *. intros b Hb.
    apply HSR; [left; reflexivity | right; exact Hb | apply Hx; exact Hb].
  - apply IH. intros a b Ha Hb. apply HSR; right; assumption.
Qed.

Lemma pairwise_and {A} (R S : A -> A -> Prop) (l : list A) :
  ForallOrdPairs R l -> ForallOrdPairs S l -> ForallOrdPairs (fun a b => R a b /\ S a b) l.
Proof.
  induction 1 as [|x l Hx H IH]; intros HS; [constructor|].
  inversion HS as [|? ? Hsx HS']; subst. constructor; [|apply IH; exact HS'].
  rewrite List.Forall_forall in *. intros b Hb. split; [apply Hx | apply Hsx]; exact Hb.
Qed.

Section NMSKept.
Import Detector.

Context (boundingRect : Contour -> box).
Context `{ArgSort}.

Lemma overlap_intersection (boxes : list box) (areas : list Z) (i j : nat) :
  overlap boxes areas i j
  = true_divide (intersection_area (nth i boxes (0, 0, 0, 0)) (nth j boxes (0, 0, 0, 0)))
                (nth j areas 0).
Proof.
  unfold overlap, intersection_area.
  destruct (nth i boxes (0, 0, 0, 0)) as [[[xi yi] wi] hi].
  destruct (nth j boxes (0, 0, 0, 0)) as [[[xj yj] wj] hj]. reflexivity.
Qed.

(** Suppression only removes: its result is the input with some contours
    left out, up to the order. *)
Lemma suppression_submseteq (contours : list Contour) (overlap_thresh : Q) :
  _non_max_suppression boundingRect contours overlap_thresh ⊆+ contours.
Proof.
  unfold _non_max_suppression.
  destruct (Nat.eqb_spec (length contours) 0) as [Hn|Hn]; [apply submseteq_nil_l|].
  set (boxes := map boundingRect contours).
  set (areas := map box_area boxes).
  assert (Hlen : length areas = length contours)
    by (unfold areas, boxes; rewrite !List.length_map; reflexivity).
  transitivity (map (fun i => nth i contours []) (rev (argsort areas))).
  - apply sublist_submseteq. apply (fmap_sublist (fun i => nth i contours [])).
    apply suppress_sublist.
  - apply Permutation_submseteq.
    transitivity (map (fun i => nth i contours []) (seq 0 (length contours))).
    + apply Permutation_map. etransitivity; [symmetry; apply Permutation_rev|].
      rewrite <- Hlen. apply argsort_perm.
    + rewrite map_nth_seq. reflexivity.
Qed.

(** X8. On a list that is not empty, suppression keeps at least one
    contour, and the first contour of its result is one whose bounding box
    has the largest area of all. *)
Theorem non_max_suppression_keeps_largest (contours : list Contour) (overlap_thresh : Q) :
  contours <> [] ->
  exists c rest,
    _non_max_suppression boundingRect contours overlap_thresh = c :: rest /\
    In c contours /\
    forall c', In c' contours ->
      box_area (boundingRect c') <= box_area (boundingRect c).
Proof.
  intros Hne. unfold _non_max_suppression.
  destruct (Nat.eqb_spec (length contours) 0) as [Hn|Hn].
  { apply List.length_zero_iff_nil in Hn. contradiction. }
  set (boxes := map boundingRect contours).
  set (areas := map box_area boxes).
  assert (Hlen : length areas = length contours)
    by (unfold areas, boxes; rewrite !List.length_map; reflexivity).
  assert (Harea : forall i, (i < length contours)%nat ->
            nth i areas 0 = box_area (boundingRect (nth i contours []))).
  { intros i Hi. unfold areas, boxes. rewrite List.map_map.
    apply (nth_map_in_range (fun c => box_area (boundingRect c)) contours i [] 0 Hi). }
  pose proof (idxs_decreasing areas) as Hdec.
  assert (Hperm : Permutation (rev (argsort areas)) (seq 0 (length contours))).
  { etransitivity; [symmetry; apply Permutation_rev|]. rewrite <- Hlen. apply argsort_perm. }
  destruct (rev (argsort areas)) as [|i0 idxs] eqn:Hidxs.
  { apply Permutation_length in Hperm. rewrite List.length_seq in Hperm. simpl in Hperm. lia. }
  assert (Hi0 : (i0 < length contours)%nat).
  { assert (Hin : In i0 (seq 0 (length contours)))
      by (apply (Permutation_in _ Hperm); left; reflexivity).
    apply List.in_seq in Hin. lia. }
  exists (nth i0 contours []).
  exists (map (fun i => nth i contours [])
            (match idxs with
             | [] => []
             | _ :: _ =>
                 suppress boxes areas overlap_thresh
                   (List.filter (fun j => le_float (overlap boxes areas i0 j) overlap_thresh)
                      idxs)
             end)).
  split; [|split].
  - destruct idxs as [|j idxs']; simp suppress; reflexivity.
  - apply List.nth_In. exact Hi0.
  - intros c' Hc'. apply (List.In_nth _ _ []) in Hc'. destruct Hc' as (j & Hj & <-).
    rewrite <- (Harea j Hj), <- (Harea i0 Hi0).
    assert (Hin : In j (i0 :: idxs)).
    { apply (Permutation_in _ (Permutation_sym Hperm)). apply List.in_seq. lia. }
    destruct Hin as [<-|Hin]; [lia|].
    inversion Hdec as [|? ? Hhead _]; subst.
    rewrite List.Forall_forall in Hhead. apply Hhead. exact Hin.
Qed.

(** X9. In the result of suppression the bounding-box areas do not
    increase along the list, and every contour passed the overlap test
    against every contour before it: its box has a non-zero area and the
    part of it that the earlier box covers is at most [overlap_thresh] of
    that area. *)
Theorem non_max_suppression_limits_overlap (contours : list Contour) (overlap_thresh : Q) :
  ForallOrdPairs
    (fun c1 c2 =>
       box_area (boundingRect c2) <= box_area (boundingRect c1) /\
       box_area (boundingRect c2) <> 0 /\
       (inject_Z (intersection_area (boundingRect c1) (boundingRect c2))
        / inject_Z (box_area (boundingRect c2)) <= overlap_thresh)%Q)
    (_non_max_suppression boundingRect contours overlap_thresh).
Proof.
  unfold _non_max_suppression.
  destruct (Nat.eqb_spec (length contours) 0) as [Hn|Hn]; [constructor|].
  set (boxes := map boundingRect contours).
  set (areas := map box_area boxes).
  set (K := suppress boxes areas overlap_thresh (rev (argsort areas))).
  assert (Hlen : length areas = length contours)
    by (unfold areas, boxes; rewrite !List.length_map; reflexivity).
  assert (HKsub : sublist K (rev (argsort areas))) by apply suppress_sublist.
  assert (HKrange : forall i, In i K -> (i < length contours)%nat).
  { intros i Hi. rewrite <- Hlen. apply argsort_in_range, List.in_rev.
    apply list_elem_of_In. eapply elem_of_sublist; [|exact HKsub].
    apply list_elem_of_In. exact Hi. }
  assert (HKdec : ForallOrdPairs (fun i j => nth j areas 0 <= nth i areas 0) K)
    by (apply (pairwise_sublist _ _ _ HKsub), idxs_decreasing).
  assert (HKok : ForallOrdPairs (survives boxes areas overlap_thresh) K)
    by apply suppress_pairwise.
  assert (Hbox : forall i, (i < length contours)%nat ->
            nth i boxes (0, 0, 0, 0) = boundingRect (nth i contours [])).
  { intros i Hi. apply (nth_map_in_range boundingRect contours i [] (0, 0, 0, 0) Hi). }
  assert (Harea : forall i, (i < length contours)%nat ->
            nth i areas 0 = box_area (boundingRect (nth i contours []))).
  { intros i Hi. unfold areas, boxes. rewrite List.map_map.
    apply (nth_map_in_range (fun c => box_area (boundingRect c)) contours i [] 0 Hi). }
  apply (pairwise_map_in
           (fun i j => nth j areas 0 <= nth i areas 0 /\ survives boxes areas overlap_thresh i j));
    [|apply pairwise_and; assumption].
  intros i j Hi Hj [Hdec Hsurv]. apply HKrange in Hi. apply HKrange in Hj.
  rewrite <- (Harea i Hi), <- (Harea j Hj), <- (Hbox i Hi), <- (Hbox j Hj).
  split; [exact Hdec|].
  unfold survives in Hsurv. rewrite overlap_intersection in Hsurv.
  unfold true_divide in Hsurv.
  destruct (Z.eqb_spec (nth j areas 0) 0) as [Hz|Hnz].
  - exfalso.
    assert (Hnn : 0 <= intersection_area (nth i boxes (0, 0, 0, 0)) (nth j boxes (0, 0, 0, 0))).
    { unfold intersection_area.
      destruct (nth i boxes (0, 0, 0, 0)) as [[[xi yi] wi] hi].
      destruct (nth j boxes (0, 0, 0, 0)) as [[[xj yj] wj] hj]. nia. }
    destruct (Z.eqb_spec (intersection_area (nth i boxes (0, 0, 0, 0))
                            (nth j boxes (0, 0, 0, 0))) 0); [discriminate|].
    destruct (Z.ltb_spec 0 (intersection_area (nth i boxes (0, 0, 0, 0))
                              (nth j boxes (0, 0, 0, 0)))); [discriminate|lia].
  - split; [exact Hnz|]. simpl in Hsurv. apply Qle_bool_iff in Hsurv. exact Hsurv.
Qed.

End NMSKept.

(** ** Suitability score: the other inputs *)

Section SuitabilityMore.
Import Suitability.

(** X10. A rooftop that takes fewer than two panels scores at most 65 and is
    never rated Excellent, whatever its area, shape and obstacles. *)
Theorem rate_suitability_needs_panels
    (rooftop : Rooftop.t) (num_panels obstacle_count : Z) (s : Suitability.t) :
  num_panels < 2 ->
  _rate_suitability rooftop num_panels obstacle_count = Py.Ok s ->
  score s <= 65 /\ rating_of s <> Excellent.
Proof.
  intros Hn. unfold _rate_suitability.
  destruct (aspect_ratio_total (Rooftop.bounding_rect rooftop)) as [r Hr].
  rewrite Hr. intros Hs. cbv [mbind mret Py.result_bind Py.result_ret] in Hs.
  injection Hs as <-. cbn [score rating_of].
  match goal with |- ?sc <= 65 /\ _ => set (v := sc) end.
  assert (Hv : v <= 65).
  { subst v.
    destruct (Z.leb_spec 10 num_panels); [lia|].
    destruct (Z.leb_spec 5 num_panels); [lia|].
    destruct (Z.leb_spec 2 num_panels); [lia|].
    repeat match goal with
           | |- context [if ?c then _ else _] => destruct c
           end; lia. }
  split; [exact Hv|].
  destruct (Z.leb_spec 80 v); [lia|].
  destruct (60 <=? v); [discriminate|]. destruct (40 <=? v); discriminate.
Qed.

End SuitabilityMore.

(** ** Obstacle detection on a roof without pixels *)

Section ObstacleEdges.
Import Np Cv Obstacles.

Context (cvtColor_BGR2GRAY : ndarray3 -> ndarray).
Context (internal_feature : ndarray -> Z -> Z -> bool).
Context `{Sqrt}.

Lemma filter_none {A} (P : A -> Prop) `{!forall a, Decision (P a)} (l : list A) :
  (forall a, a ∈ l -> ~ P a) -> filter P l = [].
Proof.
  induction l as [|a l IH]; intros Hl; [reflexivity|].
  rewrite filter_cons_False by (apply Hl; left).
  apply IH. intros b Hb. apply Hl. right. exact Hb.
Qed.

(** X11. When the roof mask selects no pixel of the image, the detector
    returns the all-zero mask of the image's shape, whatever the image
    shows: no statistics are taken and no threshold is applied. *)
Theorem detect_obstacles_empty_roof (image : image) (roof_mask : ndarray) :
  (forall i j, in_image (gray_of cvtColor_BGR2GRAY image) i j = true ->
               pix roof_mask i j <= 0) ->
  _detect_obstacles cvtColor_BGR2GRAY internal_feature image roof_mask
  = zeros (shape (gray_of cvtColor_BGR2GRAY image)).
Proof.
  intros Hempty. unfold _detect_obstacles. fold (gray_of cvtColor_BGR2GRAY image).
  set (gray := gray_of cvtColor_BGR2GRAY image) in *.
  assert (Hsel : select gray roof_mask = []).
  { unfold select.
    assert (Hf : filter (fun c : Z * Z => 0 < pix roof_mask c.1 c.2)
                   (cells {| r0 := 0; r1 := (shape gray).1; c0 := 0; c1 := (shape gray).2 |})
                 = []).
    { apply filter_none. intros [i j] Hc. apply elem_of_cells in Hc. simpl in *.
      specialize (Hempty i j (proj2 (in_image_spec gray i j) Hc)). lia. }
    rewrite Hf. reflexivity. }
  rewrite Hsel. reflexivity.
Qed.

End ObstacleEdges.

(** ** Batch analysis: the ranking *)

Section BatchRanking.
Import Pipeline.

Context {Image Analysis : Type}.
Context (analyze_roof_for_solar : Image -> Contour -> Py.result Analysis).
Context (annual_energy : Analysis -> Q).

Local Abbreviation energy := (fun e : @entry Analysis => annual_energy (analysis e)).

Lemma insert_desc_sorted (e : @entry Analysis) (sorted : list entry) :
  ForallOrdPairs (fun a b => (energy b <= energy a)%Q) sorted ->
  ForallOrdPairs (fun a b => (energy b <= energy a)%Q) (insert_desc annual_energy e sorted).
Proof.
  induction 1 as [|e' rest He' Hrest IH]; simpl.
  - repeat constructor.
  - destruct (Py.Qlt_bool (energy e) (energy e')) eqn:Hlt.
    + apply Qlt_bool_iff in Hlt. constructor; [|exact IH].
      apply List.Forall_forall. intros b Hb.
      apply (Permutation_in _ (insert_desc_perm annual_energy e rest)) in Hb.
      destruct Hb as [<-|Hb]; [apply Qlt_le_weak, Hlt|].
      rewrite List.Forall_forall in He'. apply He'. exact Hb.
    + assert (Hge : (energy e' <= energy e)%Q).
      { apply Qnot_lt_le. intros Hc. apply Qlt_bool_iff in Hc. congruence. }
      constructor; [|constructor; assumption].
      constructor; [exact Hge|].
      eapply List.Forall_impl; [|exact He']. simpl. intros b Hb.
      eapply Qle_trans; eassumption.
Qed.

Lemma sort_desc_sorted (results : list (@entry Analysis)) :
  ForallOrdPairs (fun a b => (energy b <= energy a)%Q) (sort_desc annual_energy results).
Proof.
  induction results as [|e rest IH]; simpl; [constructor|].
  apply insert_desc_sorted. exact IH.
Qed.

Lemma insert_desc_stable (v : Q) (e : @entry Analysis) (sorted : list entry) :
  List.filter (fun a => Qeq_bool (energy a) v) (insert_desc annual_energy e sorted)
  = List.filter (fun a => Qeq_bool (energy a) v) (e :: sorted).
Proof.
  induction sorted as [|e' rest IH]; [reflexivity|].
  simpl insert_desc. destruct (Py.Qlt_bool (energy e) (energy e')) eqn:Hlt; [|reflexivity].
  apply Qlt_bool_iff in Hlt.
  cbn [List.filter]. rewrite IH. cbn [List.filter].
  destruct (Qeq_bool (annual_energy (analysis e')) v) eqn:E'; [|reflexivity].
  destruct (Qeq_bool (annual_energy (analysis e)) v) eqn:E; [|reflexivity].
  apply Qeq_bool_iff in E, E'. rewrite E, E' in Hlt. destruct (Qlt_irrefl _ Hlt).
Qed.

(** X12. [batch_analyze_buildings] returns the buildings whose analysis
    succeeded, each once and numbered by its position in the input, ranked
    by annual energy from the largest down; buildings with equal energy
    keep the order of the input. *)
Theorem batch_analyze_buildings_ranked (image : Image) (contours : list Contour) :
  let results := batch_analyze_buildings analyze_roof_for_solar annual_energy image contours in
  Permutation results (successes analyze_roof_for_solar image 0 contours) /\
  ForallOrdPairs
    (fun a b => (annual_energy (analysis b) <= annual_energy (analysis a))%Q) results /\
  forall v : Q,
    List.filter (fun a => Qeq_bool (annual_energy (analysis a)) v) results
    = List.filter (fun a => Qeq_bool (annual_energy (analysis a)) v)
        (successes analyze_roof_for_solar image 0 contours).
Proof.
  simpl. unfold batch_analyze_buildings. rewrite batch_loop_successes. simpl.
  split; [apply sort_desc_perm|]. split; [apply sort_desc_sorted|].
  intros v. induction (successes analyze_roof_for_solar image 0 contours) as [|e rest IH];
    [reflexivity|].
  unfold sort_desc in *. simpl fold_right. rewrite insert_desc_stable.
  simpl. rewrite IH. reflexivity.
Qed.

End BatchRanking.

(** ** The batch analyser: configuration *)

Section RoofForSolarFacts.
Import Exc RoofForSolar.


(** X14. The two energy models agree where they overlap: at the base
    irradiance of the latitude and a loss fraction of 0.14, the batch
    analyser's yield is the rooftop analyser's annual yield before
    rounding. *)
Theorem annual_energy_models_agree
    (old : settings) (new : SolarPanelOptimizer) (num_panels : Z) :
  old !! "panel_width"%string = Some (Config.get (config new) "panel_width_m") ->
  old !! "panel_height"%string = Some (Config.get (config new) "panel_height_m") ->
  old !! "panel_efficiency"%string = Some (Config.get (config new) "panel_efficiency") ->
  old !! "system_losses"%string = Some (14 # 100)%Q ->
  exists e,
    _estimate_annual_energy old num_panels (Energy.base_irradiance new) = Ok e /\
    e == Energy.annual_kwh new num_panels.
Proof.
  intros Hw Hh He Hl. unfold _estimate_annual_energy, getitem.
  rewrite Hw, Hh, He, Hl. simpl. eexists. split; [reflexivity|].
  unfold Energy.annual_kwh, Energy.total_area_m2, Energy.panel_area_m2. ring.
Qed.

End RoofForSolarFacts.

(** ** The batch analyser: irradiance, rating, slope and orientation *)

Section RoofForSolarNumbers.
Import Exc RoofForSolar.

Local Ltac run := cbv [mbind mret Exc.result_bind Exc.result_ret].

Lemma Qabs_cases (x : Q) : (0 <= x /\ Qabs x == x)%Q \/ (x <= 0 /\ Qabs x == - x)%Q.
Proof.
  destruct (Qlt_le_dec x 0) as [Hneg|Hpos].
  - right. split; [apply Qlt_le_weak, Hneg|]. apply Qabs_neg. apply Qlt_le_weak, Hneg.
  - left. split; [exact Hpos|]. apply Qabs_pos. exact Hpos.
Qed.

Lemma Qmin_cases (x y : Q) : (x <= y /\ Qmin x y == x)%Q \/ (y <= x /\ Qmin x y == y)%Q.
Proof.
  destruct (Qlt_le_dec y x) as [Hlt|Hle].
  - right. split; [apply Qlt_le_weak, Hlt|]. apply Q.min_r. apply Qlt_le_weak, Hlt.
  - left. split; [exact Hle|]. apply Q.min_l. exact Hle.
Qed.

(** The deviation from the optimal azimuth, folded into [[0, 180]]. *)
Lemma azimuth_deviation_range (orientation optimal : Q) :
  (optimal == 0 \/ optimal == 180)%Q -> (0 <= orientation <= 360)%Q ->
  (0 <= Qmin (Qabs (orientation - optimal)) (360 - Qabs (orientation - optimal)) <= 180)%Q.
Proof.
  intros Hopt Ho.
  destruct (Qabs_cases (orientation - optimal)) as [[H1 E1]|[H1 E1]];
    destruct (Qmin_cases (Qabs (orientation - optimal))
                (360 - Qabs (orientation - optimal))) as [[H2 E2]|[H2 E2]];
    rewrite E2; rewrite ?E1 in *; destruct Hopt as [Hz|Hz]; rewrite Hz in *; lra.
Qed.

Lemma slope_deviation_range (slope lat : Q) :
  (0 <= slope <= 90)%Q -> (Qabs lat <= 90)%Q ->
  (0 <= Qabs (slope - Qabs lat) <= 90)%Q.
Proof.
  intros Hs Hl. pose proof (Qabs_nonneg lat) as Hl0.
  destruct (Qabs_cases (slope - Qabs lat)) as [[H1 E1]|[H1 E1]]; rewrite E1; lra.
Qed.

Lemma optimal_azimuth_cases (lat : Q) :
  ((if Py.Qlt_bool 0 lat then 180 else 0) == 0 \/
   (if Py.Qlt_bool 0 lat then 180 else 0) == 180)%Q.
Proof. destruct (Py.Qlt_bool 0 lat); [right | left]; reflexivity. Qed.

(** X15. For a latitude within 90 degrees, an orientation in [[0, 360]], a
    slope in [[0, 90]] and a shading score that is not negative, the
    irradiance is the base irradiance [2200 - 8|latitude|] times the shading
    score, reduced by the orientation by at most a quarter and by the slope
    by at most 15 percent: it lies between 63.75 and 100 percent of that
    product. *)
Theorem solar_irradiance_bounds (self : settings) (lat orientation slope shading_score : Q) :
  self !! "latitude"%string = Some lat ->
  (Qabs lat <= 90)%Q -> (0 <= orientation <= 360)%Q -> (0 <= slope <= 90)%Q ->
  (0 <= shading_score)%Q ->
  exists irradiance,
    _calculate_solar_irradiance self orientation slope shading_score = Ok irradiance /\
    ((6375 # 10000) * ((2200 - 8 * Qabs lat) * shading_score) <= irradiance /\
     irradiance <= (2200 - 8 * Qabs lat) * shading_score)%Q.
Proof.
  intros Hlat Hl Ho Hs Hsh. unfold _calculate_solar_irradiance, getitem.
  rewrite Hlat. run. eexists. split; [reflexivity|].
  pose proof (azimuth_deviation_range orientation _ (optimal_azimuth_cases lat) Ho) as Ha.
  pose proof (slope_deviation_range slope lat Hs Hl) as Hd.
  pose proof (Qabs_nonneg lat) as Hl0.
  set (a := Qmin _ _) in *. set (d := Qabs (slope - Qabs lat)) in *.
  set (l := Qabs lat) in *.
  match goal with
  | |- (_ <= ?t /\ _)%Q =>
      assert (E : (t == ((2200 - 8 * l) * shading_score)
                        * ((1 - a * (25 # 18000)) * (1 - d * (15 # 9000))))%Q)
        by (unfold l; field)
  end.
  rewrite E. clear E.
  assert (HB : (0 <= (2200 - 8 * l) * shading_score)%Q)
    by (apply Qmult_le_0_compat; lra).
  set (B := ((2200 - 8 * l) * shading_score)%Q) in *.
  assert (Hf : (6375 # 10000 <= (1 - a * (25 # 18000)) * (1 - d * (15 # 9000)) <= 1)%Q).
  { clearbody a d. clear - Ha Hd.
    assert (H1 : (75 # 100 <= 1 - a * (25 # 18000) <= 1)%Q) by lra.
    assert (H2 : (85 # 100 <= 1 - d * (15 # 9000) <= 1)%Q) by lra.
    set (u := (1 - a * (25 # 18000))%Q) in *. set (v := (1 - d * (15 # 9000))%Q) in *.
    clearbody u v. split; nra. }
  set (f := ((1 - a * (25 # 18000)) * (1 - d * (15 # 9000)))%Q) in *.
  clearbody f B. split; nra.
Qed.

(** X16. Facing the optimal azimuth (south for a positive latitude, north
    otherwise) at a slope equal to the latitude, nothing is lost: the
    irradiance is exactly the base irradiance times the shading score. *)
Theorem solar_irradiance_optimum (self : settings) (lat shading_score : Q) :
  self !! "latitude"%string = Some lat ->
  exists irradiance,
    _calculate_solar_irradiance self (if Py.Qlt_bool 0 lat then 180 else 0)
      (Qabs lat) shading_score = Ok irradiance /\
    irradiance == (2200 - 8 * Qabs lat) * shading_score.
Proof.
  intros Hlat. unfold _calculate_solar_irradiance, getitem.
  rewrite Hlat. run. eexists. split; [reflexivity|].
  set (opt := if Py.Qlt_bool 0 lat then 180%Q else 0%Q).
  assert (E1 : Qabs (opt - opt) == 0).
  { assert (E0 : opt - opt == 0) by ring. rewrite E0. reflexivity. }
  assert (E2 : Qabs (Qabs lat - Qabs lat) == 0).
  { assert (E0 : Qabs lat - Qabs lat == 0) by ring. rewrite E0. reflexivity. }
  rewrite E1, E2.
  assert (E3 : Qmin 0 (360 - 0) == 0) by reflexivity.
  rewrite E3. field.
Qed.

Lemma rating_of_score_rank (self : settings)
    (area1 sh1 o1 sl1 area2 sh2 o2 sl2 s1 s2 : Q) (r1 r2 : Suitability.rating) :
  suitability_score self area1 sh1 o1 sl1 = Ok s1 ->
  suitability_score self area2 sh2 o2 sl2 = Ok s2 ->
  (s1 <= s2)%Q ->
  _calculate_suitability_rating self area1 sh1 o1 sl1 = Ok r1 ->
  _calculate_suitability_rating self area2 sh2 o2 sl2 = Ok r2 ->
  rating_rank r1 <= rating_rank r2.
Proof.
  intros E1 E2 Hle. unfold _calculate_suitability_rating. rewrite E1, E2. simpl.
  destruct (Qle_bool 80 s1) eqn:A1; [|destruct (Qle_bool 60 s1) eqn:B1;
    [|destruct (Qle_bool 40 s1) eqn:C1]];
  (destruct (Qle_bool 80 s2) eqn:A2; [|destruct (Qle_bool 60 s2) eqn:B2;
    [|destruct (Qle_bool 40 s2) eqn:C2]]);
  intros [= <-] [= <-]; simpl; try lia; exfalso;
  repeat match goal with
         | H : Qle_bool _ _ = true |- _ => apply Qle_bool_iff in H
         | H : Qle_bool _ _ = false |- _ =>
             apply not_true_iff_false in H; rewrite Qle_bool_iff in H;
             apply Qnot_le_lt in H
         end; lra.
Qed.

(** X17. Less shade never lowers the rating: for a fixed roof area,
    orientation and slope, a larger shading score gives the same rating or
    a better one. *)
Theorem suitability_rating_monotone_in_shading
    (self : settings) (roof_area orientation slope sh1 sh2 : Q)
    (r1 r2 : Suitability.rating) :
  (sh1 <= sh2)%Q ->
  _calculate_suitability_rating self roof_area sh1 orientation slope = Ok r1 ->
  _calculate_suitability_rating self roof_area sh2 orientation slope = Ok r2 ->
  rating_rank r1 <= rating_rank r2.
Proof.
  intros Hsh H1 H2.
  destruct (self !! "latitude"%string) as [lat|] eqn:Hlat.
  - assert (Hs : exists base, forall sh, exists s,
              suitability_score self roof_area sh orientation slope = Ok s /\
              s == base + sh * 30).
    { exists
        ((if Qle_bool 50 roof_area then 0 + 30
          else if Qle_bool 30 roof_area then 0 + 20
          else if Qle_bool 20 roof_area then 0 + 10 else 0)
         + (1 - Qmin (Qabs (orientation - (if Py.Qlt_bool 0 lat then 180 else 0)))
                  (360 - Qabs (orientation - (if Py.Qlt_bool 0 lat then 180 else 0)))
                / 180) * 25
         + (1 - Qabs (slope - Qabs lat) / 90) * 15)%Q.
      intros sh. unfold suitability_score, getitem. rewrite Hlat. run.
      eexists. split; [reflexivity|]. ring. }
    destruct Hs as [base Hs].
    destruct (Hs sh1) as (s1 & E1 & Q1). destruct (Hs sh2) as (s2 & E2 & Q2).
    apply (rating_of_score_rank self _ _ _ _ _ _ _ _ s1 s2 r1 r2 E1 E2); [|assumption..].
    rewrite Q1, Q2. lra.
  - exfalso. revert H1. unfold _calculate_suitability_rating, suitability_score, getitem.
    rewrite Hlat. discriminate.
Qed.

(** X18. A roof of less than 20 square metres, or one whose shading score
    is 0, is never rated Excellent by the batch analyser, for any
    orientation in [[0, 360]] and any slope: its score stays at or below
    70. *)
Theorem suitability_rating_excellent_needs_area_and_sun
    (self : settings) (roof_area shading_score orientation slope : Q)
    (r : Suitability.rating) :
  (0 <= orientation <= 360)%Q -> (shading_score <= 1)%Q ->
  (roof_area < 20 \/ shading_score <= 0)%Q ->
  _calculate_suitability_rating self roof_area shading_score orientation slope = Ok r ->
  r <> Suitability.Excellent.
Proof.
  intros Ho Hsh Hcase. unfold _calculate_suitability_rating.
  destruct (self !! "latitude"%string) as [lat|] eqn:Hlat;
    [|unfold suitability_score, getitem; rewrite Hlat; discriminate].
  assert (Hs : exists s,
            suitability_score self roof_area shading_score orientation slope = Ok s /\
            (s <= 70)%Q).
  { unfold suitability_score, getitem. rewrite Hlat. run.
    eexists. split; [reflexivity|].
    pose proof (azimuth_deviation_range orientation _ (optimal_azimuth_cases lat) Ho) as Ha.
    pose proof (Qabs_nonneg (slope - Qabs lat)) as Hd.
    set (a := Qmin _ _) in *. set (d := Qabs (slope - Qabs lat)) in *.
    assert (Ea : ((1 - a / 180) * 25 == 25 - a * (25 # 180))%Q) by field.
    assert (Ed : ((1 - d / 90) * 15 == 15 - d * (15 # 90))%Q) by field.
    rewrite Ea, Ed. clearbody a d.
    destruct Hcase as [Harea|Hzero].
    - destruct (Qle_bool 50 roof_area) eqn:A;
        [apply Qle_bool_iff in A; lra|].
      destruct (Qle_bool 30 roof_area) eqn:B;
        [apply Qle_bool_iff in B; lra|].
      destruct (Qle_bool 20 roof_area) eqn:C;
        [apply Qle_bool_iff in C; lra|].
      lra.
    - destruct (Qle_bool 50 roof_area), (Qle_bool 30 roof_area), (Qle_bool 20 roof_area);
        lra. }
  destruct Hs as (s & Es & Hs). rewrite Es. run.
  destruct (Qle_bool 80 s) eqn:A; [apply Qle_bool_iff in A; lra|].
  destruct (Qle_bool 60 s); [intros [= <-]; discriminate|].
  destruct (Qle_bool 40 s); intros [= <-]; discriminate.
Qed.

(** The largest element of a list that is not empty is at least its
    smallest. *)
Lemma np_max_min (xs : list Z) : np_min xs <= np_max xs.
Proof.
  unfold np_min, np_max. set (d := hd 0 xs). clearbody d.
  assert (H : fold_right Z.min d xs <= d /\ d <= fold_right Z.max d xs).
  { induction xs as [|x xs IH]; simpl; lia. }
  lia.
Qed.

Lemma slope_of_range_bounds (r : Z) : 0 <= r -> (0 <= slope_of_range r <= 45)%Q.
Proof.
  intros Hr. unfold slope_of_range.
  assert (Hq : (inject_Z 0 <= inject_Z r)%Q) by (rewrite <- Zle_Qle; lia).
  change (inject_Z 0) with 0%Q in Hq.
  destruct (Z.ltb_spec r 30) as [H30|H30].
  - assert (Hq' : (inject_Z r < inject_Z 30)%Q) by (rewrite <- Zlt_Qlt; lia).
    change (inject_Z 30) with 30%Q in Hq'.
    assert (E : (inject_Z r / 3 == inject_Z r * (1 # 3))%Q) by field.
    rewrite E. lra.
  - assert (Hq30 : (inject_Z 30 <= inject_Z r)%Q) by (rewrite <- Zle_Qle; lia).
    change (inject_Z 30) with 30%Q in Hq30.
    destruct (Z.ltb_spec r 60) as [H60|H60].
    + assert (Hq' : (inject_Z r < inject_Z 60)%Q) by (rewrite <- Zlt_Qlt; lia).
      change (inject_Z 60) with 60%Q in Hq'.
      assert (E : (10 + (inject_Z r - 30) / (15 # 10)
                   == 10 + (inject_Z r - 30) * (10 # 15))%Q) by field.
      rewrite E. lra.
    + assert (Hq60 : (inject_Z 60 <= inject_Z r)%Q) by (rewrite <- Zle_Qle; lia).
      change (inject_Z 60) with 60%Q in Hq60.
      assert (E : (30 + (inject_Z r - 60) / 4 == 30 + (inject_Z r - 60) * (1 # 4))%Q)
        by field.
      rewrite E.
      destruct (Qmin_cases 45 (30 + (inject_Z r - 60) * (1 # 4))) as [[H E']|[H E']];
        rewrite E'; lra.
Qed.

(** X19. The estimated roof slope lies between 0 and 45 degrees for every
    image and mask, and an empty roof gets the slope 0. *)
Theorem estimate_roof_slope_range
    (cvtColor_BGR2GRAY : Obstacles.ndarray3 -> Np.ndarray)
    (roof_image : Obstacles.image) (mask : Np.ndarray) :
  (0 <= _estimate_roof_slope cvtColor_BGR2GRAY roof_image mask <= 45)%Q /\
  ((forall i j, Cv.in_image (gray_of cvtColor_BGR2GRAY roof_image) i j = true ->
                Np.pix mask i j <= 0) ->
   _estimate_roof_slope cvtColor_BGR2GRAY roof_image mask = 0%Q).
Proof.
  unfold _estimate_roof_slope. fold (gray_of cvtColor_BGR2GRAY roof_image).
  set (gray := gray_of cvtColor_BGR2GRAY roof_image).
  split.
  - destruct (length _ =? 0)%nat; [split; discriminate|].
    apply slope_of_range_bounds.
    pose proof (np_max_min (roi (Cv.bitwise_and_masked gray gray mask) mask)). lia.
  - intros Hblank.
    assert (E : roi (Cv.bitwise_and_masked gray gray mask) mask = []).
    { unfold roi. rewrite filter_none; [reflexivity|].
      intros [i j] Hc. apply elem_of_cells in Hc. simpl in Hc.
      specialize (Hblank i j (proj2 (in_image_spec gray i j) Hc)). simpl. lia. }
    rewrite E. reflexivity.
Qed.

End RoofForSolarNumbers.

(** ** The batch analyser: the panel grid *)

Section GridFacts.
Import Exc Np Img Layout.

Local Ltac run := cbv [mbind mret Exc.result_bind Exc.result_ret].

(** What the grid loops keep true of the positions collected so far. *)
Lemma for_until_inv {S} (I : S -> Prop) (body : Z -> S -> result (flow S)) (xs : list Z) :
  (forall x s r, In x xs -> I s -> body x s = Ok r ->
     match r with Continue s' => I s' | Return v => I v end) ->
  forall s r, I s -> for_until xs body s = Ok r ->
    match r with Continue s' => I s' | Return v => I v end.
Proof.
  induction xs as [|x xs IH]; intros Hb s r Hs Hrun; simpl in Hrun.
  - injection Hrun as <-. exact Hs.
  - destruct (body x s) as [[s1|v]|e] eqn:E; simpl in Hrun; try discriminate.
    + apply (IH (fun x' s0 r0 Hx => Hb x' s0 r0 (or_intror Hx)) s1 r); [|exact Hrun].
      exact (Hb x s (Continue s1) (or_introl eq_refl) Hs E).
    + injection Hrun as <-. exact (Hb x s (Return v) (or_introl eq_refl) Hs E).
Qed.

(** What holds on leaving the loops through [return] or through their end:
    [J] holds while the loops go on and [K] once the function is left. *)
Lemma for_until_inv2 {S} (J K : S -> Prop) (body : Z -> S -> result (flow S))
    (xs : list Z) :
  (forall x s r, In x xs -> J s -> body x s = Ok r ->
     match r with Continue s' => J s' | Return v => K v end) ->
  forall s r, J s -> for_until xs body s = Ok r ->
    match r with Continue s' => J s' | Return v => K v end.
Proof.
  induction xs as [|x xs IH]; intros Hb s r Hs Hrun; simpl in Hrun.
  - injection Hrun as <-. exact Hs.
  - destruct (body x s) as [[s1|v]|e] eqn:E; simpl in Hrun; try discriminate.
    + apply (IH (fun x' s0 r0 Hx => Hb x' s0 r0 (or_intror Hx)) s1 r); [|exact Hrun].
      exact (Hb x s (Continue s1) (or_introl eq_refl) Hs E).
    + injection Hrun as <-. exact (Hb x s (Return v) (or_introl eq_refl) Hs E).
Qed.

Lemma grid_scan_inv (J K : list (Z * Z) -> Prop) (mask : ndarray)
    (panel_w panel_h max_panels : Z) (positions : list (Z * Z)) :
  (forall xs ys x y p,
     of_py (Py.range 0 ((shape mask).1 - panel_h) (panel_h + 5)) = Ok ys ->
     of_py (Py.range 0 ((shape mask).2 - panel_w) (panel_w + 5)) = Ok xs ->
     In x xs -> In y ys -> J p ->
     match grid_visit mask panel_w panel_h max_panels y x p with
     | Continue p' => J p'
     | Return v => K v
     end) ->
  J [] -> (forall p, J p -> K p) ->
  _generate_panel_grid mask panel_w panel_h max_panels = Ok positions ->
  K positions.
Proof.
  intros Hvisit HJ0 HJK. unfold _generate_panel_grid.
  destruct (shape mask) as [h w]. simpl fst in *. simpl snd in *.
  destruct (of_py (Py.range 0 (h - panel_h) (panel_h + 5))) as [ys|e] eqn:Hys;
    [|discriminate].
  run.
  destruct (for_until ys _ []) as [r|e] eqn:Hscan; [|discriminate].
  assert (Hr : match r with Continue p => J p | Return v => K v end).
  { refine (for_until_inv2 J K _ ys _ [] r HJ0 Hscan).
    intros y p r' Hy Hp.
    destruct (of_py (Py.range 0 (w - panel_w) (panel_w + 5))) as [xs|e] eqn:Hxs;
      [|discriminate].
    run. apply for_until_inv2; [|exact Hp].
    intros x p' r'' Hx Hp' [= <-].
    exact (Hvisit xs ys x y p' eq_refl eq_refl Hx Hy Hp'). }
  destruct r as [p|p]; intros [= <-]; [apply HJK|]; exact Hr.
Qed.

Lemma sum_view_bound (a : ndarray) (v : view) :
  (forall i j, pix a i j <= 255) -> sum_view a v <= 255 * Z.of_nat (length (cells v)).
Proof.
  intros Hmax. unfold sum_view. induction (cells v) as [|c l IH]; simpl; [lia|].
  specialize (Hmax c.1 c.2). lia.
Qed.

(** The grid never returns more than [max(1, max_panels)] positions. *)
Lemma grid_count_bound
    (mask : ndarray) (panel_w panel_h max_panels : Z) (positions : list (Z * Z)) :
  _generate_panel_grid mask panel_w panel_h max_panels = Ok positions ->
  Z.of_nat (length positions) <= Z.max 1 max_panels.
Proof.
  apply (grid_scan_inv (fun p => Z.of_nat (length p) < Z.max 1 max_panels)
           (fun p => Z.of_nat (length p) <= Z.max 1 max_panels)).
  - intros xs ys x y p _ _ _ _ Hlen. unfold grid_visit.
    destruct (_ && _); [|exact Hlen].
    destruct (Z.leb_spec max_panels (Z.of_nat (length (p ++ [(x, y)])))) as [Hmax|Hmax];
      rewrite length_app in *; simpl length in *; lia.
  - simpl. lia.
  - intros p Hp. lia.
Qed.

(** X20. [_generate_panel_grid] stops as soon as it holds [max_panels]
    positions, but it tests the count only after adding one: it returns at
    most [max(1, max_panels)] positions, one even when [max_panels] is 0 or
    negative.  Every position it returns starts a cell of the mask whose
    pixel values sum to more than 80 percent of a cell of full
    brightness. *)
Theorem generate_panel_grid_positions
    (mask : ndarray) (panel_w panel_h max_panels : Z) (positions : list (Z * Z)) :
  _generate_panel_grid mask panel_w panel_h max_panels = Ok positions ->
  Z.of_nat (length positions) <= Z.max 1 max_panels /\
  Forall (fun '(x, y) =>
            let region := slice mask y (y + panel_h) x (x + panel_w) in
            0 < size region /\
            (8 * 255 * size region < 10 * sum_view mask region))
         positions.
Proof.
  intros Hrun.
  set (P := fun p : Z * Z =>
              let '(x, y) := p in
              let region := slice mask y (y + panel_h) x (x + panel_w) in
              0 < size region /\ 8 * 255 * size region < 10 * sum_view mask region).
  pose (J := fun p : list (Z * Z) =>
               Z.of_nat (length p) < Z.max 1 max_panels /\ Forall P p).
  pose (K := fun p : list (Z * Z) =>
               Z.of_nat (length p) <= Z.max 1 max_panels /\ Forall P p).
  refine (grid_scan_inv J K mask panel_w panel_h max_panels positions _ _ _ Hrun).
  - intros xs ys x y p _ _ _ _ [Hlen HP]. unfold grid_visit.
    set (region := slice mask y (y + panel_h) x (x + panel_w)).
    destruct (Z.ltb_spec 0 (size region)) as [Hsz|Hsz]; simpl; [|split; assumption].
    destruct (Py.Qlt_bool _ _) eqn:Hsum; [|split; assumption].
    assert (HPx : P (x, y)).
    { apply Qlt_bool_iff in Hsum. unfold P. fold region. split; [exact Hsz|].
      assert (Hq : (inject_Z (8 * 255 * size region)
                    < inject_Z (10 * sum_view mask region))%Q).
      { rewrite !inject_Z_mult. change (inject_Z 8) with 8%Q.
        change (inject_Z 255) with 255%Q. change (inject_Z 10) with 10%Q. lra. }
      rewrite <- Zlt_Qlt in Hq. exact Hq. }
    rewrite length_app. simpl length.
    destruct (Z.leb_spec max_panels (Z.of_nat (length p + 1))) as [Hmax|Hmax].
    + unfold K. rewrite length_app. simpl length.
      split; [lia|]. apply Forall_app. split; [exact HP|]. constructor; [exact HPx|constructor].
    + unfold J. rewrite length_app. simpl length.
      split; [lia|]. apply Forall_app. split; [exact HP|]. constructor; [exact HPx|constructor].
  - split; [simpl; lia | constructor].
  - intros p [Hlen HP]. split; [lia | exact HP].
Qed.

End GridFacts.

(** ** The batch analyser: layout and zones *)

Section LayoutFacts.
Import Exc Np Cv Img Layout.

Local Ltac run := cbv [mbind mret Exc.result_bind Exc.result_ret].

Lemma for_until_returns {S} (body : Z -> S -> result (flow S)) :
  (forall x s, exists r, body x s = Ok r) ->
  forall xs s, exists r, for_until xs body s = Ok r.
Proof.
  intros Hb xs. induction xs as [|x xs IH]; intros s; simpl; [eexists; reflexivity|].
  destruct (Hb x s) as [r Hr]. rewrite Hr. run.
  destruct r; [apply IH | eexists; reflexivity].
Qed.

Lemma range_nonzero_step (start stop step : Z) :
  step <> 0 -> exists xs, Py.range start stop step = Py.Ok xs.
Proof.
  intros Hs. unfold Py.range. destruct (Z.eqb_spec step 0); [contradiction|].
  eexists. reflexivity.
Qed.

(** With panel dimensions that are not negative the grid returns. *)
Lemma generate_panel_grid_returns (mask : ndarray) (panel_w panel_h max_panels : Z) :
  0 <= panel_w -> 0 <= panel_h ->
  exists positions, _generate_panel_grid mask panel_w panel_h max_panels = Ok positions.
Proof.
  intros Hw Hh. unfold _generate_panel_grid. destruct (shape mask) as [rows cols].
  destruct (range_nonzero_step 0 (rows - panel_h) (panel_h + 5)) as [ys Hys]; [lia|].
  destruct (range_nonzero_step 0 (cols - panel_w) (panel_w + 5)) as [xs Hxs]; [lia|].
  rewrite Hys, Hxs. cbn [of_py]. run.
  match goal with
  | |- context [for_until ys ?body ?s0] =>
      destruct (for_until_returns body) with (xs := ys) (s := s0) as [r Hr]
  end.
  - intros y s. apply for_until_returns. intros x s'. eexists. reflexivity.
  - rewrite Hr. destruct r; eexists; reflexivity.
Qed.


Section ZoneFacts.

Context (cvtColor_BGR2GRAY : Obstacles.ndarray3 -> ndarray).
Context (getStructuringElement_ELLIPSE : Z -> kernel).
Context `{Obstacles.Sqrt}.

(** X22. No usable pixel is an obstruction: a pixel of the usable mask is
    set only where the grey level is above 50 and at most 200; the usable
    area is the number of those pixels times the square of the scale; and
    the quality map is the usable mask. *)
Theorem identify_optimal_zones_excludes_obstructions
    (self : RoofForSolar.settings) (roof_image : Obstacles.image) (mask : ndarray)
    (shading_score ptm : Q) :
  self !! "pixel_to_meter"%string = Some ptm ->
  exists z,
    _identify_optimal_zones self cvtColor_BGR2GRAY getStructuringElement_ELLIPSE
      roof_image mask shading_score = Ok z /\
    (forall i j, 0 < pix (usable_mask z) i j ->
       50 < pix (gray_of cvtColor_BGR2GRAY roof_image) i j <= 200) /\
    usable_area z = (inject_Z (count_all_positive (usable_mask z)) * (ptm * ptm))%Q /\
    quality_map z = usable_mask z.
Proof.
  intros Hptm. unfold _identify_optimal_zones, getitem. rewrite Hptm. run.
  eexists. split; [reflexivity|]. cbn [usable_mask usable_area quality_map].
  split; [|split; reflexivity].
  intros i j. fold (gray_of cvtColor_BGR2GRAY roof_image).
  set (gray := gray_of cvtColor_BGR2GRAY roof_image).
  cbn [pix bitwise_and bitwise_or bitwise_not threshold].
  destruct (Py.Qlt_bool 200 (inject_Z (pix gray i j))) eqn:Hb.
  { destruct (Py.Qlt_bool 50 (inject_Z (pix gray i j)));
      simpl Z.lor; simpl Z.lxor; rewrite Z.land_0_r; lia. }
  destruct (Py.Qlt_bool 50 (inject_Z (pix gray i j))) eqn:Hd.
  - intros _. apply Qlt_bool_iff in Hd.
    apply not_true_iff_false in Hb. rewrite Qlt_bool_iff in Hb. apply Qnot_lt_le in Hb.
    change 50%Q with (inject_Z 50) in Hd. change 200%Q with (inject_Z 200) in Hb.
    rewrite <- Zlt_Qlt in Hd. rewrite <- Zle_Qle in Hb. lia.
  - simpl Z.lor. simpl Z.lxor. rewrite Z.land_0_r. lia.
Qed.

End ZoneFacts.
End LayoutFacts.

(** ** The batch analyser: JSON conversion *)

Section JsonFacts.
Import Json.

(** Induction over nested arrays and over values. *)
Lemma nd_induction (P : nd -> Prop) :
  (forall z, P (NdInt z)) -> (forall q, P (NdFloat q)) ->
  (forall items, Forall P items -> P (NdAxis items)) ->
  forall a, P a.
Proof.
  intros Hz Hq Hax. fix go 1. intros [z|q|items]; [apply Hz | apply Hq | apply Hax].
  induction items as [|x l IH]; constructor; [apply go | exact IH].
Qed.

Lemma value_induction (P : value -> Prop) :
  P PyNone -> (forall b, P (PyBool b)) -> (forall z, P (PyInt z)) ->
  (forall q, P (PyFloat q)) -> (forall s, P (PyStr s)) ->
  (forall z, P (NpInteger z)) -> (forall q, P (NpFloating q)) ->
  (forall a, P (NpArray a)) ->
  (forall items, Forall P items -> P (PyList items)) ->
  (forall items, P (PyTuple items)) ->
  (forall entries, Forall (fun kv => P kv.2) entries -> P (PyDict entries)) ->
  forall v, P v.
Proof.
  intros H1 H2 H3 H4 H5 H6 H7 H8 Hlist Htuple Hdict. fix go 1.
  intros [| | | | | | | |items|items|entries];
    [exact H1 | apply H2 | apply H3 | apply H4 | apply H5 | apply H6 | apply H7
     | apply H8 | | apply Htuple | ].
  - apply Hlist. induction items as [|x l IH]; constructor; [apply go | exact IH].
  - apply Hdict. induction entries as [|[k x] l IH]; constructor; [apply go | exact IH].
Qed.

Lemma tolist_converted (a : nd) :
  converted (tolist a) /\ _make_json_serializable (tolist a) = tolist a.
Proof.
  induction a as [z|q|items IH] using nd_induction; [split; reflexivity..|].
  simpl. induction IH as [|x l [Hc He] _ [IHc IHe]]; [split; reflexivity|].
  simpl. split; [split; assumption|].
  injection IHe as IHe. rewrite He, IHe. reflexivity.
Qed.

(** X23. [_make_json_serializable] replaces every NumPy integer, float and
    array that it reaches through lists and dictionaries by the plain
    Python value; what it returns holds no NumPy value outside tuples,
    which it leaves as they are.  It keeps the keys of a dictionary and
    their order, and the length of a list. *)
Theorem make_json_serializable_converts (obj : value) :
  converted (_make_json_serializable obj) /\
  dict_keys (_make_json_serializable obj) = dict_keys obj /\
  (forall items, obj = PyList items ->
     exists items', _make_json_serializable obj = PyList items' /\
                    length items' = length items).
Proof.
  split; [|split].
  - induction obj as [| | | | | | |a|items IH|items|entries IH] using value_induction;
      try exact I.
    + apply tolist_converted.
    + simpl. induction IH as [|x l Hx _ IHl]; simpl; [exact I | split; assumption].
    + simpl. induction IH as [|x l Hx _ IHl]; simpl; [exact I | split; assumption].
  - destruct obj as [| | | | | | |a| | |entries]; try reflexivity.
    + destruct a; reflexivity.
    + simpl. rewrite List.map_map. reflexivity.
  - intros items ->. simpl. eexists. split; [reflexivity|]. apply List.length_map.
Qed.

(** X24. Converting twice changes nothing more: [_make_json_serializable]
    is idempotent, and a value without NumPy parts is returned as it is. *)
Theorem make_json_serializable_idempotent (obj : value) :
  _make_json_serializable (_make_json_serializable obj) = _make_json_serializable obj
  /\ (converted obj -> _make_json_serializable obj = obj).
Proof.
  split.
  - induction obj as [| | | | | | |a|items IH|items|entries IH] using value_induction;
      try reflexivity.
    + apply tolist_converted.
    + simpl. f_equal. rewrite List.map_map.
      induction IH as [|x l Hx _ IHl]; [reflexivity|].
      cbn [List.map]. f_equal; [exact Hx | exact IHl].
    + simpl. f_equal. rewrite List.map_map.
      induction IH as [|[k x] l Hx _ IHl]; [reflexivity|].
      cbn [List.map]. f_equal; [|exact IHl]. cbn [fst snd] in *. f_equal. exact Hx.
  - induction obj as [| | | | | | |a|items IH|items|entries IH] using value_induction;
      try reflexivity; try (intros []).
    + simpl. intros Hc. f_equal.
      induction IH as [|x l Hx _ IHl]; simpl; [reflexivity|].
      destruct Hc as [Hcx Hcl]. rewrite (Hx Hcx), (IHl Hcl). reflexivity.
    + simpl. intros Hc. f_equal.
      induction IH as [|[k x] l Hx _ IHl]; simpl; [reflexivity|].
      destruct Hc as [Hcx Hcl]. simpl in Hx. rewrite (Hx Hcx), (IHl Hcl). reflexivity.
Qed.

End JsonFacts.

(** ** The rooftop detector *)

Section DetectorFacts.
Import Np Cv Detector RooftopDetector.

Context (cvtColor_BGR2GRAY : Obstacles.ndarray3 -> ndarray).
Context (contourArea : Contour -> Q).
Context (minAreaRect : Contour -> rotated_rect).
Context (boxPoints : rotated_rect -> list (Q * Q)).
Context (moments_of : Contour -> moments).
Context (findContours_EXTERNAL : ndarray -> list Contour).
Context (bilateralFilter : ndarray -> ndarray).
Context (resize : ndarray -> Z * Z -> ndarray).
Context (Canny : ndarray -> ndarray).
Context (boundingRect : Contour -> box).
Context `{ArgSort}.
Variable config : Config.t.

Local Abbreviation analyze := (_analyze_rooftop contourArea minAreaRect boxPoints moments_of config).
Local Abbreviation contours_of :=
  (valid_contours cvtColor_BGR2GRAY contourArea findContours_EXTERNAL bilateralFilter
     resize Canny boundingRect config).
Local Abbreviation detect :=
  (detect_rooftops cvtColor_BGR2GRAY contourArea minAreaRect boxPoints moments_of
     findContours_EXTERNAL bilateralFilter resize Canny boundingRect config).
Local Abbreviation build := (build_rooftops contourArea minAreaRect boxPoints moments_of config).

(** The area test of the raw-image branch. *)
Let in_range (c : Contour) : Prop :=
  (Config.get config "min_building_area" < contourArea c
   /\ contourArea c < Config.get config "max_building_area")%Q.

Lemma analyze_returns (roof_id : Z) (contour : Contour) (image : Obstacles.image) :
  exists r,
    analyze roof_id contour image = Py.Ok r /\
    Rooftop.id r = roof_id /\
    Rooftop.contour r = contour /\
    Rooftop.area_pixels r = contourArea contour /\
    (Rooftop.height (Rooftop.bounding_rect r) <= Rooftop.width (Rooftop.bounding_rect r))%Q.
Proof.
  unfold _analyze_rooftop.
  destruct (minAreaRect contour) as [[center [width height]] angle].
  assert (Hc : exists c,
    (if negb (Qeq_bool (m00 (moments_of contour)) 0)
     then a ← Py.truediv (m10 (moments_of contour)) (m00 (moments_of contour));
          b ← Py.truediv (m01 (moments_of contour)) (m00 (moments_of contour));
          mret (Py.int a, Py.int b)
     else mret (Py.int center.1, Py.int center.2)) = Py.Ok c).
  { unfold Py.truediv.
    destruct (Qeq_bool (m00 (moments_of contour)) 0); simpl; eexists; reflexivity. }
  destruct Hc as [c Hc]. rewrite Hc.
  eexists. split; [reflexivity|]. cbn.
  refine (conj eq_refl (conj eq_refl (conj eq_refl _))).
  eapply Qle_trans; [apply Q.le_min_l | apply Q.le_max_l].
Qed.

Lemma build_inv (image : Obstacles.image) (cs : list Contour) :
  forall (i : Z) (acc : list Rooftop.t),
  exists rs,
    build image i cs acc = Py.Ok (acc ++ rs) /\
    map Rooftop.id rs = seqZ (i + 1) (Z.of_nat (length cs)) /\
    map Rooftop.contour rs = cs /\
    Forall (fun r => Rooftop.area_pixels r = contourArea (Rooftop.contour r)
                     /\ (Rooftop.height (Rooftop.bounding_rect r)
                         <= Rooftop.width (Rooftop.bounding_rect r))%Q) rs.
Proof.
  induction cs as [|c cs IH]; intros i acc.
  - exists []. rewrite app_nil_r. repeat split; constructor.
  - destruct (analyze_returns (i + 1) c image) as (r & Hr & Hid & Hcnt & Harea & Hwh).
    destruct (IH (i + 1) (acc ++ [r])) as (rs & Hrs & Hids & Hcs & Hall).
    exists (r :: rs). cbn [build_rooftops]. rewrite Hr.
    change (build image (i + 1) cs (acc ++ [r]) = Py.Ok (acc ++ r :: rs) /\
            map Rooftop.id (r :: rs) = seqZ (i + 1) (Z.of_nat (length (c :: cs))) /\
            map Rooftop.contour (r :: rs) = c :: cs /\
            Forall (fun r => Rooftop.area_pixels r = contourArea (Rooftop.contour r)
                     /\ (Rooftop.height (Rooftop.bounding_rect r)
                         <= Rooftop.width (Rooftop.bounding_rect r))%Q) (r :: rs)).
    rewrite Hrs, <- app_assoc. split; [reflexivity|]. split; [|split].
    + cbn [map length]. rewrite Hid, Hids.
      rewrite Nat2Z.inj_succ, (seqZ_cons (i + 1)) by lia.
      f_equal. f_equal; lia.
    + cbn [map]. rewrite Hcnt, Hcs. reflexivity.
    + constructor; [|exact Hall]. split; [rewrite Hcnt; exact Harea | exact Hwh].
Qed.

Lemma scan_scale_in_range (blur : ndarray) (scale : Q) (acc : list Contour) :
  Forall in_range acc ->
  Forall in_range
    (scan_scale contourArea findContours_EXTERNAL resize Canny config blur acc scale).
Proof.
  unfold scan_scale. destruct (shape blur) as [h w].
  generalize (findContours_EXTERNAL
                (Canny (resize blur (Py.int (inject_Z w * scale), Py.int (inject_Z h * scale))))).
  intros cs. revert acc. induction cs as [|c cs IH]; intros acc Hacc; [exact Hacc|].
  cbn [fold_left]. apply IH.
  destruct (Py.Qlt_bool _ _ && Py.Qlt_bool _ _) eqn:E; [|exact Hacc].
  apply andb_true_iff in E as [E1 E2].
  apply Forall_app. split; [exact Hacc|]. constructor; [|constructor].
  split; apply Qlt_bool_iff; assumption.
Qed.

Lemma valid_contours_area (image : Obstacles.image) :
  Forall (fun c => (100 < contourArea c)%Q \/ in_range c) (contours_of image).
Proof.
  unfold valid_contours.
  destruct (presegmented _).
  - apply Forall_forall. intros c Hc. apply list_elem_of_In, filter_In in Hc as [_ Hc].
    left. apply Qlt_bool_iff. exact Hc.
  - match goal with
    | |- Forall _ (_non_max_suppression _ ?all _) => assert (Hall : Forall in_range all)
    end.
    { cbn [fold_left]. repeat apply scan_scale_in_range. constructor. }
    apply Forall_forall. intros c Hc. right.
    eapply Forall_forall; [exact Hall|].
    eapply elem_of_submseteq; [exact Hc | apply suppression_submseteq].
Qed.


End DetectorFacts.

(** ** The analysis of one rooftop *)

Section AnalysisFacts.
Import Np Cv Img Placement Analysis.

Context (radians cos sin : Q -> Q).
Context (pointPolygonTest : Contour -> Q * Q -> bool -> Q).
Context (cvtColor_BGR2GRAY : Obstacles.ndarray3 -> ndarray).
Context (internal_feature : ndarray -> Z -> Z -> bool).
Context `{Obstacles.Sqrt}.
Context (drawContours_filled : Z * Z -> Contour -> ndarray).
Context (getStructuringElement_ELLIPSE : Z -> kernel).
Context (findContours_EXTERNAL : ndarray -> list Contour).
Context (contourArea : Contour -> Q).

Variable self : SolarPanelOptimizer.

Local Abbreviation analysis :=
  (analyze_rooftop radians cos sin pointPolygonTest cvtColor_BGR2GRAY internal_feature
     drawContours_filled getStructuringElement_ELLIPSE findContours_EXTERNAL contourArea self).

Local Abbreviation usable_mask_for :=
  (Analysis.usable_mask_for cvtColor_BGR2GRAY internal_feature drawContours_filled
     getStructuringElement_ELLIPSE self).

Lemma lookup_fresh (h : heap) : h !! fresh (dom h) = None.
Proof. apply not_elem_of_dom, is_fresh. Qed.

Lemma analysis_inv (image : Obstacles.image) (rooftop : Rooftop.t) (h : heap)
    (panels : list Panel.t) :
  (_place_panels_optimized radians cos sin pointPolygonTest self (fresh (dom h))
     (Rooftop.angle (Rooftop.bounding_rect rooftop)) (Rooftop.contour rooftop)
     (<[fresh (dom h) := usable_mask_for image rooftop]> h)).1 = Py.Ok panels ->
  exists a h',
    analysis image rooftop h = (Py.Ok a, h') /\
    panels = Analysis.panels a /\
    panel_count a = Z.of_nat (length (Analysis.panels a)) /\
    energy a = Energy._calculate_energy self (panel_count a) /\
    Suitability._rate_suitability rooftop (panel_count a) (obstacles_detected a)
      = Py.Ok (suitability a) /\
    usable_area_m2 a
      = (inject_Z (count_all_positive (usable_mask_for image rooftop))
         * (Config.get (config self) "pixel_to_meter"
            * Config.get (config self) "pixel_to_meter"))%Q /\
    rooftop_id a = Rooftop.id rooftop /\
    (forall l, is_Some (h !! l) -> h' !! l = h !! l).
Proof.
  intros Hopt. unfold analyze_rooftop. rewrite run_bind.
  change (alloc ?a h) with (Py.Ok (fresh (dom h)), <[fresh (dom h) := a]> h).
  fold (usable_mask_for image rooftop).
  set (l := fresh (dom h)) in *. set (h0 := <[l := usable_mask_for image rooftop]> h) in *.
  cbv beta iota. rewrite run_bind.
  pose proof (optimized_frame radians cos sin pointPolygonTest self l
                (Rooftop.angle (Rooftop.bounding_rect rooftop)) (Rooftop.contour rooftop)
                h0) as Hframe.
  destruct (_place_panels_optimized _ _ _ _ self l _ _ h0) as [r h1].
  simpl in Hopt, Hframe. subst r.
  rewrite run_bind, run_load.
  assert (Hl : h1 !! l = Some (usable_mask_for image rooftop)).
  { rewrite Hframe; unfold h0; rewrite lookup_insert_eq; [reflexivity | eexists; reflexivity]. }
  rewrite Hl. cbn [default]. rewrite run_bind, run_lift.
  destruct (rate_suitability_score rooftop
              (_count_obstacles findContours_EXTERNAL contourArea
                 (Obstacles._detect_obstacles cvtColor_BGR2GRAY internal_feature image
                    (roof_mask drawContours_filled image rooftop)))) as [base Hs].
  destruct (Hs (Z.of_nat (length panels))) as (s & Hrate & _).
  rewrite Hrate. rewrite run_ret.
  eexists; eexists. split; [reflexivity|]. cbn.
  refine (conj eq_refl (conj eq_refl (conj eq_refl (conj Hrate (conj eq_refl (conj eq_refl _)))))).
  intros l0 Hl0.
  assert (Hne : l <> l0).
  { intros <-. unfold l in Hl0. rewrite lookup_fresh in Hl0. destruct Hl0 as [? [=]]. }
  rewrite Hframe.
  - unfold h0. apply lookup_insert_ne. exact Hne.
  - unfold h0. rewrite lookup_insert_ne; [exact Hl0 | exact Hne].
Qed.

Lemma analysis_returns (image : Obstacles.image) (rooftop : Rooftop.t) (h : heap) :
  ~ Config.get (config self) "pixel_to_meter" == 0 ->
  0 <= panel_width_px self -> 0 <= panel_height_px self ->
  exists a h',
    analysis image rooftop h = (Py.Ok a, h') /\
    panel_count a = Z.of_nat (length (Analysis.panels a)) /\
    map Panel.panel_id (Analysis.panels a) = seqZ 1 (panel_count a) /\
    energy a = Energy._calculate_energy self (panel_count a) /\
    Suitability._rate_suitability rooftop (panel_count a) (obstacles_detected a)
      = Py.Ok (suitability a) /\
    usable_area_m2 a
      = (inject_Z (count_all_positive (usable_mask_for image rooftop))
         * (Config.get (config self) "pixel_to_meter"
            * Config.get (config self) "pixel_to_meter"))%Q /\
    rooftop_id a = Rooftop.id rooftop /\
    (forall l, is_Some (h !! l) -> h' !! l = h !! l).
Proof.
  intros Hscale Hw Hh.
  destruct (optimized_returns radians cos sin pointPolygonTest self (fresh (dom h))
              (Rooftop.angle (Rooftop.bounding_rect rooftop)) (Rooftop.contour rooftop)
              (<[fresh (dom h) := usable_mask_for image rooftop]> h) Hscale Hw Hh)
    as [panels Hopt].
  destruct (analysis_inv image rooftop h panels Hopt)
    as (a & h' & Hrun & Hp & Hn & He & Hs & Hu & Hid & Hfr).
  exists a, h'.
  refine (conj Hrun (conj Hn (conj _ (conj He (conj Hs (conj Hu (conj Hid Hfr))))))).
  rewrite Hn, <- Hp.
  destruct (_place_panels_optimized radians cos sin pointPolygonTest self (fresh (dom h))
              (Rooftop.angle (Rooftop.bounding_rect rooftop)) (Rooftop.contour rooftop)
              (<[fresh (dom h) := usable_mask_for image rooftop]> h)) as [r h1] eqn:E.
  simpl in Hopt. subst r.
  exact (optimized_numbered radians cos sin pointPolygonTest self _ _ _ _ _ _ E).
Qed.

(** X26. For an optimizer that the constructor built, with pixel dimensions
    that are not negative, [analyze_rooftop] returns on every image and
    rooftop.  In its result [panel_count] is the number of the panels,
    which are numbered 1, 2, 3, ...; [energy] is the energy of that many
    panels and [suitability] the rating for that many panels and the
    counted obstacles; [usable_area_m2] is the usable mask before the
    placement, which leaves it and every array of the caller unchanged. *)
Theorem analyze_rooftop_result (cfg : option Config.t)
    (image : Obstacles.image) (rooftop : Rooftop.t) (h : heap) :
  SolarPanelOptimizer_init cfg = Py.Ok self ->
  0 <= panel_width_px self -> 0 <= panel_height_px self ->
  exists a h',
    analysis image rooftop h = (Py.Ok a, h') /\
    panel_count a = Z.of_nat (length (Analysis.panels a)) /\
    map Panel.panel_id (Analysis.panels a) = seqZ 1 (panel_count a) /\
    energy a = Energy._calculate_energy self (panel_count a) /\
    Suitability._rate_suitability rooftop (panel_count a) (obstacles_detected a)
      = Py.Ok (suitability a) /\
    usable_area_m2 a
      = (inject_Z (count_all_positive (usable_mask_for image rooftop))
         * (Config.get (config self) "pixel_to_meter"
            * Config.get (config self) "pixel_to_meter"))%Q /\
    (forall l, is_Some (h !! l) -> h' !! l = h !! l).
Proof.
  intros Hinit Hw Hh. destruct (init_inv cfg self Hinit) as (Hscale & Hcfg & _ & _).
  rewrite <- Hcfg in Hscale.
  destruct (analysis_returns image rooftop h Hscale Hw Hh)
    as (a & h' & Hrun & Hn & Hids & He & Hs & Hu & _ & Hfr).
  exists a, h'. exact (conj Hrun (conj Hn (conj Hids (conj He (conj Hs (conj Hu Hfr)))))).
Qed.

(** X27. When the usable mask of a rooftop has no usable pixel (the roof is
    eaten up by the edge margin, or covered by obstacles), the analysis
    reports no panel, a usable area of 0 and an energy that is 0 in every
    field. *)
Theorem analyze_rooftop_without_usable_area
    (image : Obstacles.image) (rooftop : Rooftop.t) (h : heap) :
  ~ Config.get (config self) "pixel_to_meter" == 0 ->
  0 <= panel_width_px self -> 0 <= panel_height_px self ->
  no_usable_pixel (usable_mask_for image rooftop) ->
  exists a h',
    analysis image rooftop h = (Py.Ok a, h') /\
    Analysis.panels a = [] /\ panel_count a = 0 /\
    usable_area_m2 a == 0 /\
    Energy.system_capacity_kw (energy a) == 0 /\
    Energy.total_panel_area_m2 (energy a) == 0 /\
    Energy.estimated_annual_kwh (energy a) == 0 /\
    Energy.estimated_monthly_kwh (energy a) == 0 /\
    Energy.estimated_daily_kwh (energy a) == 0 /\
    Energy.co2_offset_kg_year (energy a) == 0.
Proof.
  intros Hscale Hw Hh Hblank.
  assert (Hopt : (_place_panels_optimized radians cos sin pointPolygonTest self
                    (fresh (dom h))
                    (Rooftop.angle (Rooftop.bounding_rect rooftop)) (Rooftop.contour rooftop)
                    (<[fresh (dom h) := usable_mask_for image rooftop]> h)).1 = Py.Ok []).
  { apply optimized_blank; try assumption.
    - rewrite lookup_insert_eq. eexists; reflexivity.
    - rewrite lookup_insert_eq. exact Hblank. }
  destruct (analysis_inv image rooftop h [] Hopt)
    as (a & h' & Hrun & Hp & Hn & He & _ & Hu & _ & _).
  exists a, h'. split; [exact Hrun|]. split; [symmetry; exact Hp|].
  rewrite <- Hp in Hn. simpl in Hn. split; [exact Hn|].
  split.
  { rewrite Hu. unfold count_all_positive.
    rewrite (count_all_positive_blank _ Hblank). ring. }
  rewrite He, Hn. unfold Energy._calculate_energy. cbn.
  unfold Energy.annual_kwh, Energy.capacity_kw, Energy.total_area_m2.
  repeat split; apply round_zero; try field; ring.
Qed.

End AnalysisFacts.

(** ** The annotated image of the batch pipeline *)

Section AnnotateFacts.
Import Exc Pipeline RooftopDetector Main.

Context {Image Analysis : Type}.
Context (analyze_roof_for_solar : Image -> Contour -> Py.result Analysis).
Context (annual_energy : Analysis -> Q).
Context (suitability_rating : Analysis -> Suitability.rating).
Context (moments_of : Contour -> moments).

Local Abbreviation colour_of :=
  (fun result : @entry Analysis => color_map (suitability_rating (analysis result))).
Local Abbreviation has_centroid :=
  (fun p : Contour * @entry Analysis => negb (Qeq_bool (m00 (moments_of p.1)) 0)).
Local Abbreviation returns :=
  (fun (image : Image) (cnt : Contour) => exists a, analyze_roof_for_solar image cnt = Py.Ok a).

Lemma annotate_one_draws (cnt : Contour) (result : @entry Analysis)
    (output_image : list drawing) :
  exists out,
    annotate_one suitability_rating moments_of cnt result output_image = Ok out /\
    outlines out = outlines output_image ++ [(cnt, colour_of result)] /\
    labels out = labels output_image
                 ++ (if has_centroid (cnt, result) then [building_id result] else []).
Proof.
  unfold annotate_one, Py.truediv. cbn [fst].
  destruct (Qeq_bool (m00 (moments_of cnt)) 0); cbn.
  - eexists. split; [reflexivity|]. unfold outlines, labels.
    rewrite !omap_app. cbn. rewrite !app_nil_r. split; reflexivity.
  - eexists. split; [reflexivity|]. unfold outlines, labels.
    rewrite !omap_app. cbn. rewrite !app_nil_r. split; reflexivity.
Qed.

(** The loop from index [i] on, the results split at [i]: it raises
    [IndexError] when it runs out of results, and otherwise pairs the
    contours with the results by position. *)
Lemma annotate_from (regularized : list Contour) :
  forall (before rest : list (@entry Analysis)) (output_image : list drawing),
    match annotate suitability_rating moments_of (length before) regularized
            (before ++ rest) output_image with
    | Ok out =>
        (length regularized <= length rest)%nat /\
        outlines out
        = outlines output_image ++ zip regularized (map colour_of rest) /\
        labels out
        = labels output_image
          ++ map (fun p => building_id p.2) (List.filter has_centroid (zip regularized rest))
    | Raise e => e = IndexError /\ (length rest < length regularized)%nat
    end.
Proof.
  induction regularized as [|cnt cnts IH]; intros before rest output_image.
  - cbn. rewrite !app_nil_r. repeat split. lia.
  - cbn [annotate].
    destruct rest as [|result rest].
    + rewrite app_nil_r, lookup_ge_None_2 by lia. split; [reflexivity | cbn; lia].
    + rewrite lookup_app_r, Nat.sub_diag by lia. cbn [lookup list_lookup].
      destruct (annotate_one_draws cnt result output_image) as (out1 & Hone & Ho & Hl).
      rewrite Hone. cbn [mbind result_bind].
      specialize (IH (before ++ [result]) rest out1).
      rewrite length_app, Nat.add_1_r, <- app_assoc in IH. cbn [app] in IH.
      destruct (annotate _ _ _ cnts _ out1) as [out|e].
      * destruct IH as (Hlen & Ho' & Hl'). split; [cbn; lia|].
        rewrite Ho', Ho, Hl', Hl, <- !app_assoc. cbn [zip zip_with map app List.filter].
        split; [reflexivity|]. f_equal. cbn [fst].
        destruct (negb (Qeq_bool (m00 (moments_of cnt)) 0)); reflexivity.
      * destruct IH as [-> Hlen]. split; [reflexivity | cbn; lia].
Qed.

Lemma successes_length (image : Image) (contours : list Contour) :
  forall i : Z,
    (length (successes analyze_roof_for_solar image i contours) <= length contours)%nat /\
    (length (successes analyze_roof_for_solar image i contours) = length contours
     <-> Forall (returns image) contours).
Proof.
  induction contours as [|cnt cnts IH]; intros i; cbn [successes].
  - split; [reflexivity|]. split; [constructor | reflexivity].
  - destruct (IH (i + 1)) as [Hle Hiff].
    destruct (analyze_roof_for_solar image cnt) as [a|e] eqn:E; cbn [length].
    + split; [lia|]. rewrite Forall_cons. split.
      * intros Hlen. split; [exists a; exact E | apply Hiff; lia].
      * intros [_ Hall]. f_equal. apply Hiff. exact Hall.
    + split; [lia|]. split; [lia|]. rewrite Forall_cons. intros [[a Ha] _].
      rewrite E in Ha. discriminate.
Qed.


End AnnotateFacts.

(** ** The analysis of an image file *)

Section AnalyzeImageFacts.
Import Exc Np Cv Detector AnalyzeImage.

Context (radians cos sin : Q -> Q).
Context (pointPolygonTest : Contour -> Q * Q -> bool -> Q).
Context (cvtColor_BGR2GRAY : Obstacles.ndarray3 -> ndarray).
Context (internal_feature : ndarray -> Z -> Z -> bool).
Context `{Obstacles.Sqrt}.
Context (drawContours_filled : Z * Z -> Contour -> ndarray).
Context (getStructuringElement_ELLIPSE : Z -> kernel).
Context (findContours_EXTERNAL : ndarray -> list Contour).
Context (contourArea : Contour -> Q).
Context (minAreaRect : Contour -> RooftopDetector.rotated_rect).
Context (boxPoints : RooftopDetector.rotated_rect -> list (Q * Q)).
Context (moments_of : Contour -> RooftopDetector.moments).
Context (bilateralFilter : ndarray -> ndarray).
Context (resize : ndarray -> Z * Z -> ndarray).
Context (Canny : ndarray -> ndarray).
Context (boundingRect : Contour -> box).
Context `{ArgSort}.
Context (path_exists : string -> bool).
Context (imread : string -> option Obstacles.ndarray3).
Context (now : string).
Context (stem : string -> string).
Context (path_join : string -> string -> string).
Context (create_summary_image :
           Config.t -> Obstacles.image -> list Analysis.t -> Obstacles.ndarray3).

Local Abbreviation run :=
  (analyze_image radians cos sin pointPolygonTest cvtColor_BGR2GRAY internal_feature
     drawContours_filled getStructuringElement_ELLIPSE findContours_EXTERNAL contourArea
     minAreaRect boxPoints moments_of bilateralFilter resize Canny boundingRect
     path_exists imread now stem path_join create_summary_image).
Local Abbreviation all :=
  (analyze_all radians cos sin pointPolygonTest cvtColor_BGR2GRAY internal_feature
     drawContours_filled getStructuringElement_ELLIPSE findContours_EXTERNAL contourArea).
Local Abbreviation detect cfg :=
  (RooftopDetector.detect_rooftops cvtColor_BGR2GRAY contourArea minAreaRect boxPoints
     moments_of findContours_EXTERNAL bilateralFilter resize Canny boundingRect
     (RooftopDetector.init (Some (Config.merge cfg)))).

(** Merging a merged configuration with the defaults changes nothing: the
    detector and the optimizer work with the configuration of
    [analyze_image]. *)
Lemma merge_merged (config : option Config.t) :
  Config.merge (Some (Config.merge config)) = Config.merge config.
Proof.
  unfold Config.merge. destruct config as [c|].
  - rewrite <- (assoc_L (∪)). f_equal; apply (idemp_L (∪)).
  - apply (idemp_L (∪)).
Qed.

Lemma analyze_all_returns (optimizer : SolarPanelOptimizer) (image : Obstacles.image)
    (rooftops : list Rooftop.t) :
  ~ Config.get (config optimizer) "pixel_to_meter" == 0 ->
  0 <= panel_width_px optimizer -> 0 <= panel_height_px optimizer ->
  forall (analyses : list Analysis.t) (store : heap),
  exists more store',
    all optimizer image rooftops analyses store = (Py.Ok (analyses ++ more), store') /\
    map Analysis.rooftop_id more = map Rooftop.id rooftops /\
    Forall (fun a => Analysis.panel_count a = Z.of_nat (length (Analysis.panels a))
                     /\ Analysis.energy a
                        = Energy._calculate_energy optimizer (Analysis.panel_count a)) more.
Proof.
  intros Hscale Hw Hh. induction rooftops as [|r rs IH]; intros analyses store.
  - exists [], store. rewrite app_nil_r. repeat split. constructor.
  - destruct (analysis_returns radians cos sin pointPolygonTest cvtColor_BGR2GRAY
                internal_feature drawContours_filled getStructuringElement_ELLIPSE
                findContours_EXTERNAL contourArea optimizer image r store Hscale Hw Hh)
      as (a & s1 & Hrun & Hn & _ & He & _ & _ & Hid & _).
    destruct (IH (analyses ++ [a]) s1) as (more & s2 & Hmore & Hids & Hall).
    exists (a :: more), s2. cbn [analyze_all]. rewrite run_bind, Hrun, Hmore.
    rewrite <- app_assoc. split; [reflexivity|]. split.
    + cbn [map]. rewrite Hid, Hids. reflexivity.
    + constructor; [split; assumption | exact Hall].
Qed.

Lemma detect_merged (config : option Config.t) (image : Obstacles.image) :
  exists rooftops,
    detect config image = Py.Ok rooftops /\
    map Rooftop.id rooftops = seqZ 1 (Z.of_nat (length rooftops)) /\
    map Rooftop.contour rooftops
    = RooftopDetector.valid_contours cvtColor_BGR2GRAY contourArea findContours_EXTERNAL
        bilateralFilter resize Canny boundingRect (Config.merge config) image.
Proof.
  unfold RooftopDetector.detect_rooftops, RooftopDetector.init. rewrite merge_merged.
  destruct (build_inv contourArea minAreaRect boxPoints moments_of (Config.merge config)
              image
              (RooftopDetector.valid_contours cvtColor_BGR2GRAY contourArea
                 findContours_EXTERNAL bilateralFilter resize Canny boundingRect
                 (Config.merge config) image) 0 [])
    as (rs & Hrs & Hids & Hcs & _).
  exists rs. split; [exact Hrs|]. split; [|exact Hcs].
  rewrite Hids, <- Hcs, List.length_map. reflexivity.
Qed.



End AnalyzeImageFacts.

(** * Instances and worked examples *)

(** ** A stable [argsort] *)

Section InsertionArgsort.
Import Detector.

Variable keys : list Z.

Local Abbreviation insert_key := (insert_key keys).
Local Abbreviation insertion_argsort := (insertion_argsort keys).

Lemma insert_key_perm (i : nat) (sorted : list nat) :
  Permutation (insert_key i sorted) (i :: sorted).
Proof.
  induction sorted as [|j rest IH]; simpl; [reflexivity|].
  destruct (_ <=? _); [reflexivity|]. rewrite IH. apply perm_swap.
Qed.

Lemma insert_key_sorted (i : nat) (sorted : list nat) :
  ForallOrdPairs (fun a b => nth a keys 0 <= nth b keys 0) sorted ->
  ForallOrdPairs (fun a b => nth a keys 0 <= nth b keys 0) (insert_key i sorted).
Proof.
  induction 1 as [|j rest Hj Hrest IH]; simpl.
  - repeat constructor.
  - destruct (Z.leb_spec (nth i keys 0) (nth j keys 0)) as [Hle|Hgt].
    + constructor; [|constructor; assumption].
      constructor; [exact Hle|].
      eapply List.Forall_impl; [|exact Hj]. simpl. intros b Hb. lia.
    + constructor; [|exact IH].
      apply List.Forall_forall. intros b Hb.
      apply (Permutation_in _ (insert_key_perm i rest)) in Hb.
      destruct Hb as [<-|Hb]; [lia|].
      rewrite List.Forall_forall in Hj. apply Hj. exact Hb.
Qed.

Lemma insertion_argsort_perm :
  Permutation insertion_argsort (seq 0 (length keys)).
Proof.
  unfold insertion_argsort. induction (seq 0 (length keys)) as [|i l IH]; simpl.
  - reflexivity.
  - rewrite insert_key_perm, IH. reflexivity.
Qed.

Lemma insertion_argsort_sorted :
  ForallOrdPairs (fun a b => nth a keys 0 <= nth b keys 0) insertion_argsort.
Proof.
  unfold insertion_argsort. induction (seq 0 (length keys)) as [|i l IH]; simpl.
  - constructor.
  - apply insert_key_sorted. exact IH.
Qed.

End InsertionArgsort.

#[local] Instance stable_argsort : Detector.ArgSort := {|
  Detector.argsort := insertion_argsort;
  Detector.argsort_perm := insertion_argsort_perm;
  Detector.argsort_sorted := insertion_argsort_sorted
|}.

(** ** A square root, to six decimals *)

Lemma sqrt_6_zero (q : Q) : q == 0 -> sqrt_6 q == 0.
Proof.
  intros Hq. unfold sqrt_6.
  assert (Hn : Qnum q = 0) by (unfold Qeq in Hq; simpl in Hq; lia).
  rewrite Hn. reflexivity.
Qed.

#[local] Instance decimal_sqrt : Obstacles.Sqrt := {|
  Obstacles.sqrt := sqrt_6;
  Obstacles.sqrt_0 := sqrt_6_zero
|}.

(** ** A worked placement *)

Lemma default_optimizer_init : SolarPanelOptimizer_init None = Py.Ok default_optimizer.
Proof. vm_compute. reflexivity. Qed.

Lemma example_landscape_run :
  (example_pass 6 11 example_store).1 = Py.Ok example_landscape.
Proof. vm_compute. reflexivity. Qed.

Lemma example_portrait_run :
  (example_pass 11 6 example_store).1 = Py.Ok example_portrait.
Proof. vm_compute. reflexivity. Qed.

(** Both passes place eight panels on the 30 x 30 mask. *)
Example example_counts :
  length example_landscape = 8%nat /\ length example_portrait = 8%nat.
Proof. split; reflexivity. Qed.

(** The first two panels of the landscape pass on the 30 x 30 mask do not
    overlap. *)
Lemma placement_pass_disjoint_witness :
  exists p q,
    example_landscape !! 0%nat = Some p /\
    example_landscape !! 1%nat = Some q /\
    ~ footprints_overlap p q.
Proof.
  destruct (example_pass 6 11 example_store) as [r h'] eqn:Hrun.
  assert (Hr : r = Py.Ok example_landscape).
  { change r with (r, h').1. rewrite <- Hrun. vm_compute. reflexivity. }
  subst r. eexists. eexists.
  split; [reflexivity|]. split; [reflexivity|].
  eapply (placement_pass_disjoint _ _ _ _ _ _ _ _ _ _ _ _ _ (or_introl Hrun) 0%nat 1%nat).
  - discriminate.
  - reflexivity.
  - reflexivity.
Defined.

(** On the 30 x 30 mask both passes place eight panels and the landscape
    panels are returned. *)
Lemma optimized_picks_larger_pass_witness :
  exists panels,
    (Placement._place_panels_optimized radians_deg cos_at_0 sin_at_0
       inside_everywhere default_optimizer 1%positive 0 [] example_store).1
    = Py.Ok panels /\
    ((length example_portrait <= length example_landscape)%nat ->
     panels = example_landscape) /\
    ((length example_landscape < length example_portrait)%nat ->
     panels = example_portrait) /\
    length panels = Nat.max (length example_landscape) (length example_portrait).
Proof.
  apply (optimized_picks_larger_pass radians_deg cos_at_0 sin_at_0 inside_everywhere
           default_optimizer 1%positive 0 [] example_store
           example_landscape example_portrait).
  - exists {| Np.shape := (30, 30); Np.pix := fun _ _ => 255 |}. reflexivity.
  - vm_compute. reflexivity.
  - vm_compute. reflexivity.
Defined.

(** The 30 x 30 mask is still in the store, unchanged, after the passes. *)
Lemma placement_never_mutates_usable_mask_witness :
  (forall panel_w panel_h l, is_Some (example_store !! l) ->
     (example_pass panel_w panel_h example_store).2 !! l = example_store !! l)
  /\ (example_pass 6 11 example_store).2 !! 1%positive = example_store !! 1%positive
  /\ (Placement._place_panels_optimized radians_deg cos_at_0 sin_at_0
        inside_everywhere default_optimizer 1%positive 0 [] example_store).2
     !! 1%positive = example_store !! 1%positive
  /\ (forall l, is_Some (example_store !! l) ->
        (Placement._place_panels_optimized radians_deg cos_at_0 sin_at_0
           inside_everywhere default_optimizer 1%positive 0 [] example_store).2 !! l
        = example_store !! l).
Proof.
  apply (placement_never_mutates_usable_mask radians_deg cos_at_0 sin_at_0
           inside_everywhere default_optimizer 1%positive 0 [] example_store).
  exists {| Np.shape := (30, 30); Np.pix := fun _ _ => 255 |}. reflexivity.
Defined.

(** The pass blanks the footprints in its copy (location 2) and leaves the
    caller's mask (location 1) as it was; a write through the caller's
    reference itself would be seen in the caller's mask. *)
Example pass_writes_its_copy :
  let h' := (example_pass 6 11 example_store).2 in
  Np.pix (default (Np.zeros (0, 0)) (h' !! 1%positive)) 0 0 = 255 /\
  Np.pix (default (Np.zeros (0, 0)) (h' !! 2%positive)) 0 0 = 0.
Proof. vm_compute. split; reflexivity. Qed.

Example write_through_reference :
  let footprint := {| Np.r0 := 0; Np.r1 := 11; Np.c0 := 0; Np.c1 := 6 |} in
  let h' := (Np.setitem 1%positive footprint 0 example_store).2 in
  Np.pix (default (Np.zeros (0, 0)) (h' !! 1%positive)) 0 0 = 0.
Proof. vm_compute. reflexivity. Qed.

(** ** A worked score *)

(** Area 15 points, seven panels 25, ratio 1 gives 15, one obstacle 10. *)
Example degenerate_roof_score :
  Suitability._rate_suitability degenerate_roof 7 1
  = Py.Ok {| Suitability.score := 65; Suitability.rating_of := Suitability.Good;
             Suitability.max_score := 100; Suitability.obstacles_found := 1 |}.
Proof. reflexivity. Qed.

(** Three panels against seven on the same rooftop. *)
Lemma rate_suitability_monotone_witness :
  exists s1 s2,
    Suitability._rate_suitability degenerate_roof 3 1 = Py.Ok s1 /\
    Suitability._rate_suitability degenerate_roof 7 1 = Py.Ok s2 /\
    Suitability.score s1 <= Suitability.score s2.
Proof.
  apply (rate_suitability_monotone degenerate_roof 1 3 7). lia.
Defined.

(** The rooftop of height 0 gets the aspect ratio 1. *)
Lemma rate_suitability_total_witness :
  Suitability.aspect_ratio (Rooftop.bounding_rect degenerate_roof) = Py.Ok 1%Q.
Proof.
  apply (proj2 (rate_suitability_total degenerate_roof 7 1)). reflexivity.
Defined.

(** ** A worked analysis loop *)

(** Three rooftops, the second of which fails: the loop raises and the
    first analysis is not returned. *)
Lemma analyze_image_loop_aborts_on_failure_witness :
  Pipeline.analyze_image_loop fragile_analysis tt
    ([sound_roof 2] ++ degenerate_roof :: [sound_roof 3]) []
  = Py.Raise Py.CvError.
Proof.
  apply (analyze_image_loop_aborts_on_failure fragile_analysis tt
           [sound_roof 2] [sound_roof 3] degenerate_roof [2] [] Py.CvError).
  - constructor; [reflexivity | constructor].
  - reflexivity.
Defined.

(** ** Worked duplicate suppression *)

(** A contour nested in a larger one is dropped; a disjoint one is kept. *)
Example suppression_drops_nested :
  Detector._non_max_suppression bounding_box
    [nested_square; outer_square; far_square] (3 # 10)
  = [outer_square; far_square].
Proof. reflexivity. Qed.

Example suppression_second_run :
  Detector._non_max_suppression bounding_box [outer_square; far_square] (3 # 10)
  = [outer_square; far_square].
Proof. reflexivity. Qed.

(** Two kept boxes of equal area come out in the opposite order on the
    second run: the result is the same as a set, not as a list. *)
Example suppression_ties_reorder :
  Detector._non_max_suppression bounding_box [outer_square; shifted_square] (3 # 10)
  = [shifted_square; outer_square]
  /\ Detector._non_max_suppression bounding_box [shifted_square; outer_square] (3 # 10)
     = [outer_square; shifted_square].
Proof. split; reflexivity. Qed.

(** ** Worked placements *)

(** The eight panels of the landscape pass are numbered 1 to 8. *)
Lemma placement_ids_consecutive_witness :
  map Panel.panel_id example_landscape = seqZ 1 (Z.of_nat (length example_landscape)).
Proof.
  destruct (example_pass 6 11 example_store) as [r h'] eqn:Hrun.
  assert (Hr : r = Py.Ok example_landscape).
  { change r with (r, h').1. rewrite <- Hrun. vm_compute. reflexivity. }
  subst r.
  exact (placement_ids_consecutive radians_deg cos_at_0 sin_at_0 inside_everywhere
           default_optimizer 1%positive 6 11 0 [] example_store h' example_landscape
           (or_introl Hrun)).
Defined.

(** They are 6 x 11 pixels and lie inside the 30 x 30 mask. *)
Lemma placement_pass_within_mask_witness :
  let um := default (Np.zeros (0, 0)) (example_store !! 1%positive) in
  Forall (fun p =>
            Panel.dimensions_pixels p
            = {| Panel.width_px := 6; Panel.height_px := 11 |} /\
            (0 <= Panel.x (Panel.center p) - inject_Z 6 / 2 /\
             Panel.x (Panel.center p) + inject_Z 6 / 2 <= inject_Z ((Np.shape um).2 - 1) /\
             0 <= Panel.y (Panel.center p) - inject_Z 11 / 2 /\
             Panel.y (Panel.center p) + inject_Z 11 / 2 <= inject_Z ((Np.shape um).1 - 1))%Q)
         example_landscape.
Proof.
  destruct (example_pass 6 11 example_store) as [r h'] eqn:Hrun.
  assert (Hr : r = Py.Ok example_landscape).
  { change r with (r, h').1. rewrite <- Hrun. vm_compute. reflexivity. }
  subst r.
  apply (placement_pass_within_mask radians_deg cos_at_0 sin_at_0 inside_everywhere
           default_optimizer 1%positive 6 11 0 [] example_store h' example_landscape).
  - lia.
  - lia.
  - exact Hrun.
Defined.

(** Each of them stands on a cell of the mask that is usable. *)
Lemma placement_pass_covered_witness :
  let um := default (Np.zeros (0, 0)) (example_store !! 1%positive) in
  Forall (fun p => exists panel_id x y,
            p = Placement._create_panel_geometry radians_deg cos_at_0 sin_at_0
                  default_optimizer panel_id x y 6 11 0 /\
            let region := Np.slice um y (y + 11) x (x + 6) in
            Np.size region <> 0 /\
            9 * Np.size region < 10 * Np.count_positive um region)
         example_landscape.
Proof.
  destruct (example_pass 6 11 example_store) as [r h'] eqn:Hrun.
  assert (Hr : r = Py.Ok example_landscape).
  { change r with (r, h').1. rewrite <- Hrun. vm_compute. reflexivity. }
  subst r.
  exact (placement_pass_covered radians_deg cos_at_0 sin_at_0 inside_everywhere
           default_optimizer 1%positive 6 11 0 [] example_store h' example_landscape Hrun).
Defined.

(** On the 30 x 30 mask without a usable pixel nothing is placed. *)
Lemma placement_blank_mask_places_nothing_witness :
  (forall panel_w panel_h, 0 <= panel_w -> 0 <= panel_h ->
     (Placement._place_panels_with_orientation radians_deg cos_at_0 sin_at_0
        inside_everywhere default_optimizer 1%positive panel_w panel_h 0 []
        blank_store).1 = Py.Ok [])
  /\ (0 <= panel_width_px default_optimizer -> 0 <= panel_height_px default_optimizer ->
      (Placement._place_panels_optimized radians_deg cos_at_0 sin_at_0
         inside_everywhere default_optimizer 1%positive 0 [] blank_store).1 = Py.Ok []).
Proof.
  apply (placement_blank_mask_places_nothing radians_deg cos_at_0 sin_at_0
           inside_everywhere default_optimizer 1%positive 0 [] blank_store).
  - intros E. vm_compute in E. discriminate E.
  - exists (Np.zeros (30, 30)). reflexivity.
  - intros i j _. vm_compute. discriminate.
Defined.

(** A panel of 6 x 40 pixels does not fit the 30 x 30 mask. *)
Lemma placement_small_mask_places_nothing_witness :
  (example_pass 6 40 example_store).1 = Py.Ok [].
Proof.
  apply (placement_small_mask_places_nothing radians_deg cos_at_0 sin_at_0
           inside_everywhere default_optimizer 1%positive 6 40 0 [] example_store).
  - intros E. vm_compute in E. discriminate E.
  - lia.
  - lia.
  - left. vm_compute. discriminate.
Defined.


(** At the roof angle 0 the corners of the panel at (12, 24) are the
    corners of its cell. *)
Lemma panel_geometry_unrotated_witness :
  Forall2 (fun c p => Panel.x c == inject_Z p.1 /\ Panel.y c == inject_Z p.2)
    (Panel.corners (Placement._create_panel_geometry radians_deg cos_at_0 sin_at_0
                      default_optimizer 1 12 24 6 11 0))
    [ (12, 24); (12 + 6, 24); (12 + 6, 24 + 11); (12, 24 + 11) ].
Proof.
  apply (panel_geometry_unrotated radians_deg cos_at_0 sin_at_0 default_optimizer
           1 12 24 6 11 0).
  - reflexivity.
  - reflexivity.
Defined.

(** ** Worked duplicate suppression and scores *)

(** Of a nested, an outer and a far square the outer one comes first. *)
Lemma non_max_suppression_keeps_largest_witness :
  exists c rest,
    Detector._non_max_suppression bounding_box
      [nested_square; outer_square; far_square] (3 # 10) = c :: rest /\
    In c [nested_square; outer_square; far_square] /\
    forall c', In c' [nested_square; outer_square; far_square] ->
      Detector.box_area (bounding_box c') <= Detector.box_area (bounding_box c).
Proof.
  apply (non_max_suppression_keeps_largest bounding_box
           [nested_square; outer_square; far_square] (3 # 10)).
  discriminate.
Defined.

(** One panel on the rooftop of height 0: 40 points, rated Fair. *)
Lemma rate_suitability_needs_panels_witness :
  Suitability.score
    {| Suitability.score := 40; Suitability.rating_of := Suitability.Fair;
       Suitability.max_score := 100; Suitability.obstacles_found := 1 |} <= 65 /\
  Suitability.rating_of
    {| Suitability.score := 40; Suitability.rating_of := Suitability.Fair;
       Suitability.max_score := 100; Suitability.obstacles_found := 1 |}
  <> Suitability.Excellent.
Proof.
  apply (rate_suitability_needs_panels degenerate_roof 1 1).
  - lia.
  - reflexivity.
Defined.

(** The flat grey image under a roof mask that selects nothing. *)
Lemma detect_obstacles_empty_roof_witness :
  Obstacles._detect_obstacles first_channel no_internal_feature
    (Obstacles.Gray flat_roof) (Np.zeros (5, 5))
  = Np.zeros (Np.shape (gray_of first_channel (Obstacles.Gray flat_roof))).
Proof.
  apply (detect_obstacles_empty_roof first_channel no_internal_feature
           (Obstacles.Gray flat_roof) (Np.zeros (5, 5))).
  intros i j _. vm_compute. discriminate.
Defined.

(** ** Worked numbers of the batch analyser *)


(** The default settings of the two modules describe the same panel. *)
Lemma annual_energy_models_agree_witness :
  exists e,
    RoofForSolar._estimate_annual_energy RoofForSolar.DEFAULTS 8
      (Energy.base_irradiance default_optimizer) = Exc.Ok e /\
    e == Energy.annual_kwh default_optimizer 8.
Proof.
  apply (annual_energy_models_agree RoofForSolar.DEFAULTS default_optimizer 8).
  - reflexivity.
  - reflexivity.
  - reflexivity.
  - reflexivity.
Defined.

(** Delhi, a roof that faces south at 30 degrees, no shade. *)
Lemma solar_irradiance_bounds_witness :
  exists irradiance,
    RoofForSolar._calculate_solar_irradiance RoofForSolar.DEFAULTS 180 30 1
    = Exc.Ok irradiance /\
    ((6375 # 10000) * ((2200 - 8 * Qabs (286139 # 10000)) * 1) <= irradiance /\
     irradiance <= (2200 - 8 * Qabs (286139 # 10000)) * 1)%Q.
Proof.
  apply (solar_irradiance_bounds RoofForSolar.DEFAULTS (286139 # 10000) 180 30 1).
  - reflexivity.
  - vm_compute. discriminate.
  - split; vm_compute; discriminate.
  - split; vm_compute; discriminate.
  - vm_compute. discriminate.
Defined.

(** The same roof at the optimal azimuth and slope. *)
Lemma solar_irradiance_optimum_witness :
  exists irradiance,
    RoofForSolar._calculate_solar_irradiance RoofForSolar.DEFAULTS
      (if Py.Qlt_bool 0 (286139 # 10000) then 180 else 0)
      (Qabs (286139 # 10000)) 1 = Exc.Ok irradiance /\
    irradiance == (2200 - 8 * Qabs (286139 # 10000)) * 1.
Proof.
  apply (solar_irradiance_optimum RoofForSolar.DEFAULTS (286139 # 10000) 1).
  reflexivity.
Defined.

(** A roof of 25 square metres: Fair in full shade, Good in full sun. *)
Lemma suitability_rating_monotone_in_shading_witness :
  RoofForSolar._calculate_suitability_rating RoofForSolar.DEFAULTS 25 0 180 28
  = Exc.Ok Suitability.Fair /\
  RoofForSolar._calculate_suitability_rating RoofForSolar.DEFAULTS 25 1 180 28
  = Exc.Ok Suitability.Good /\
  rating_rank Suitability.Fair <= rating_rank Suitability.Good.
Proof.
  assert (H1 : RoofForSolar._calculate_suitability_rating RoofForSolar.DEFAULTS 25 0 180 28
               = Exc.Ok Suitability.Fair) by (vm_compute; reflexivity).
  assert (H2 : RoofForSolar._calculate_suitability_rating RoofForSolar.DEFAULTS 25 1 180 28
               = Exc.Ok Suitability.Good) by (vm_compute; reflexivity).
  split; [exact H1|]. split; [exact H2|].
  apply (suitability_rating_monotone_in_shading RoofForSolar.DEFAULTS 25 180 28
           0 1 Suitability.Fair Suitability.Good).
  - vm_compute. discriminate.
  - exact H1.
  - exact H2.
Defined.

(** A roof of 10 square metres in full sun is rated Good. *)
Lemma suitability_rating_excellent_needs_area_and_sun_witness :
  RoofForSolar._calculate_suitability_rating RoofForSolar.DEFAULTS 10 1 180 28
  = Exc.Ok Suitability.Good /\
  Suitability.Good <> Suitability.Excellent.
Proof.
  assert (H1 : RoofForSolar._calculate_suitability_rating RoofForSolar.DEFAULTS 10 1 180 28
               = Exc.Ok Suitability.Good) by (vm_compute; reflexivity).
  split; [exact H1|].
  apply (suitability_rating_excellent_needs_area_and_sun RoofForSolar.DEFAULTS
           10 1 180 28 Suitability.Good).
  - split; vm_compute; discriminate.
  - vm_compute. discriminate.
  - left. vm_compute. reflexivity.
  - exact H1.
Defined.

(** Three panels of 6 x 11 pixels on the full 30 x 30 mask. *)
Lemma generate_panel_grid_positions_witness :
  Z.of_nat (length [ (0, 0); (11, 0); (22, 0) ]) <= Z.max 1 3 /\
  Forall (fun '(x, y) =>
            let region := Np.slice (full_mask 30 30) y (y + 11) x (x + 6) in
            0 < Np.size region /\
            (8 * 255 * Np.size region < 10 * Img.sum_view (full_mask 30 30) region))
         [ (0, 0); (11, 0); (22, 0) ].
Proof.
  apply (generate_panel_grid_positions (full_mask 30 30) 6 11 3
           [ (0, 0); (11, 0); (22, 0) ]).
  vm_compute. reflexivity.
Defined.


(** The flat grey roof of intensity 100 under the default settings. *)
Lemma identify_optimal_zones_excludes_obstructions_witness :
  exists z,
    Layout._identify_optimal_zones RoofForSolar.DEFAULTS first_channel single_pixel
      (Obstacles.Gray flat_roof) whole_mask 1 = Exc.Ok z /\
    (forall i j, 0 < Np.pix (Layout.usable_mask z) i j ->
       50 < Np.pix (gray_of first_channel (Obstacles.Gray flat_roof)) i j <= 200) /\
    Layout.usable_area z
    = (inject_Z (Img.count_all_positive (Layout.usable_mask z))
       * ((15 # 100) * (15 # 100)))%Q /\
    Layout.quality_map z = Layout.usable_mask z.
Proof.
  apply (identify_optimal_zones_excludes_obstructions first_channel single_pixel
           RoofForSolar.DEFAULTS (Obstacles.Gray flat_roof) whole_mask 1 (15 # 100)).
  reflexivity.
Defined.

(** ** A worked analysis of a rooftop and of an image file *)

Local Abbreviation example_analysis :=
  (Analysis.analyze_rooftop radians_deg cos_at_0 sin_at_0 inside_everywhere
     first_channel no_internal_feature draw_nothing single_pixel no_contours
     box_contour_area default_optimizer).
Local Abbreviation example_usable_mask :=
  (Analysis.usable_mask_for first_channel no_internal_feature draw_nothing single_pixel
     default_optimizer).

(** The default optimizer on the flat grey image, in an empty store. *)
Lemma analyze_rooftop_result_witness :
  exists a h',
    example_analysis (Obstacles.Gray flat_roof) (sound_roof 1) ∅ = (Py.Ok a, h') /\
    Analysis.panel_count a = Z.of_nat (length (Analysis.panels a)) /\
    map Panel.panel_id (Analysis.panels a) = seqZ 1 (Analysis.panel_count a) /\
    Analysis.energy a = Energy._calculate_energy default_optimizer (Analysis.panel_count a) /\
    Suitability._rate_suitability (sound_roof 1) (Analysis.panel_count a)
      (Analysis.obstacles_detected a) = Py.Ok (Analysis.suitability a) /\
    Analysis.usable_area_m2 a
    = (inject_Z (Img.count_all_positive
                   (example_usable_mask (Obstacles.Gray flat_roof) (sound_roof 1)))
       * (Config.get (config default_optimizer) "pixel_to_meter"
          * Config.get (config default_optimizer) "pixel_to_meter"))%Q /\
    (forall l, is_Some ((∅ : Np.heap) !! l) -> h' !! l = (∅ : Np.heap) !! l).
Proof.
  apply (analyze_rooftop_result radians_deg cos_at_0 sin_at_0 inside_everywhere
           first_channel no_internal_feature draw_nothing single_pixel no_contours
           box_contour_area default_optimizer None (Obstacles.Gray flat_roof)
           (sound_roof 1) ∅).
  - vm_compute. reflexivity.
  - vm_compute. discriminate.
  - vm_compute. discriminate.
Defined.

(** The rooftop with an empty contour has no usable pixel. *)
Lemma analyze_rooftop_without_usable_area_witness :
  exists a h',
    example_analysis (Obstacles.Gray flat_roof) (sound_roof 1) ∅ = (Py.Ok a, h') /\
    Analysis.panels a = [] /\ Analysis.panel_count a = 0 /\
    Analysis.usable_area_m2 a == 0 /\
    Energy.system_capacity_kw (Analysis.energy a) == 0 /\
    Energy.total_panel_area_m2 (Analysis.energy a) == 0 /\
    Energy.estimated_annual_kwh (Analysis.energy a) == 0 /\
    Energy.estimated_monthly_kwh (Analysis.energy a) == 0 /\
    Energy.estimated_daily_kwh (Analysis.energy a) == 0 /\
    Energy.co2_offset_kg_year (Analysis.energy a) == 0.
Proof.
  apply (analyze_rooftop_without_usable_area radians_deg cos_at_0 sin_at_0
           inside_everywhere first_channel no_internal_feature draw_nothing single_pixel
           no_contours box_contour_area default_optimizer (Obstacles.Gray flat_roof)
           (sound_roof 1) ∅).
  - intros E. vm_compute in E. discriminate E.
  - vm_compute. discriminate.
  - vm_compute. discriminate.
  - intros i j Hin. apply in_image_spec in Hin. cbn in Hin.
    cbn [Analysis.usable_mask_for Analysis.usable_mask_of Analysis.roof_mask
         Analysis.image_shape draw_nothing single_pixel Cv.bitwise_and Cv.erode
         Np.pix Np.shape Np.zeros fold_right flat_roof].
    rewrite (proj2 (in_image_spec _ (i + 0) (j + 0))) by (cbn; lia).
    reflexivity.
Defined.

Local Abbreviation example_run :=
  (AnalyzeImage.analyze_image radians_deg cos_at_0 sin_at_0 inside_everywhere
     first_channel no_internal_feature draw_nothing single_pixel roof_outline
     box_contour_area upright_rect no_box_points box_moments same_array same_size
     same_array bounding_box every_path_exists reads_black_image "2026-01-01T00:00:00"
     file_stem join_with_slash picture_unchanged).
Local Abbreviation example_detect cfg :=
  (RooftopDetector.detect_rooftops first_channel box_contour_area upright_rect
     no_box_points box_moments roof_outline same_array same_size same_array bounding_box
     (RooftopDetector.init (Some (Config.merge cfg)))).


